(** * OwlPath (StackIt backend): votes, reputation ledger, notifications
      and the WebSocket consumers.

    A shallow embedding of the Django code under [backend/]:
    - [votes/models.py]            [Vote.toggle_vote]
    - [core/models.py]             [ReputationTransaction.save]
    - [core/utils.py]              [BusinessRuleValidator], [RealtimeSyncMixin]
    - [questions/models.py]        [Question.accept_answer], [Question.vote_score]
    - [questions/views.py]         [AcceptAnswerView.post]
    - [answers/models.py]          [Answer.save], [Answer.vote_score]
    - [notifications/]             models, utils, signals, views, consumers
    - [realtime/consumers.py]      the four channel consumers

    Tables are lists of rows in creation order.  Python integers are [Z].
    Exceptions are values of [exn]; a call returns a [result] together with
    the state it leaves behind.  The channel layer is a table of group
    memberships and one outbox per open connection; [group_send] hands the
    event to the handler the receiving consumer class has for its type.
    The clock is an argument: [now] is the text [timezone.now().isoformat()]
    evaluates to at the call. *)

From Stdlib Require Import ZArith List String Bool Lia Ascii DecimalString.
From Stdlib Require DecimalFacts DecimalPos DecimalZ.
From Stdlib Require Import Sorted Permutation.
Import ListNotations.

Open Scope string_scope.
Open Scope list_scope.
Open Scope Z_scope.

(* ================================================================= *)
(** ** Python values *)

(** [str(n)] for an integer. *)
Definition str (z : Z) : string := NilZero.string_of_int (Z.to_int z).

(** The double quote character used inside f-strings. *)
Definition dquote : string := String (ascii_of_nat 34) EmptyString.

(** What [json.dumps] is given: dicts keep their insertion order. *)
#[local] Unset Elimination Schemes.
Inductive json : Type :=
| JNull
| JBool (b : bool)
| JNum (z : Z)
| JStr (s : string)
| JArr (items : list json)
| JObj (fields : list (string * json)).
#[local] Set Elimination Schemes.

Definition dict : Type := list (string * json).

(** [d.get(k)] as an option; [d[k]] raises [KeyError] on [None]. *)
Fixpoint dict_get (k : string) (d : dict) : option json :=
  match d with
  | [] => None
  | (k', v) :: d' => if String.eqb k k' then Some v else dict_get k d'
  end.

(** [d.get(k, default)]. *)
Definition dict_get_default (k : string) (default : json) (d : dict) : json :=
  match dict_get k d with
  | Some v => v
  | None => default
  end.

(** [d.get(k)]: [None] becomes JSON [null]. *)
Definition dict_get_null (k : string) (d : dict) : json :=
  dict_get_default k JNull d.

Definition json_of_option_Z (o : option Z) : json :=
  match o with
  | Some z => JNum z
  | None => JNull
  end.

(** Top-level field of an outbound message. *)
Definition message_field (k : string) (m : json) : option json :=
  match m with
  | JObj d => dict_get k d
  | _ => None
  end.

Definition has_field (k : string) (m : json) : bool :=
  match message_field k m with
  | Some _ => true
  | None => false
  end.

(* ================================================================= *)
(** ** Exceptions and results *)

Inductive exn : Type :=
| ValidationError (msg : string)
| DoesNotExist
| MultipleObjectsReturned
| IntegrityError
| DatabaseError.

Inductive result (A : Type) : Type :=
| Ok (a : A)
| Raise (e : exn).

Arguments Ok {A} a.
Arguments Raise {A} e.

(** [Model.objects.get(...)]: exactly one matching row, or an exception. *)
Definition objects_get {A : Type} (p : A -> bool) (rows : list A) : result A :=
  match filter p rows with
  | [] => Raise DoesNotExist
  | [r] => Ok r
  | _ :: _ :: _ => Raise MultipleObjectsReturned
  end.

(** [QuerySet.update(...)]: rewrites the matching rows, returns how many. *)
Definition queryset_update {A : Type} (p : A -> bool) (f : A -> A)
  (rows : list A) : list A * Z :=
  (map (fun r => if p r then f r else r) rows,
   Z.of_nat (List.length (filter p rows))).

(** The primary key the database gives a new row: above every key in use. *)
Definition fresh_pk {A : Type} (pk : A -> Z) (rows : list A) : Z :=
  1 + fold_right (fun r m => Z.max (pk r) m) 0 rows.

(* ================================================================= *)
(** ** realtime/consumers.py and notifications/consumers.py:
       the messages the consumers send *)

Module RealtimeConsumers.

Module NotificationConsumer.

Definition connection_established (now : string) : json :=
  JObj [("type", JStr "connection_established");
        ("message", JStr "Connected to real-time notifications");
        ("timestamp", JStr now)].

Definition notification_marked_read (now : string) (notification_id : json) : json :=
  JObj [("type", JStr "notification_marked_read");
        ("notification_id", notification_id);
        ("timestamp", JStr now)].

Definition question_subscribed (now : string) (question_id : json)
  (question_id_text : string) : json :=
  JObj [("type", JStr "question_subscribed");
        ("question_id", question_id);
        ("message", JStr ("Subscribed to question " ++ question_id_text ++ " updates"));
        ("timestamp", JStr now)].

Definition handle_heartbeat (now : string) : json :=
  JObj [("type", JStr "heartbeat_response"); ("timestamp", JStr now)].

Definition send_error (now : string) (message : string) : json :=
  JObj [("type", JStr "error");
        ("message", JStr message);
        ("timestamp", JStr now)].

Definition pending_notifications (now : string) (notifications : list json) : json :=
  JObj [("type", JStr "pending_notifications");
        ("notifications", JArr notifications);
        ("count", JNum (Z.of_nat (List.length notifications)));
        ("timestamp", JStr now)].

(** Channel layer handlers: [None] is the [KeyError] of [event[...]]. *)
Definition new_notification (now : string) (event : dict) : option json :=
  match dict_get "notification" event with
  | Some n =>
      Some (JObj [("type", JStr "new_notification");
                  ("notification", n);
                  ("timestamp", dict_get_default "timestamp" (JStr now) event)])
  | None => None
  end.

Definition reputation_update (now : string) (event : dict) : option json :=
  match dict_get "new_reputation" event, dict_get "change" event,
        dict_get "reason" event with
  | Some r, Some c, Some why =>
      Some (JObj [("type", JStr "reputation_update");
                  ("new_reputation", r);
                  ("change", c);
                  ("reason", why);
                  ("timestamp", dict_get_default "timestamp" (JStr now) event)])
  | _, _, _ => None
  end.

Definition vote_update (now : string) (event : dict) : option json :=
  match dict_get "content_type" event, dict_get "object_id" event,
        dict_get "vote_score" event with
  | Some ct, Some oid, Some score =>
      Some (JObj [("type", JStr "vote_update");
                  ("content_type", ct);
                  ("object_id", oid);
                  ("vote_score", score);
                  ("user_vote", dict_get_null "user_vote" event);
                  ("timestamp", dict_get_default "timestamp" (JStr now) event)])
  | _, _, _ => None
  end.

Definition answer_update (now : string) (event : dict) : option json :=
  match dict_get "question_id" event, dict_get "answer" event with
  | Some qid, Some a =>
      Some (JObj [("type", JStr "new_answer");
                  ("question_id", qid);
                  ("answer", a);
                  ("timestamp", dict_get_default "timestamp" (JStr now) event)])
  | _, _ => None
  end.

End NotificationConsumer.

Module QuestionConsumer.

Definition question_data (now : string) (question : json) : json :=
  JObj [("type", JStr "question_data");
        ("question", question);
        ("timestamp", JStr now)].

Definition question_vote_update (now : string) (event : dict) : option json :=
  match dict_get "vote_score" event with
  | Some score =>
      Some (JObj [("type", JStr "vote_update");
                  ("vote_score", score);
                  ("upvotes", dict_get_default "upvotes" (JNum 0) event);
                  ("downvotes", dict_get_default "downvotes" (JNum 0) event);
                  ("timestamp", dict_get_default "timestamp" (JStr now) event)])
  | None => None
  end.

Definition new_answer (now : string) (event : dict) : option json :=
  match dict_get "answer" event with
  | Some a =>
      Some (JObj [("type", JStr "new_answer");
                  ("answer", a);
                  ("answer_count", dict_get_default "answer_count" (JNum 0) event);
                  ("timestamp", dict_get_default "timestamp" (JStr now) event)])
  | None => None
  end.

Definition answer_accepted (now : string) (event : dict) : option json :=
  match dict_get "answer_id" event with
  | Some aid =>
      Some (JObj [("type", JStr "answer_accepted");
                  ("answer_id", aid);
                  ("question_answered", JBool true);
                  ("timestamp", dict_get_default "timestamp" (JStr now) event)])
  | None => None
  end.

Definition view_count_update (now : string) (event : dict) : option json :=
  match dict_get "views" event with
  | Some v =>
      Some (JObj [("type", JStr "view_update");
                  ("views", v);
                  ("unique_views", dict_get_null "unique_views" event);
                  ("timestamp", dict_get_default "timestamp" (JStr now) event)])
  | None => None
  end.

End QuestionConsumer.

Module LiveFeedConsumer.

Definition recent_activities (now : string) (activities : list json) : json :=
  JObj [("type", JStr "recent_activities");
        ("activities", JArr activities);
        ("timestamp", JStr now)].

Definition new_activity (now : string) (event : dict) : option json :=
  match dict_get "activity" event with
  | Some a =>
      Some (JObj [("type", JStr "new_activity");
                  ("activity", a);
                  ("timestamp", dict_get_default "timestamp" (JStr now) event)])
  | None => None
  end.

Definition trending_update (now : string) (event : dict) : option json :=
  match dict_get "content" event with
  | Some c =>
      Some (JObj [("type", JStr "trending_update");
                  ("content", c);
                  ("timestamp", dict_get_default "timestamp" (JStr now) event)])
  | None => None
  end.

End LiveFeedConsumer.

Module AdminMonitoringConsumer.

(** [status] is the dict [get_system_status] returns; its own
    [timestamp] entry sits inside it, not beside [type]. *)
Definition system_status (status : json) : json :=
  JObj [("type", JStr "system_status"); ("status", status)].

Definition system_alert (now : string) (event : dict) : option json :=
  match dict_get "alert" event with
  | Some a =>
      Some (JObj [("type", JStr "system_alert");
                  ("alert", a);
                  ("severity", dict_get_default "severity" (JStr "info") event);
                  ("timestamp", dict_get_default "timestamp" (JStr now) event)])
  | None => None
  end.

Definition performance_warning (now : string) (event : dict) : option json :=
  match dict_get "metric" event, dict_get "value" event with
  | Some m, Some v =>
      Some (JObj [("type", JStr "performance_warning");
                  ("metric", m);
                  ("value", v);
                  ("threshold", dict_get_null "threshold" event);
                  ("timestamp", dict_get_default "timestamp" (JStr now) event)])
  | _, _ => None
  end.

End AdminMonitoringConsumer.

End RealtimeConsumers.

Module NotificationsConsumers.

Module NotificationConsumer.

Definition unread_count (count : Z) : json :=
  JObj [("type", JStr "unread_count"); ("count", JNum count)].

Definition notification_message (event : dict) : option json :=
  match dict_get "notification" event with
  | Some n =>
      Some (JObj [("type", JStr "notification"); ("notification", n)])
  | None => None
  end.

End NotificationConsumer.

End NotificationsConsumers.

(* ================================================================= *)
(** ** The channel layer *)

Inductive consumer_class : Type :=
| Realtime_NotificationConsumer
| Realtime_QuestionConsumer
| Realtime_LiveFeedConsumer
| Realtime_AdminMonitoringConsumer
| Notifications_NotificationConsumer.

(** The handler a consumer class has for an event type: the method of that
    name.  [None] when the class has no such method (Channels raises
    [ValueError] inside the consumer) or when the handler's [event[...]]
    raises [KeyError]: nothing is sent and the consumer ends. *)
Definition dispatch (c : consumer_class) (now : string) (event : dict) : option json :=
  match dict_get "type" event with
  | Some (JStr t) =>
      match c with
      | Realtime_NotificationConsumer =>
          if String.eqb t "new_notification"
          then RealtimeConsumers.NotificationConsumer.new_notification now event
          else if String.eqb t "reputation_update"
          then RealtimeConsumers.NotificationConsumer.reputation_update now event
          else if String.eqb t "vote_update"
          then RealtimeConsumers.NotificationConsumer.vote_update now event
          else if String.eqb t "answer_update"
          then RealtimeConsumers.NotificationConsumer.answer_update now event
          else None
      | Realtime_QuestionConsumer =>
          if String.eqb t "question_vote_update"
          then RealtimeConsumers.QuestionConsumer.question_vote_update now event
          else if String.eqb t "new_answer"
          then RealtimeConsumers.QuestionConsumer.new_answer now event
          else if String.eqb t "answer_accepted"
          then RealtimeConsumers.QuestionConsumer.answer_accepted now event
          else if String.eqb t "view_count_update"
          then RealtimeConsumers.QuestionConsumer.view_count_update now event
          else None
      | Realtime_LiveFeedConsumer =>
          if String.eqb t "new_activity"
          then RealtimeConsumers.LiveFeedConsumer.new_activity now event
          else if String.eqb t "trending_update"
          then RealtimeConsumers.LiveFeedConsumer.trending_update now event
          else None
      | Realtime_AdminMonitoringConsumer =>
          if String.eqb t "system_alert"
          then RealtimeConsumers.AdminMonitoringConsumer.system_alert now event
          else if String.eqb t "performance_warning"
          then RealtimeConsumers.AdminMonitoringConsumer.performance_warning now event
          else None
      | Notifications_NotificationConsumer =>
          if String.eqb t "notification_message"
          then NotificationsConsumers.NotificationConsumer.notification_message event
          else None
      end
  | _ => None
  end.

(** One open WebSocket: its channel, the consumer class serving it and
    what has been written to the socket so far, oldest first. *)
Record Connection : Type := {
  channel_name : string;
  consumer : consumer_class;
  outbox : list json
}.

Record ChannelLayer : Type := {
  groups : list (string * string);      (* (group, channel) *)
  connections : list Connection
}.

Definition in_group (group channel : string) (L : ChannelLayer) : bool :=
  existsb (fun gc => String.eqb (fst gc) group && String.eqb (snd gc) channel)
          (groups L).

Definition group_add (group channel : string) (L : ChannelLayer) : ChannelLayer :=
  if in_group group channel L then L
  else {| groups := groups L ++ [(group, channel)]; connections := connections L |}.

Definition group_discard (group channel : string) (L : ChannelLayer) : ChannelLayer :=
  {| groups := filter (fun gc => negb (String.eqb (fst gc) group
                                        && String.eqb (snd gc) channel))
                      (groups L);
     connections := connections L |}.

(** [self.send(text_data=json.dumps(m))] on one connection. *)
Definition send (channel : string) (m : json) (L : ChannelLayer) : ChannelLayer :=
  {| groups := groups L;
     connections :=
       map (fun c => if String.eqb (channel_name c) channel
                     then {| channel_name := channel_name c;
                             consumer := consumer c;
                             outbox := outbox c ++ [m] |}
                     else c)
           (connections L) |}.

(** A consumer that raises ends: the server closes its socket, which is
    no longer among the connections.  [disconnect] is not run for it, so
    its channel stays in the groups it joined. *)
Definition close (channel : string) (L : ChannelLayer) : ChannelLayer :=
  {| groups := groups L;
     connections := filter (fun c => negb (String.eqb (channel_name c) channel))
                           (connections L) |}.

(** The consumer class that serves a channel, when a socket is open on
    it. *)
Definition serving (channel : string) (L : ChannelLayer) : option consumer_class :=
  match filter (fun c => String.eqb (channel_name c) channel) (connections L) with
  | c :: _ => Some (consumer c)
  | [] => None
  end.

(** [channel_layer.group_send(group, event)]: every connection whose channel
    is in the group runs its handler for the event; a connection whose
    consumer has none, or whose handler raises, ends. *)
Definition group_send (now : string) (group : string) (event : dict)
  (L : ChannelLayer) : ChannelLayer :=
  {| groups := groups L;
     connections :=
       flat_map (fun c =>
                   if in_group group (channel_name c) L
                   then match dispatch (consumer c) now event with
                        | Some m => [{| channel_name := channel_name c;
                                        consumer := consumer c;
                                        outbox := outbox c ++ [m] |}]
                        | None => []
                        end
                   else [c])
                (connections L) |}.

(** The names [channel_layer.group_add] takes: fewer than 100 characters,
    matched by [^[a-zA-Z\d\-_.]+$] (on ASCII text; [$] also matches before
    one final line feed).  It raises [TypeError] for another name. *)
Definition group_name_char (c : ascii) : bool :=
  let n := nat_of_ascii c in
  (((48 <=? n) && (n <=? 57)) || ((65 <=? n) && (n <=? 90))
   || ((97 <=? n) && (n <=? 122)) || (n =? 45) || (n =? 95) || (n =? 46))%nat.

Fixpoint group_name_match (name : string) : bool :=
  match name with
  | EmptyString => false
  | String c rest =>
      group_name_char c
      && (String.eqb rest "" || String.eqb rest (String (ascii_of_nat 10) "")
          || group_name_match rest)
  end.

Definition valid_group_name (name : string) : bool :=
  (String.length name <? 100)%nat && group_name_match name.

(** What a channel has received so far. *)
Definition received (channel : string) (L : ChannelLayer) : list json :=
  flat_map (fun c => if String.eqb (channel_name c) channel then outbox c else [])
           (connections L).

(* ================================================================= *)
(** ** The tables *)

Inductive Role : Type := role_user | role_moderator | role_admin.

(** accounts/models.py, [User]: the columns this pipeline reads or writes. *)
Record User : Type := {
  user_id : Z;
  username : string;
  role : Role;
  is_suspended : bool;
  reputation : Z
}.

Definition is_moderator (u : User) : bool :=
  match role u with
  | role_moderator | role_admin => negb (is_suspended u)
  | role_user => false
  end.

Definition is_admin_user (u : User) : bool :=
  match role u with
  | role_admin => negb (is_suspended u)
  | _ => false
  end.

Definition set_reputation (r : Z) (u : User) : User :=
  {| user_id := user_id u; username := username u; role := role u;
     is_suspended := is_suspended u; reputation := r |}.

(** questions/models.py, [Question]. *)
Record Question : Type := {
  question_id : Z;
  question_title : string;
  question_author : Z;
  accepted_answer : option Z;
  is_answered : bool
}.

(** A [Question] object in memory: its fields and, once a [post_save]
    receiver has set it, the attribute [_previous_accepted_answer]
    ([None]: the object has no such attribute). *)
Record QuestionInstance : Type := {
  fields : Question;
  _previous_accepted_answer : option (option Z)
}.

(** answers/models.py, [Answer]. *)
Record Answer : Type := {
  answer_id : Z;
  answer_question : Z;
  answer_author : Z;
  is_accepted : bool
}.

Definition set_is_accepted (b : bool) (a : Answer) : Answer :=
  {| answer_id := answer_id a; answer_question := answer_question a;
     answer_author := answer_author a; is_accepted := b |}.

(** [ContentType.objects.get_for_model]: the two models votes point at. *)
Inductive ContentType : Type := ct_question | ct_answer.

Definition ContentType_eqb (a b : ContentType) : bool :=
  match a, b with
  | ct_question, ct_question | ct_answer, ct_answer => true
  | _, _ => false
  end.

(** votes/models.py, [Vote]. *)
Record Vote : Type := {
  vote_id : Z;
  vote_user : Z;
  vote_value : Z;
  vote_content_type : ContentType;
  vote_object_id : Z
}.

Definition set_vote_value (v : Z) (r : Vote) : Vote :=
  {| vote_id := vote_id r; vote_user := vote_user r; vote_value := v;
     vote_content_type := vote_content_type r;
     vote_object_id := vote_object_id r |}.

(** notifications/models.py, [Notification]. *)
Record Notification : Type := {
  notification_id : Z;
  recipient : Z;
  sender : option Z;
  notification_type : string;
  title : string;
  message : string;
  is_read : bool;
  related_question_id : option Z;
  related_answer_id : option Z;
  created_at : string
}.

Definition set_is_read (b : bool) (n : Notification) : Notification :=
  {| notification_id := notification_id n; recipient := recipient n;
     sender := sender n; notification_type := notification_type n;
     title := title n; message := message n; is_read := b;
     related_question_id := related_question_id n;
     related_answer_id := related_answer_id n;
     created_at := created_at n |}.

(** core/models.py, [ReputationTransaction].  [pk] is [None] until the row
    is inserted; [user] is the [User] object the transaction holds (its id
    is the stored column). *)
Record ReputationTransaction : Type := {
  pk : option Z;
  user : User;
  transaction_type : string;
  amount : Z;
  description : string;
  content_type_id : Z;
  object_id : Z;
  balance_after : Z;
  version : Z
}.

(** The tables.  [content_types] holds the primary keys of the rows of
    [django_content_type], one row per installed model: the column
    [content_type_id] of a reputation transaction is a foreign key to it. *)
Record Db : Type := {
  users : list User;
  questions : list Question;
  answers : list Answer;
  votes : list Vote;
  notifications : list Notification;
  reputation_transactions : list ReputationTransaction;
  content_types : list Z
}.

(** Database, channel layer ([None]: [get_channel_layer()] returns [None])
    and the process-wide cache of vote scores. *)
Record State : Type := {
  db : Db;
  channel_layer : option ChannelLayer;
  cache : list (string * Z)
}.

Definition with_users (x : list User) (d : Db) : Db :=
  {| users := x; questions := questions d; answers := answers d;
     votes := votes d; notifications := notifications d;
     reputation_transactions := reputation_transactions d;
     content_types := content_types d |}.

Definition with_questions (x : list Question) (d : Db) : Db :=
  {| users := users d; questions := x; answers := answers d;
     votes := votes d; notifications := notifications d;
     reputation_transactions := reputation_transactions d;
     content_types := content_types d |}.

Definition with_answers (x : list Answer) (d : Db) : Db :=
  {| users := users d; questions := questions d; answers := x;
     votes := votes d; notifications := notifications d;
     reputation_transactions := reputation_transactions d;
     content_types := content_types d |}.

Definition with_votes (x : list Vote) (d : Db) : Db :=
  {| users := users d; questions := questions d; answers := answers d;
     votes := x; notifications := notifications d;
     reputation_transactions := reputation_transactions d;
     content_types := content_types d |}.

Definition with_notifications (x : list Notification) (d : Db) : Db :=
  {| users := users d; questions := questions d; answers := answers d;
     votes := votes d; notifications := x;
     reputation_transactions := reputation_transactions d;
     content_types := content_types d |}.

Definition with_reputation_transactions (x : list ReputationTransaction) (d : Db) : Db :=
  {| users := users d; questions := questions d; answers := answers d;
     votes := votes d; notifications := notifications d;
     reputation_transactions := x;
     content_types := content_types d |}.

Definition with_db (d : Db) (s : State) : State :=
  {| db := d; channel_layer := channel_layer s; cache := cache s |}.

Definition with_channel_layer (L : option ChannelLayer) (s : State) : State :=
  {| db := db s; channel_layer := L; cache := cache s |}.

Definition with_cache (c : list (string * Z)) (s : State) : State :=
  {| db := db s; channel_layer := channel_layer s; cache := c |}.

(** [async_to_sync(channel_layer.group_send)(group, event)] under
    [if channel_layer:]. *)
Definition layer_group_send (now group : string) (event : dict) (s : State) : State :=
  match channel_layer s with
  | Some L => with_channel_layer (Some (group_send now group event L)) s
  | None => s
  end.

(** Foreign key access: the row with that primary key. *)
Definition get_user (uid : Z) (d : Db) : result User :=
  objects_get (fun u => user_id u =? uid) (users d).

Definition get_question (qid : Z) (d : Db) : result Question :=
  objects_get (fun q => question_id q =? qid) (questions d).

Definition get_answer (aid : Z) (d : Db) : result Answer :=
  objects_get (fun a => answer_id a =? aid) (answers d).

(* ================================================================= *)
(** ** Calls: state in, result and state out *)

Definition M (A : Type) : Type := State -> result A * State.

Definition ret {A : Type} (a : A) : M A := fun s => (Ok a, s).

Definition raise {A : Type} (e : exn) : M A := fun s => (Raise e, s).

Definition bind {A B : Type} (m : M A) (k : A -> M B) : M B :=
  fun s =>
    match m s with
    | (Ok a, s') => k a s'
    | (Raise e, s') => (Raise e, s')
    end.

Notation "x <- m ;; k" := (bind m (fun x => k))
  (at level 61, m at next level, right associativity).
Notation "m ;;; k" := (bind m (fun _ => k))
  (at level 61, right associativity).

(** A query that only reads the database. *)
Definition query {A : Type} (q : Db -> result A) : M A :=
  fun s => (q (db s), s).

(** A statement that rewrites the database and cannot fail. *)
Definition execute (f : Db -> Db) : M unit :=
  fun s => (Ok tt, with_db (f (db s)) s).

(** [with transaction.atomic():] an exception rolls the database back to
    where the block started; what went to the channel layer stays sent. *)
Definition atomic {A : Type} (m : M A) : M A :=
  fun s =>
    match m s with
    | (Ok a, s') => (Ok a, s')
    | (Raise e, s') => (Raise e, with_db (db s) s')
    end.

(* ================================================================= *)
(** ** core/utils.py *)

Definition lower_ascii (c : ascii) : ascii :=
  let n := nat_of_ascii c in
  if ((65 <=? n) && (n <=? 90))%nat then ascii_of_nat (n + 32) else c.

(** [s.lower()] on ASCII text. *)
Fixpoint lower (s : string) : string :=
  match s with
  | EmptyString => EmptyString
  | String c r => String (lower_ascii c) (lower r)
  end.

(** What a vote or an acceptance is aimed at. *)
Inductive content_object : Type :=
| a_question (q : Question)
| an_answer (a : Answer).

Definition content_object_author (t : content_object) : Z :=
  match t with
  | a_question q => question_author q
  | an_answer a => answer_author a
  end.

Definition content_object_id (t : content_object) : Z :=
  match t with
  | a_question q => question_id q
  | an_answer a => answer_id a
  end.

Definition get_for_model (t : content_object) : ContentType :=
  match t with
  | a_question _ => ct_question
  | an_answer _ => ct_answer
  end.

Module BusinessRuleValidator.

(** Model objects compare by primary key. *)
Definition validate_answer_acceptance (answer : Answer) (u : User) : M unit :=
  q <- query (get_question (answer_question answer)) ;;
  if negb (question_author q =? user_id u) && negb (is_moderator u)
  then raise (ValidationError "Only question author can accept answers.")
  else ret tt.

Definition validate_vote_eligibility (u : User) (target_object : content_object)
  : M unit :=
  if content_object_author target_object =? user_id u
  then raise (ValidationError "You cannot vote on your own content.")
  else ret tt.

End BusinessRuleValidator.

Module RealtimeSyncMixin.

(** [class_name] is [self.__class__.__name__]. *)
Definition trigger_realtime_update (class_name : string) (now : string)
  (event_type : string) (data : json) : M unit :=
  fun s =>
    (Ok tt,
     layer_group_send now (lower class_name ++ "_updates")
       [("type", JStr "realtime_update");
        ("event_type", JStr event_type);
        ("data", data);
        ("timestamp", JStr now)] s).

End RealtimeSyncMixin.

(* ================================================================= *)
(** ** accounts/models.py *)

(** [user.save(update_fields=["reputation"])]: the row must exist, and the
    table's check constraint [reputation >= -1000] must hold of the new
    value. *)
Definition User_save_reputation (u : User) : M unit :=
  fun s =>
    if existsb (fun r => user_id r =? user_id u) (users (db s))
    then if reputation u <? -1000
         then (Raise IntegrityError, s)
         else (Ok tt,
               with_db (with_users
                          (map (fun r => if user_id r =? user_id u
                                         then set_reputation (reputation u) r
                                         else r)
                               (users (db s)))
                          (db s)) s)
    else (Raise DatabaseError, s).

(* ================================================================= *)
(** ** core/models.py: the reputation ledger *)

Definition TRANSACTION_TYPES : list (string * string) :=
  [("question_upvote", "Question Upvoted (+5)");
   ("answer_upvote", "Answer Upvoted (+10)");
   ("answer_accepted", "Answer Accepted (+15)");
   ("question_downvote", "Question Downvoted (-2)");
   ("answer_downvote", "Answer Downvoted (-2)");
   ("downvote_given", "Downvote Given (-1)");
   ("spam_penalty", "Spam Penalty (-100)");
   ("bounty_awarded", "Bounty Awarded");
   ("moderation_bonus", "Moderation Bonus (+100)")].

Fixpoint get_display (choices : list (string * string)) (value : string) : string :=
  match choices with
  | [] => value
  | (v, label) :: rest => if String.eqb value v then label else get_display rest value
  end.

Definition get_transaction_type_display (t : ReputationTransaction) : string :=
  get_display TRANSACTION_TYPES (transaction_type t).

Definition transaction_pk (t : ReputationTransaction) : Z :=
  match pk t with
  | Some k => k
  | None => 0
  end.

Definition has_pk (k : Z) (t : ReputationTransaction) : bool :=
  match pk t with
  | Some k' => k' =? k
  | None => false
  end.

Module ReputationTransactions.

(** [ReputationTransaction.save].  [user self] is the [User] object the
    transaction holds in memory: its reputation is what the caller loaded or
    last wrote, not what the row holds now.  The values written are taken
    to fit their columns ([fits_columns] below): what a database does with
    one that does not depends on the database. *)
Definition save (now : string) (self : ReputationTransaction)
  : M ReputationTransaction :=
  match pk self with
  | None =>
      (* self.user.reputation += self.amount *)
      let user1 := set_reputation (reputation (user self) + amount self) (user self) in
      (* self.balance_after = self.user.reputation *)
      let self1 :=
        {| pk := None; user := user1;
           transaction_type := transaction_type self;
           amount := amount self; description := description self;
           content_type_id := content_type_id self;
           object_id := object_id self;
           balance_after := reputation user1;
           version := version self |} in
      User_save_reputation user1 ;;;
      RealtimeSyncMixin.trigger_realtime_update "ReputationTransaction" now
        "reputation_changed"
        (JObj [("user_id", JNum (user_id user1));
               ("new_reputation", JNum (reputation user1));
               ("change", JNum (amount self1));
               ("reason", JStr (get_transaction_type_display self1))]) ;;;
      (* super().save(): the row is inserted, unless its content type is
         no row of django_content_type; what was written and sent before
         stays, unless a transaction around the call rolls it back *)
      fun s =>
        let rows := reputation_transactions (db s) in
        let row :=
          {| pk := Some (fresh_pk transaction_pk rows); user := user self1;
             transaction_type := transaction_type self1;
             amount := amount self1; description := description self1;
             content_type_id := content_type_id self1;
             object_id := object_id self1;
             balance_after := balance_after self1;
             version := version self1 |} in
        if existsb (Z.eqb (content_type_id self1)) (content_types (db s))
        then (Ok row, with_db (with_reputation_transactions (rows ++ [row]) (db s)) s)
        else (Raise IntegrityError, s)
  | Some k =>
      (* AuditModel.save: an existing record gets a new version *)
      let self1 :=
        {| pk := Some k; user := user self;
           transaction_type := transaction_type self;
           amount := amount self; description := description self;
           content_type_id := content_type_id self;
           object_id := object_id self;
           balance_after := balance_after self;
           version := version self + 1 |} in
      fun s =>
        let rows := reputation_transactions (db s) in
        let rows' :=
          if existsb (has_pk k) rows
          then map (fun r => if has_pk k r then self1 else r) rows
          else rows ++ [self1] in
        (Ok self1, with_db (with_reputation_transactions rows' (db s)) s)
  end.

(** [ReputationTransaction.objects.create(...)]: [balance_after] and
    [version] start at their field defaults. *)
Definition objects_create (now : string) (u : User) (ttype : string)
  (amt : Z) (descr : string) (ct_id obj_id : Z) : M ReputationTransaction :=
  save now {| pk := None; user := u; transaction_type := ttype;
              amount := amt; description := descr;
              content_type_id := ct_id; object_id := obj_id;
              balance_after := 0; version := 1 |}.

End ReputationTransactions.

(* ================================================================= *)
(** ** notifications/utils.py *)

(** [NotificationSerializer(notification).data], without the fields that
    read the clock or the avatar storage ([time_ago], [is_recent],
    [sender_avatar]). *)
Definition NotificationSerializer_data (sender_username : option string)
  (n : Notification) : json :=
  JObj ([("id", JNum (notification_id n))]
        ++ match sender_username with
           | Some name => [("sender_username", JStr name)]
           | None => []
           end
        ++ [("notification_type", JStr (notification_type n));
            ("title", JStr (title n));
            ("message", JStr (message n));
            ("is_read", JBool (is_read n));
            ("related_question_id", json_of_option_Z (related_question_id n));
            ("related_answer_id", json_of_option_Z (related_answer_id n));
            ("created_at", JStr (created_at n))]).

Definition send_notification_to_user (now : string) (recipient_id : Z)
  (sender_username : option string) (n : Notification) : M unit :=
  fun s =>
    (Ok tt,
     layer_group_send now ("notifications_" ++ str recipient_id)
       [("type", JStr "notification_message");
        ("notification", NotificationSerializer_data sender_username n)] s).

(** [create_notification]: the row is created unread, then pushed. *)
Definition create_notification (now : string) (recipient_id : Z) (from : User)
  (ntype ntitle nmessage : string) (rq ra : option Z) : M Notification :=
  fun s =>
    let rows := notifications (db s) in
    let n :=
      {| notification_id := fresh_pk notification_id rows;
         recipient := recipient_id; sender := Some (user_id from);
         notification_type := ntype; title := ntitle; message := nmessage;
         is_read := false; related_question_id := rq; related_answer_id := ra;
         created_at := now |} in
    (_ <- send_notification_to_user now recipient_id (Some (username from)) n ;;
     ret n)
      (with_db (with_notifications (rows ++ [n]) (db s)) s).

Definition notify_new_answer (now : string) (q : Question) (a : Answer) : M unit :=
  if negb (question_author q =? answer_author a)
  then
    author <- query (get_user (answer_author a)) ;;
    _ <- create_notification now (question_author q) author "new_answer"
           "New answer to your question"
           (username author ++ " answered your question " ++ dquote
              ++ question_title q ++ dquote)
           (Some (question_id q)) (Some (answer_id a)) ;;
    ret tt
  else ret tt.

Definition notify_answer_accepted (now : string) (a : Answer) : M unit :=
  q <- query (get_question (answer_question a)) ;;
  asker <- query (get_user (question_author q)) ;;
  _ <- create_notification now (answer_author a) asker "answer_accepted"
         "Your answer was accepted"
         ("Your answer to " ++ dquote ++ question_title q ++ dquote ++ " was accepted")
         (Some (question_id q)) (Some (answer_id a)) ;;
  ret tt.

Definition voted_word (vote_value : Z) : string :=
  if vote_value =? 1 then "upvoted" else "downvoted".

(** [content_object] is what the vote's generic foreign key resolves to:
    [None] when the row is gone, and [None] has no [author]. *)
Definition notify_vote (now : string) (target : option content_object)
  (voter : User) (vote_value : Z) : M unit :=
  match target with
  | None => ret tt
  | Some t =>
      if negb (content_object_author t =? user_id voter)
      then
        match t with
        | an_answer a =>
            (* content_object.question.id is the answer's question_id column *)
            _ <- create_notification now (answer_author a) voter
                   ("answer_" ++ voted_word vote_value)
                   ("Your answer was " ++ voted_word vote_value)
                   (username voter ++ " " ++ voted_word vote_value ++ " your answer")
                   (Some (answer_question a)) (Some (answer_id a)) ;;
            ret tt
        | a_question q =>
            _ <- create_notification now (question_author q) voter
                   ("question_" ++ voted_word vote_value)
                   ("Your question was " ++ voted_word vote_value)
                   (username voter ++ " " ++ voted_word vote_value
                      ++ " your question " ++ dquote ++ question_title q ++ dquote)
                   (Some (question_id q)) None ;;
            ret tt
        end
      else ret tt
  end.

(* ================================================================= *)
(** ** notifications/signals.py: the [post_save] receivers *)

(** The object a vote's [content_object] resolves to. *)
Definition resolve_content_object (ct : ContentType) (oid : Z) (d : Db)
  : option content_object :=
  match ct with
  | ct_question =>
      match get_question oid d with
      | Ok q => Some (a_question q)
      | Raise _ => None
      end
  | ct_answer =>
      match get_answer oid d with
      | Ok a => Some (an_answer a)
      | Raise _ => None
      end
  end.

Definition answer_created (now : string) (instance : Answer) (created : bool) : M unit :=
  if created
  then q <- query (get_question (answer_question instance)) ;;
       notify_new_answer now q instance
  else ret tt.

Definition question_answer_accepted (now : string) (instance : QuestionInstance)
  : M unit :=
  match accepted_answer (fields instance), _previous_accepted_answer instance with
  | Some a, Some previous =>
      let same := match previous with
                  | Some p => p =? a
                  | None => false
                  end in
      if negb same
      then answer <- query (get_answer a) ;;
           notify_answer_accepted now answer
      else ret tt
  | _, _ => ret tt
  end.

Definition vote_created (now : string) (instance : Vote) (voter : User)
  (created : bool) : M unit :=
  if created
  then fun s =>
         notify_vote now
           (resolve_content_object (vote_content_type instance)
                                   (vote_object_id instance) (db s))
           voter (vote_value instance) s
  else ret tt.

(** Reads the row back after it was saved and remembers its accepted
    answer on the object. *)
Definition track_accepted_answer_changes (instance : QuestionInstance)
  : M QuestionInstance :=
  fun s =>
    match get_question (question_id (fields instance)) (db s) with
    | Ok previous =>
        (Ok {| fields := fields instance;
               _previous_accepted_answer := Some (accepted_answer previous) |}, s)
    | Raise DoesNotExist =>
        (Ok {| fields := fields instance;
               _previous_accepted_answer := Some None |}, s)
    | Raise e => (Raise e, s)
    end.

(* ================================================================= *)
(** ** answers/models.py *)

Module Answers.

Definition votes_of (a : Answer) (d : Db) : list Vote :=
  filter (fun v => ContentType_eqb (vote_content_type v) ct_answer
                   && (vote_object_id v =? answer_id a))
         (votes d).

(** [aggregate(Sum("value"))["score"] or 0]. *)
Definition vote_score (a : Answer) (d : Db) : Z :=
  fold_right Z.add 0 (map vote_value (votes_of a d)).

(** [answer.save(update_fields=["is_accepted"])] on a stored answer. *)
Definition save_is_accepted (now : string) (self : Answer) : M unit :=
  (if is_accepted self
   then execute (fun d =>
          with_answers
            (fst (queryset_update
                    (fun a => (answer_question a =? answer_question self)
                              && is_accepted a
                              && negb (answer_id a =? answer_id self))
                    (set_is_accepted false) (answers d))) d)
   else ret tt) ;;;
  (fun s =>
     if existsb (fun a => answer_id a =? answer_id self) (answers (db s))
     then (Ok tt,
           with_db (with_answers
                      (map (fun a => if answer_id a =? answer_id self
                                     then set_is_accepted (is_accepted self) a
                                     else a)
                           (answers (db s)))
                      (db s)) s)
     else (Raise DatabaseError, s)) ;;;
  answer_created now self false.

End Answers.

(* ================================================================= *)
(** ** questions/models.py *)

Module Questions.

Definition from_db (q : Question) : QuestionInstance :=
  {| fields := q; _previous_accepted_answer := None |}.

Definition votes_of (q : Question) (d : Db) : list Vote :=
  filter (fun v => ContentType_eqb (vote_content_type v) ct_question
                   && (vote_object_id v =? question_id q))
         (votes d).

Fixpoint cache_get (key : string) (c : list (string * Z)) : option Z :=
  match c with
  | [] => None
  | (k, v) :: rest => if String.eqb key k then Some v else cache_get key rest
  end.

(** [Question.vote_score]: the cached score when there is one, else the
    sum over the question's votes, which is then cached. *)
Definition vote_score (q : Question) (s : State) : Z * State :=
  let cache_key := ("question_" ++ str (question_id q) ++ "_vote_score")%string in
  match cache_get cache_key (cache s) with
  | Some score => (score, s)
  | None =>
      let score := fold_right Z.add 0 (map vote_value (votes_of q (db s))) in
      (score, with_cache ((cache_key, score) :: cache s) s)
  end.

Definition writes (field : string) (update_fields : option (list string)) : bool :=
  match update_fields with
  | None => true
  | Some fs => existsb (String.eqb field) fs
  end.

(** The columns [save] writes into the stored row [old]. *)
Definition written_row (update_fields : option (list string))
  (new old : Question) : Question :=
  {| question_id := question_id old;
     question_title := if writes "title" update_fields
                       then question_title new else question_title old;
     question_author := if writes "author" update_fields
                        then question_author new else question_author old;
     accepted_answer := if writes "accepted_answer" update_fields
                        then accepted_answer new else accepted_answer old;
     is_answered := if writes "is_answered" update_fields
                    then is_answered new else is_answered old |}.

(** [Question.save] of a question that has a primary key: the row is
    written inside [transaction.atomic()], where the [post_save]
    receivers run in the order they were connected.  The cache keys
    [invalidate_caches] deletes are not vote score keys.  The answer
    written as accepted is taken to be held by no other question, as the
    one-to-one field requires: the code only ever writes an answer of the
    question itself. *)
Definition save (now : string) (self : QuestionInstance)
  (update_fields : option (list string)) : M QuestionInstance :=
  atomic (
    (fun s =>
       let rows := questions (db s) in
       let mine := fun q => question_id q =? question_id (fields self) in
       if existsb mine rows
       then (Ok tt,
             with_db (with_questions
                        (map (fun q => if mine q
                                       then written_row update_fields (fields self) q
                                       else q) rows)
                        (db s)) s)
       else match update_fields with
            | Some _ => (Raise DatabaseError, s)
            | None => (Ok tt, with_db (with_questions (rows ++ [fields self]) (db s)) s)
            end) ;;;
    question_answer_accepted now self ;;;
    track_accepted_answer_changes self).

(** [Question.accept_answer]. *)
Definition accept_answer (now : string) (self : QuestionInstance) (answer : Answer)
  (u : User) : M QuestionInstance :=
  BusinessRuleValidator.validate_answer_acceptance answer u ;;;
  atomic (
    (* Remove previous accepted answer *)
    match accepted_answer (fields self) with
    | Some p =>
        previous <- query (get_answer p) ;;
        Answers.save_is_accepted now (set_is_accepted false previous)
    | None => ret tt
    end ;;;
    (* Set new accepted answer *)
    Answers.save_is_accepted now (set_is_accepted true answer) ;;;
    self' <- save now
               {| fields :=
                    {| question_id := question_id (fields self);
                       question_title := question_title (fields self);
                       question_author := question_author (fields self);
                       accepted_answer := Some (answer_id answer);
                       is_answered := true |};
                  _previous_accepted_answer := _previous_accepted_answer self |}
               (Some ["accepted_answer"; "is_answered"]) ;;
    (* Award reputation to answer author *)
    author <- query (get_user (answer_author answer)) ;;
    _ <- ReputationTransactions.objects_create now author "answer_accepted" 15
           ("Answer accepted for question: " ++ question_title (fields self))
           (answer_id answer) (answer_id answer) ;;
    ret self').

End Questions.

(* ================================================================= *)
(** ** votes/models.py *)

Module Votes.

(** The row [toggle_vote] looks for: this user's vote on this object. *)
Definition is_vote_of (u : User) (t : content_object) (v : Vote) : bool :=
  (vote_user v =? user_id u)
  && ContentType_eqb (vote_content_type v) (get_for_model t)
  && (vote_object_id v =? content_object_id t).

(** [Vote.toggle_vote(user, content_object, vote_value)].  The
    [post_save] receiver [vote_created] runs after a row is created or
    saved. *)
Definition toggle_vote (now : string) (u : User) (t : content_object)
  (value : Z) : M (option Vote) :=
  fun s =>
    match objects_get (is_vote_of u t) (votes (db s)) with
    | Ok vote =>
        if vote_value vote =? value
        then
          (* Same vote, remove it *)
          (Ok None,
           with_db (with_votes
                      (filter (fun v => negb (vote_id v =? vote_id vote))
                              (votes (db s)))
                      (db s)) s)
        else
          (* Different vote, update it *)
          let vote' := set_vote_value value vote in
          (vote_created now vote' u false ;;; ret (Some vote'))
            (with_db (with_votes
                        (map (fun v => if vote_id v =? vote_id vote then vote' else v)
                             (votes (db s)))
                        (db s)) s)
    | Raise DoesNotExist =>
        (* Create new vote *)
        let vote :=
          {| vote_id := fresh_pk vote_id (votes (db s));
             vote_user := user_id u;
             vote_value := value;
             vote_content_type := get_for_model t;
             vote_object_id := content_object_id t |} in
        (vote_created now vote u true ;;; ret (Some vote))
          (with_db (with_votes (votes (db s) ++ [vote]) (db s)) s)
    | Raise e => (Raise e, s)
    end.

End Votes.

(** The vote score a client is shown for a target. *)
Definition vote_score (t : content_object) (s : State) : Z * State :=
  match t with
  | a_question q => Questions.vote_score q s
  | an_answer a => (Answers.vote_score a (db s), s)
  end.

(* ================================================================= *)
(** ** questions/views.py *)

Inductive response : Type :=
| HTTP_200 (body : dict)
| HTTP_403 (body : dict)
| HTTP_404.

Module AcceptAnswerView.

(** [post(request, slug, answer_id)]; the question is named by its key. *)
Definition post (now : string) (request_user : User) (question_key : Z)
  (answer_key : Z) : M response :=
  fun s =>
    match get_question question_key (db s) with
    | Raise _ => (Ok HTTP_404, s)
    | Ok q =>
        let question := Questions.from_db q in
        if negb (question_author q =? user_id request_user)
        then (Ok (HTTP_403 [("error", JStr "Only the question author can accept answers")]), s)
        else
          match objects_get (fun a => (answer_id a =? answer_key)
                                      && (answer_question a =? question_id q))
                            (answers (db s)) with
          | Raise _ => (Ok HTTP_404, s)
          | Ok answer =>
              (* the previous accepted answer is cleared, then replaced *)
              let question' :=
                {| fields :=
                     {| question_id := question_id q;
                        question_title := question_title q;
                        question_author := question_author q;
                        accepted_answer := Some (answer_id answer);
                        is_answered := true |};
                   _previous_accepted_answer := _previous_accepted_answer question |} in
              (_ <- Questions.save now question' None ;;
               ret (HTTP_200 [("message", JStr "Great choice! Answer has been accepted.");
                              ("accepted_answer_id", JNum (answer_id answer))])) s
          end
    end.

End AcceptAnswerView.

(* ================================================================= *)
(** ** notifications/models.py and notifications/views.py *)

Definition is_unread_for (u : Z) (n : Notification) : bool :=
  (recipient n =? u) && negb (is_read n).

(** [Notification.objects.filter(recipient=user, is_read=False).count()]. *)
Definition unread_count (u : Z) (d : Db) : Z :=
  Z.of_nat (List.length (filter (is_unread_for u) (notifications d))).

(** [notification.mark_as_read()]. *)
Definition mark_as_read (n : Notification) : M unit :=
  execute (fun d =>
    with_notifications
      (map (fun r => if notification_id r =? notification_id n
                     then set_is_read true r else r)
           (notifications d)) d).

Module MarkNotificationReadAPIView.

Definition post (request_user : User) (key : Z) : M response :=
  fun s =>
    match objects_get (fun n => (notification_id n =? key)
                                && (recipient n =? user_id request_user))
                      (notifications (db s)) with
    | Ok n =>
        (mark_as_read n ;;;
         ret (HTTP_200 [("success", JBool true);
                        ("message", JStr "Notification marked as read")])) s
    | Raise _ => (Ok HTTP_404, s)
    end.

End MarkNotificationReadAPIView.

Module MarkAllReadAPIView.

(** The bulk update behind [post]: returns [count_updated]. *)
Definition mark_all_read (request_user : Z) : M Z :=
  fun s =>
    let '(rows, count_updated) :=
      queryset_update (is_unread_for request_user) (set_is_read true)
                      (notifications (db s)) in
    (Ok count_updated, with_db (with_notifications rows (db s)) s).

Definition post (request_user : User) : M response :=
  count_updated <- mark_all_read (user_id request_user) ;;
  ret (HTTP_200 [("success", JBool true);
                 ("marked_read", JNum count_updated);
                 ("message", JStr ("Marked " ++ str count_updated
                                     ++ " notifications as read"))]).

End MarkAllReadAPIView.

Module UnreadNotificationsAPIView.

Definition count (request_user : User) (s : State) : Z :=
  unread_count (user_id request_user) (db s).

End UnreadNotificationsAPIView.

(* ================================================================= *)
(** ** Opening a connection *)

Definition accept (channel : string) (c : consumer_class) (L : ChannelLayer)
  : ChannelLayer :=
  {| groups := groups L;
     connections := connections L
                    ++ [{| channel_name := channel; consumer := c; outbox := [] |}] |}.

Fixpoint firstn_rows {A : Type} (n : nat) (l : list A) : list A :=
  match n, l with
  | O, _ => []
  | _, [] => []
  | S n', x :: l' => x :: firstn_rows n' l'
  end.

(** [order_by("-created_at")]: the rows with the latest [created_at]
    first; rows of one [created_at] stay in the order of the table.  A
    timestamp is held as its ISO text, which for the timestamps of one time
    zone orders as time does. *)
Fixpoint insert_newest (n : Notification) (rows : list Notification)
  : list Notification :=
  match rows with
  | [] => [n]
  | m :: rest =>
      if String.leb (created_at m) (created_at n) then n :: m :: rest
      else m :: insert_newest n rest
  end.

Definition order_by_created_at_desc (rows : list Notification) : list Notification :=
  fold_right insert_newest [] rows.


(** [get_pending_notifications]: the ten newest unread notifications,
    newest first.  [None]: a sender row could not be read. *)
Fixpoint pending_items (d : Db) (rows : list Notification) : option (list json) :=
  match rows with
  | [] => Some []
  | n :: rest =>
      let who :=
        match sender n with
        | None => Some JNull
        | Some uid =>
            match get_user uid d with
            | Ok u => Some (JStr (username u))
            | Raise _ => None
            end
        end in
      match who, pending_items d rest with
      | Some w, Some items =>
          Some (JObj [("id", JNum (notification_id n));
                      ("type", JStr (notification_type n));
                      ("title", JStr (title n));
                      ("message", JStr (message n));
                      ("created_at", JStr (created_at n));
                      ("sender", w)] :: items)
      | _, _ => None
      end
  end.

Definition get_pending_notifications (u : User) (d : Db) : option (list json) :=
  pending_items d
    (firstn_rows 10
       (order_by_created_at_desc
          (filter (is_unread_for (user_id u)) (notifications d)))).

Module RealtimeNotificationConsumer.

(** [connect]: [scope_user] is [None] for an anonymous user, whose
    connection is closed with code 4001. *)
Definition connect (now : string) (channel : string) (scope_user : option User)
  (d : Db) (L : ChannelLayer) : ChannelLayer :=
  match scope_user with
  | None => L
  | Some u =>
      if valid_group_name ("notifications_" ++ str (user_id u))
      then
        let L1 := group_add ("notifications_" ++ str (user_id u)) channel L in
        let L2 := group_add "global_updates" channel L1 in
        let L3 := accept channel Realtime_NotificationConsumer L2 in
        let L4 := send channel
                    (RealtimeConsumers.NotificationConsumer.connection_established now)
                    L3 in
        match get_pending_notifications u d with
        | Some (n :: ns) =>
            send channel
              (RealtimeConsumers.NotificationConsumer.pending_notifications now (n :: ns))
              L4
        | Some [] => L4
        | None => close channel L4
        end
      else L
  end.

Definition disconnect (channel : string) (u : User) (L : ChannelLayer) : ChannelLayer :=
  let L1 := group_discard ("notifications_" ++ str (user_id u)) channel L in
  let L2 := group_discard "global_updates" channel L1 in
  {| groups := groups L2;
     connections := filter (fun c => negb (String.eqb (channel_name c) channel))
                           (connections L2) |}.

(** [handle_question_subscription] for an integer [question_id]; [None]
    when [group_add] raises [TypeError]. *)
Definition handle_question_subscription (now : string) (channel : string)
  (question_key : Z) (L : ChannelLayer) : option ChannelLayer :=
  if question_key =? 0 then Some L
  else if valid_group_name ("question_" ++ str question_key)
  then
    Some (send channel
            (RealtimeConsumers.NotificationConsumer.question_subscribed now
               (JNum question_key) (str question_key))
            (group_add ("question_" ++ str question_key) channel L))
  else None.

End RealtimeNotificationConsumer.

Module NotificationsNotificationConsumer.

Definition connect (channel : string) (scope_user : option User)
  (d : Db) (L : ChannelLayer) : ChannelLayer :=
  match scope_user with
  | None => L
  | Some u =>
      if valid_group_name ("notifications_" ++ str (user_id u))
      then
        let L1 := group_add ("notifications_" ++ str (user_id u)) channel L in
        let L2 := accept channel Notifications_NotificationConsumer L1 in
        send channel
          (NotificationsConsumers.NotificationConsumer.unread_count
             (unread_count (user_id u) d))
          L2
      else L
  end.

End NotificationsNotificationConsumer.

(* ================================================================= *)
(** ** The ledger read as a log *)

(** A user's transactions, oldest first. *)
Definition transactions_of (uid : Z) (d : Db) : list ReputationTransaction :=
  filter (fun t => user_id (user t) =? uid) (reputation_transactions d).

(** Running balances: [start + a1], [start + a1 + a2], ... *)
Fixpoint prefix_sums (start : Z) (amounts : list Z) : list Z :=
  match amounts with
  | [] => []
  | a :: rest => (start + a) :: prefix_sums (start + a) rest
  end.

(** One call of [ReputationTransaction.objects.create]: its arguments,
    [entry_user] being the [User] object the caller passes. *)
Record entry : Type := {
  entry_now : string;
  entry_user : User;
  entry_type : string;
  entry_amount : Z;
  entry_description : string;
  entry_content_type_id : Z;
  entry_object_id : Z
}.

Definition create (e : entry) : M ReputationTransaction :=
  ReputationTransactions.objects_create (entry_now e) (entry_user e) (entry_type e)
    (entry_amount e) (entry_description e)
    (entry_content_type_id e) (entry_object_id e).

(** Calls served one after the other, each from the state the one before
    left, whether it returned or raised. *)
Fixpoint create_all (es : list entry) (s : State) : State :=
  match es with
  | [] => s
  | e :: rest => create_all rest (snd (create e s))
  end.

(** The ranges Django documents for [IntegerField] and
    [PositiveIntegerField]. *)
Definition integer_field (z : Z) : bool :=
  (-2147483648 <=? z) && (z <=? 2147483647).

Definition positive_integer_field (z : Z) : bool :=
  (0 <=? z) && (z <=? 2147483647).

(** What a creation writes fits the columns it goes to: [amount],
    [balance_after] and the user's [reputation] are integer fields,
    [object_id] is a positive integer field, [transaction_type] and
    [description] are character fields of 20 and 255 characters. *)
Definition fits_columns (e : entry) : bool :=
  integer_field (entry_amount e)
  && integer_field (reputation (entry_user e) + entry_amount e)
  && positive_integer_field (entry_object_id e)
  && (String.length (entry_type e) <=? 20)%nat
  && (String.length (entry_description e) <=? 255)%nat.

(** Every call of the run is made with the user object as it is stored at
    that moment (freshly loaded), writes values that fit their columns and
    returns the row it created. *)
Fixpoint served_fresh (es : list entry) (s : State) : Prop :=
  match es with
  | [] => True
  | e :: rest =>
      get_user (user_id (entry_user e)) (db s) = Ok (entry_user e)
      /\ fits_columns e = true
      /\ (exists row, fst (create e s) = Ok row)
      /\ served_fresh rest (snd (create e s))
  end.

Definition ledger_total (uid : Z) (d : Db) : Z :=
  fold_right Z.add 0 (map amount (transactions_of uid d)).

(** The amounts [TRANSACTION_TYPES] names in its labels for votes. *)
Definition upvote_credit (t : content_object) : Z :=
  match t with
  | a_question _ => 5
  | an_answer _ => 10
  end.

Definition downvote_penalty (t : content_object) : Z := -2.

(** What a flip from an upvote to a downvote is worth to the author:
    the credit taken back and the penalty applied. *)
Definition flip_net_delta (t : content_object) : Z :=
  - upvote_credit t + downvote_penalty t.

(** The ledger of the target's author moved by the net delta of the flip
    between [before] and [after]. *)
Definition flip_reflected_in_ledger (t : content_object) (before after : Db) : Prop :=
  ledger_total (content_object_author t) after
  - ledger_total (content_object_author t) before
  = flip_net_delta t.

(* ================================================================= *)
(** ** Everything a consumer writes to its socket *)

(** [sends now trigger c m]: consumer class [c] sends [m] at time [now];
    [trigger] is the channel layer event it is handling, [None] when the
    message answers the client or the connection itself. *)
Inductive sends (now : string) : option dict -> consumer_class -> json -> Prop :=
| sends_connection_established :
    sends now None Realtime_NotificationConsumer
      (RealtimeConsumers.NotificationConsumer.connection_established now)
| sends_pending_notifications (items : list json) :
    items <> [] ->
    sends now None Realtime_NotificationConsumer
      (RealtimeConsumers.NotificationConsumer.pending_notifications now items)
| sends_notification_marked_read (key : json) :
    sends now None Realtime_NotificationConsumer
      (RealtimeConsumers.NotificationConsumer.notification_marked_read now key)
| sends_question_subscribed (key : json) (text : string) :
    sends now None Realtime_NotificationConsumer
      (RealtimeConsumers.NotificationConsumer.question_subscribed now key text)
| sends_heartbeat_response :
    sends now None Realtime_NotificationConsumer
      (RealtimeConsumers.NotificationConsumer.handle_heartbeat now)
| sends_error (text : string) :
    sends now None Realtime_NotificationConsumer
      (RealtimeConsumers.NotificationConsumer.send_error now text)
| sends_question_data (question : json) :
    sends now None Realtime_QuestionConsumer
      (RealtimeConsumers.QuestionConsumer.question_data now question)
| sends_recent_activities (activities : list json) :
    sends now None Realtime_LiveFeedConsumer
      (RealtimeConsumers.LiveFeedConsumer.recent_activities now activities)
| sends_system_status (status : json) :
    sends now None Realtime_AdminMonitoringConsumer
      (RealtimeConsumers.AdminMonitoringConsumer.system_status status)
| sends_unread_count (count : Z) :
    sends now None Notifications_NotificationConsumer
      (NotificationsConsumers.NotificationConsumer.unread_count count)
| sends_handler (c : consumer_class) (event : dict) (m : json) :
    dispatch c now event = Some m ->
    sends now (Some event) c m.

(** The clock reading a message is stamped with: the event's own
    [timestamp] when it brings one, else the time of sending. *)
Definition stamp (now : string) (trigger : option dict) : json :=
  match trigger with
  | Some event => dict_get_default "timestamp" (JStr now) event
  | None => JStr now
  end.

(** The three message types that are built without a [timestamp]. *)
Definition unstamped_type (m : json) : bool :=
  match message_field "type" m with
  | Some (JStr t) =>
      String.eqb t "unread_count" || String.eqb t "notification"
      || String.eqb t "system_status"
  | _ => false
  end.

(* ================================================================= *)
(** ** What the schema promises of the stored tables *)

Fixpoint distinct (keys : list Z) : bool :=
  match keys with
  | [] => true
  | k :: rest => negb (existsb (Z.eqb k) rest) && distinct rest
  end.

Definition has_key {A : Type} (key : A -> Z) (k : Z) (rows : list A) : bool :=
  existsb (fun r => key r =? k) rows.

(** The answers that questions hold as accepted. *)
Definition accepted_answers (qs : list Question) : list Z :=
  flat_map (fun q => match accepted_answer q with
                     | Some p => [p]
                     | None => []
                     end) qs.

(** Primary keys are unique, foreign keys point at rows that exist (the
    content type of a transaction among them), no answer is the accepted
    answer of two questions (the one-to-one field) and the check constraint
    [reputation >= -1000] holds. *)
Definition integrity (d : Db) : bool :=
  distinct (map user_id (users d))
  && distinct (map question_id (questions d))
  && distinct (map answer_id (answers d))
  && forallb (fun a => has_key user_id (answer_author a) (users d)
                       && has_key question_id (answer_question a) (questions d))
             (answers d)
  && forallb (fun q => has_key user_id (question_author q) (users d)
                       && match accepted_answer q with
                          | Some p => has_key answer_id p (answers d)
                          | None => true
                          end)
             (questions d)
  && forallb (fun u => -1000 <=? reputation u) (users d)
  && distinct (accepted_answers (questions d))
  && forallb (fun t => existsb (Z.eqb (content_type_id t)) (content_types d)
                       && has_key user_id (user_id (user t)) (users d))
             (reputation_transactions d).

(* ================================================================= *)
(** ** A small site used in the examples *)

Module Site.

Definition alice : User :=
  {| user_id := 1; username := "alice"; role := role_user;
     is_suspended := false; reputation := 100 |}.

Definition bob : User :=
  {| user_id := 2; username := "bob"; role := role_user;
     is_suspended := false; reputation := 100 |}.

Definition q7 : Question :=
  {| question_id := 7; question_title := "How do I sort a list?";
     question_author := 1; accepted_answer := None; is_answered := false |}.

Definition a3 : Answer :=
  {| answer_id := 3; answer_question := 7; answer_author := 2;
     is_accepted := false |}.

(** The content types of the installed models, keyed 1 to 20. *)
Definition content_type_keys : list Z :=
  [1; 2; 3; 4; 5; 6; 7; 8; 9; 10; 11; 12; 13; 14; 15; 16; 17; 18; 19; 20].

Definition db0 : Db :=
  {| users := [alice; bob]; questions := [q7]; answers := [a3];
     votes := []; notifications := []; reputation_transactions := [];
     content_types := content_type_keys |}.

(** bob has one socket on each of the two notification consumers. *)
Definition layer0 : ChannelLayer :=
  NotificationsNotificationConsumer.connect "chan-2" (Some bob) db0
    (RealtimeNotificationConsumer.connect "2026-01-01T00:00:00" "chan-1"
       (Some bob) db0 {| groups := []; connections := [] |}).

Definition s0 : State :=
  {| db := db0; channel_layer := Some layer0; cache := [] |}.

Definition unread (k : Z) : Notification :=
  {| notification_id := k; recipient := 2; sender := Some 1;
     notification_type := "new_answer"; title := "t"; message := "m";
     is_read := false; related_question_id := Some 7;
     related_answer_id := None; created_at := "2026-01-01T00:00:00" |}.


End Site.

(* ================================================================= *)
(** ** Rows and states the properties speak of *)

(** The row written for a user's reputation. *)
Definition credit (u : User) (amt : Z) (r : User) : User :=
  if user_id r =? user_id u then set_reputation (reputation u + amt) r else r.

(** What a call leaves alone: users, the two target tables, the ledger and
    the vote score cache. *)
Definition frame (s s' : State) : Prop :=
  users (db s') = users (db s)
  /\ questions (db s') = questions (db s)
  /\ answers (db s') = answers (db s)
  /\ reputation_transactions (db s') = reputation_transactions (db s)
  /\ cache s' = cache s.

(** The vote [toggle_vote] creates when it finds none. *)
Definition new_vote (u : User) (t : content_object) (value : Z) (s : State) : Vote :=
  {| vote_id := fresh_pk vote_id (votes (db s));
     vote_user := user_id u;
     vote_value := value;
     vote_content_type := get_for_model t;
     vote_object_id := content_object_id t |}.

(** The row rewrites of [Answer.save]. *)
Definition clear_others (self : Answer) (a : Answer) : Answer :=
  if (answer_question a =? answer_question self) && is_accepted a
     && negb (answer_id a =? answer_id self)
  then set_is_accepted false a else a.

(** The row of [self] takes the flag of [self]. *)
Definition write_flag (self : Answer) (a : Answer) : Answer :=
  if answer_id a =? answer_id self then set_is_accepted (is_accepted self) a else a.

(** The answers table after [self.save(update_fields=["is_accepted"])]. *)
Definition answers_saved (self : Answer) (rows : list Answer) : list Answer :=
  map (write_flag self) (if is_accepted self then map (clear_others self) rows else rows).

(** The row [accept_answer] writes for the question. *)
Definition accepted_row (k : Z) (aid : Z) (r : Question) : Question :=
  if question_id r =? k
  then {| question_id := question_id r; question_title := question_title r;
          question_author := question_author r;
          accepted_answer := Some aid; is_answered := true |}
  else r.

(** The first step of [accept_answer]: the flag of the answer the question
    object holds as accepted is cleared. *)
Definition unaccept (previous : option Z) (x : Answer) : Answer :=
  match previous with
  | Some p => if answer_id x =? p then set_is_accepted false x else x
  | None => x
  end.

(** Case analysis on which handler a consumer class has for an event. *)
Ltac handler_cases :=
  repeat match goal with
         | H : context [if String.eqb ?a ?b then _ else _] |- _ =>
             destruct (String.eqb a b)
         | H : context [match dict_get ?k ?e with _ => _ end] |- _ =>
             destruct (dict_get k e)
         | H : Some _ = Some _ |- _ => inversion H; subst; clear H
         | H : None = Some _ |- _ => discriminate H
         end.

(* ================================================================= *)
(** ** votes/views.py and the vote counts of the two models *)

Module AnswerVotes.

(** [Answer.upvote_count] and [Answer.downvote_count]. *)
Definition upvote_count (a : Answer) (d : Db) : Z :=
  Z.of_nat (List.length (filter (fun v => vote_value v =? 1) (Answers.votes_of a d))).

Definition downvote_count (a : Answer) (d : Db) : Z :=
  Z.of_nat (List.length (filter (fun v => vote_value v =? -1) (Answers.votes_of a d))).

End AnswerVotes.

Module QuestionVotes.

(** [Question.upvote_count] and [Question.downvote_count]: not cached. *)
Definition upvote_count (q : Question) (d : Db) : Z :=
  Z.of_nat (List.length (filter (fun v => vote_value v =? 1) (Questions.votes_of q d))).

Definition downvote_count (q : Question) (d : Db) : Z :=
  Z.of_nat (List.length (filter (fun v => vote_value v =? -1) (Questions.votes_of q d))).

End QuestionVotes.

Module QuestionVoteView.

(** [post(request, question_slug)] after [VoteCreateSerializer] has
    validated [value]; the question is named by its key.  The score in the
    response is the [vote_score] property, read after the toggle. *)
Definition post (now : string) (request_user : User) (question_key : Z)
  (value : Z) : M response :=
  fun s =>
    match get_question question_key (db s) with
    | Raise _ => (Ok HTTP_404, s)
    | Ok question =>
        match Votes.toggle_vote now request_user (a_question question) value s with
        | (Raise e, s1) => (Raise e, s1)
        | (Ok (Some vote), s1) =>
            let (score, s2) := Questions.vote_score question s1 in
            (Ok (HTTP_200
                   [("message", JStr "Thanks for voting! Your vote has been recorded.");
                    ("vote_value", JNum (vote_value vote));
                    ("vote_score", JNum score)]), s2)
        | (Ok None, s1) =>
            let (score, s2) := Questions.vote_score question s1 in
            (Ok (HTTP_200
                   [("message", JStr "Your vote has been removed.");
                    ("vote_score", JNum score)]), s2)
        end
    end.

End QuestionVoteView.

Module AnswerVoteView.

(** [post(request, answer_id)] after the serializer has validated [value]. *)
Definition post (now : string) (request_user : User) (answer_key : Z)
  (value : Z) : M response :=
  fun s =>
    match get_answer answer_key (db s) with
    | Raise _ => (Ok HTTP_404, s)
    | Ok answer =>
        match Votes.toggle_vote now request_user (an_answer answer) value s with
        | (Raise e, s1) => (Raise e, s1)
        | (Ok (Some vote), s1) =>
            (Ok (HTTP_200
                   [("message", JStr "Your vote on this answer has been recorded!");
                    ("vote_value", JNum (vote_value vote));
                    ("vote_score", JNum (Answers.vote_score answer (db s1)))]), s1)
        | (Ok None, s1) =>
            (Ok (HTTP_200
                   [("message", JStr "Your vote has been removed.");
                    ("vote_score", JNum (Answers.vote_score answer (db s1)))]), s1)
        end
    end.

End AnswerVoteView.

Module UserVoteStatusView.

(** [ContentType.objects.get(model=content_type)] for the two models that
    carry votes; every other name ends in one of the two [DoesNotExist]. *)
Definition content_type_named (name : string) : option ContentType :=
  if String.eqb name "question" then Some ct_question
  else if String.eqb name "answer" then Some ct_answer
  else None.

(** [get(request, content_type, object_id)]: [MultipleObjectsReturned] is
    not caught. *)
Definition get (request_user : User) (content_type : string) (object_key : Z)
  (s : State) : result response :=
  match content_type_named content_type with
  | None => Ok (HTTP_200 [("vote_value", JNull)])
  | Some ct =>
      match objects_get (fun v => (vote_user v =? user_id request_user)
                                  && ContentType_eqb (vote_content_type v) ct
                                  && (vote_object_id v =? object_key))
                        (votes (db s)) with
      | Ok vote => Ok (HTTP_200 [("vote_value", JNum (vote_value vote))])
      | Raise DoesNotExist => Ok (HTTP_200 [("vote_value", JNull)])
      | Raise e => Raise e
      end
  end.

End UserVoteStatusView.

(* ================================================================= *)
(** ** notifications/views.py: statistics *)

Module NotificationStatsAPIView.

(** [notification_types[ntype]["total"] += 1] and, for an unread row,
    [["unread"] += 1]; a new type is appended with both at zero first. *)
Fixpoint count_type (ntype : string) (unread : bool) (acc : list (string * (Z * Z)))
  : list (string * (Z * Z)) :=
  match acc with
  | [] => [(ntype, (1, if unread then 1 else 0))]
  | (k, (total, un)) :: rest =>
      if String.eqb k ntype
      then (k, (total + 1, if unread then un + 1 else un)) :: rest
      else (k, (total, un)) :: count_type ntype unread rest
  end.

(** The loop over the user's notifications, newest first. *)
Definition types_breakdown (rows : list Notification) : list (string * (Z * Z)) :=
  fold_left (fun acc n => count_type (notification_type n) (negb (is_read n)) acc)
            rows [].

Definition user_notifications (request_user : User) (d : Db) : list Notification :=
  rev (filter (fun n => recipient n =? user_id request_user) (notifications d)).

Definition get (request_user : User) (s : State) : response :=
  let rows := user_notifications request_user (db s) in
  HTTP_200
    [("unread_count",
      JNum (Z.of_nat (List.length (filter (fun n => negb (is_read n)) rows))));
     ("total_count", JNum (Z.of_nat (List.length rows)));
     ("types_breakdown",
      JObj (map (fun e => (fst e, JObj [("total", JNum (fst (snd e)));
                                        ("unread", JNum (snd (snd e)))]))
                (types_breakdown rows)))].

End NotificationStatsAPIView.

(* ================================================================= *)
(** ** The other connections, and what a client can ask of a socket *)

Module QuestionConsumer.

(** [connect]: [question_id] is the text of the URL argument;
    [question_data] is what [get_question_data] returns ([None]: no such
    question, nothing is sent). *)
Definition connect (now : string) (channel : string) (question_id : string)
  (question_data : option json) (L : ChannelLayer) : ChannelLayer :=
  if valid_group_name ("question_" ++ question_id)
  then
    let L1 := group_add ("question_" ++ question_id) channel L in
    let L2 := accept channel Realtime_QuestionConsumer L1 in
    match question_data with
    | Some q => send channel (RealtimeConsumers.QuestionConsumer.question_data now q) L2
    | None => L2
    end
  else L.

Definition disconnect (channel : string) (question_id : string) (L : ChannelLayer)
  : ChannelLayer :=
  let L1 := group_discard ("question_" ++ question_id) channel L in
  {| groups := groups L1;
     connections := filter (fun c => negb (String.eqb (channel_name c) channel))
                           (connections L1) |}.

End QuestionConsumer.

Module LiveFeedConsumer.

Definition connect (now : string) (channel : string) (activities : list json)
  (L : ChannelLayer) : ChannelLayer :=
  let L1 := group_add "live_feed" channel L in
  let L2 := accept channel Realtime_LiveFeedConsumer L1 in
  send channel (RealtimeConsumers.LiveFeedConsumer.recent_activities now activities) L2.

End LiveFeedConsumer.

Module AdminMonitoringConsumer.

(** [connect]: closed with code 4003 unless the user is authenticated and
    [is_admin_user]; [status] is what [get_system_status] returns. *)
Definition connect (channel : string) (scope_user : option User) (status : json)
  (L : ChannelLayer) : ChannelLayer :=
  match scope_user with
  | None => L
  | Some u =>
      if negb (is_admin_user u) then L
      else
        let L1 := group_add "admin_monitoring" channel L in
        let L2 := accept channel Realtime_AdminMonitoringConsumer L1 in
        send channel (RealtimeConsumers.AdminMonitoringConsumer.system_status status) L2
  end.

End AdminMonitoringConsumer.

(** A parsed inbound frame of a notification socket, with integer ids;
    [None] for an id is a missing or null one.  [mark_notification_read],
    [subscribe_to_question] and [heartbeat] are the types the realtime
    consumer knows, [mark_as_read_frame] (type [mark_as_read]) the one the consumer of
    notifications/consumers.py knows; [unknown_type] is any other type, or
    none. *)
Inductive inbound : Type :=
| invalid_json
| not_an_object
| mark_notification_read (key : option Z)
| subscribe_to_question (key : option Z)
| heartbeat
| mark_as_read_frame (key : option Z)
| unknown_type.

(** [mark_notification_read(notification_id)] of the realtime consumer and
    [mark_notification_as_read(notification_id)] of the other one: [Ok true]
    when the user's notification was found and marked. *)
Definition consumer_mark_notification_read (u : User) (key : Z) (d : Db)
  : result bool * Db :=
  match objects_get (fun n => (notification_id n =? key) && (recipient n =? user_id u))
                    (notifications d) with
  | Ok n =>
      (Ok true,
       with_notifications
         (map (fun r => if notification_id r =? notification_id n
                        then set_is_read true r else r)
              (notifications d)) d)
  | Raise DoesNotExist => (Ok false, d)
  | Raise e => (Raise e, d)
  end.

(** [NotificationConsumer.receive] of realtime/consumers.py: whatever is
    raised while the frame is handled is answered with an error message. *)
Definition receive (now : string) (channel : string) (u : User) (frame_in : inbound)
  (dl : Db * ChannelLayer) : Db * ChannelLayer :=
  let (d, L) := dl in
  match frame_in with
  | invalid_json =>
      (d, send channel
            (RealtimeConsumers.NotificationConsumer.send_error now "Invalid JSON format") L)
  | not_an_object =>
      (d, send channel
            (RealtimeConsumers.NotificationConsumer.send_error now
               "Message processing failed") L)
  | mark_notification_read None => (d, L)
  | mark_notification_read (Some key) =>
      if key =? 0 then (d, L)
      else
        match consumer_mark_notification_read u key d with
        | (Ok true, d') =>
            (d', send channel
                   (RealtimeConsumers.NotificationConsumer.notification_marked_read now
                      (JNum key)) L)
        | (Ok false, d') => (d', L)
        | (Raise _, d') =>
            (d', send channel
                   (RealtimeConsumers.NotificationConsumer.send_error now
                      "Message processing failed") L)
        end
  | subscribe_to_question None => (d, L)
  | subscribe_to_question (Some key) =>
      match RealtimeNotificationConsumer.handle_question_subscription now channel key L
      with
      | Some L' => (d, L')
      | None =>
          (d, send channel
                (RealtimeConsumers.NotificationConsumer.send_error now
                   "Message processing failed") L)
      end
  | heartbeat =>
      (d, send channel (RealtimeConsumers.NotificationConsumer.handle_heartbeat now) L)
  | mark_as_read_frame _ | unknown_type =>
      (d, send channel
            (RealtimeConsumers.NotificationConsumer.send_error now "Unknown message type") L)
  end.

(** [NotificationConsumer.receive] of notifications/consumers.py: only
    [JSONDecodeError] is caught; anything else that is raised ends the
    consumer. *)
Definition notifications_receive (channel : string) (u : User) (frame_in : inbound)
  (dl : Db * ChannelLayer) : Db * ChannelLayer :=
  let (d, L) := dl in
  match frame_in with
  | invalid_json => (d, L)
  | not_an_object => (d, close channel L)
  | mark_as_read_frame None => (d, L)
  | mark_as_read_frame (Some key) =>
      match consumer_mark_notification_read u key d with
      | (Ok _, d') => (d', L)
      | (Raise _, d') => (d', close channel L)
      end
  | _ => (d, L)
  end.

(** What a client can do to the channel layer and, through it, to the
    database.  [send_frame channel u frame_in] is a frame on [channel],
    whose socket was opened by [u]. *)
Inductive client_action : Type :=
| open_notifications (channel : string) (scope_user : option User)
| open_notifications_app (channel : string) (scope_user : option User)
| open_question (channel : string) (question_id : string) (question_data : option json)
| open_live_feed (channel : string) (activities : list json)
| open_admin (channel : string) (scope_user : option User) (status : json)
| send_frame (channel : string) (u : User) (frame_in : inbound).

(** A frame goes to the [receive] of the consumer that serves its channel;
    the other consumers have none of their own and ignore it. *)
Definition client_step (now : string) (a : client_action) (dl : Db * ChannelLayer)
  : Db * ChannelLayer :=
  match a with
  | open_notifications channel scope_user =>
      (fst dl, RealtimeNotificationConsumer.connect now channel scope_user (fst dl) (snd dl))
  | open_notifications_app channel scope_user =>
      (fst dl, NotificationsNotificationConsumer.connect channel scope_user (fst dl) (snd dl))
  | open_question channel question_id question_data =>
      (fst dl, QuestionConsumer.connect now channel question_id question_data (snd dl))
  | open_live_feed channel activities =>
      (fst dl, LiveFeedConsumer.connect now channel activities (snd dl))
  | open_admin channel scope_user status =>
      (fst dl, AdminMonitoringConsumer.connect channel scope_user status (snd dl))
  | send_frame channel u frame_in =>
      match serving channel (snd dl) with
      | Some Realtime_NotificationConsumer => receive now channel u frame_in dl
      | Some Notifications_NotificationConsumer =>
          notifications_receive channel u frame_in dl
      | _ => dl
      end
  end.

Fixpoint client_run (now : string) (actions : list client_action)
  (dl : Db * ChannelLayer) : Db * ChannelLayer :=
  match actions with
  | [] => dl
  | a :: rest => client_run now rest (client_step now a dl)
  end.

(* ================================================================= *)
(** ** accounts/models.py: levels and privileges *)

(** [User.calculate_reputation_level]. *)
Definition calculate_reputation_level (u : User) : string :=
  if reputation u <? 15 then "New Member"
  else if reputation u <? 50 then "Contributor"
  else if reputation u <? 200 then "Regular"
  else if reputation u <? 500 then "Experienced"
  else if reputation u <? 2000 then "Expert"
  else if reputation u <? 5000 then "Veteran"
  else "Legend".

Definition can_vote (u : User) : bool :=
  (15 <=? reputation u) && negb (is_suspended u).

Definition can_comment (u : User) : bool :=
  (50 <=? reputation u) && negb (is_suspended u).

Definition can_edit_posts (u : User) : bool :=
  (2000 <=? reputation u) || is_moderator u.

(* ================================================================= *)
(** ** core/utils.py: the other validators and the request helpers *)

(** [s.replace(old, new)] for single characters. *)
Fixpoint replace_char (old new : ascii) (s : string) : string :=
  match s with
  | EmptyString => EmptyString
  | String c r => String (if Ascii.eqb c old then new else c) (replace_char old new r)
  end.

Definition thresholds : list (string * Z) :=
  [("downvote", 15); ("comment", 50); ("edit", 2000); ("close_question", 3000)].

(** [thresholds.get(action_type, 0)]. *)
Fixpoint threshold_get (action_type : string) (table : list (string * Z)) : Z :=
  match table with
  | [] => 0
  | (k, v) :: rest => if String.eqb action_type k then v else threshold_get action_type rest
  end.

Module MoreBusinessRules.

Definition validate_question_ownership (q : Question) (u : User) : M unit :=
  if negb (question_author q =? user_id u) && negb (is_moderator u)
  then raise (ValidationError "You can only modify your own questions.")
  else ret tt.

Definition validate_reputation_threshold (u : User) (action_type : string) : M unit :=
  let required_rep := threshold_get action_type thresholds in
  if reputation u <? required_rep
  then raise (ValidationError
                ("You need " ++ str required_rep ++ " reputation to "
                   ++ replace_char "_" " " action_type ++ "."))
  else ret tt.

End MoreBusinessRules.

Module ComplexityReducer.

(** [s.lstrip("-")]. *)
Fixpoint lstrip_dash (s : string) : string :=
  match s with
  | String c r => if Ascii.eqb c "-" then lstrip_dash r else s
  | EmptyString => EmptyString
  end.

(** [build_order_clause]: [order_by] is the request parameter, [None]
    when the request has none. *)
Definition build_order_clause (order_by : option string) (allowed_fields : list string)
  (default : string) : string :=
  let order_by := match order_by with
                  | Some v => v
                  | None => default
                  end in
  if existsb (String.eqb (lstrip_dash order_by)) allowed_fields
  then order_by
  else default.

End ComplexityReducer.

Module EnhancedAPIView.

(** The page of a paginator. *)
Record page (A : Type) : Type := {
  results : list A;
  current_page : Z;
  total_pages : Z;
  total_items : Z;
  page_size : Z;
  has_next : bool;
  has_previous : bool
}.

Arguments results {A} _.
Arguments current_page {A} _.
Arguments total_pages {A} _.
Arguments total_items {A} _.
Arguments page_size {A} _.
Arguments has_next {A} _.
Arguments has_previous {A} _.

(** A query parameter passed through [int(...)]: absent, not a number
    ([ValueError]), or the number. *)
Inductive int_param : Type :=
| absent
| not_a_number
| number (z : Z).

(** [min(max(page_size, 5), 100)], and 20 when [int] raises. *)
Definition chosen_page_size (p : int_param) : Z :=
  match p with
  | absent => Z.min (Z.max 20 5) 100
  | not_a_number => 20
  | number z => Z.min (Z.max z 5) 100
  end.

Definition chosen_page (p : int_param) : Z :=
  match p with
  | absent => 1
  | not_a_number => 1
  | number z => z
  end.

(** [Paginator.num_pages]: [ceil(max(1, count) / per_page)]. *)
Definition num_pages (count per_page : Z) : Z :=
  (Z.max 1 count + per_page - 1) / per_page.

(** [Paginator.page(number)]: [None] is [EmptyPage]. *)
Definition paginator_page {A : Type} (queryset : list A) (per_page number : Z)
  : option (list A * Z) :=
  let count := Z.of_nat (List.length queryset) in
  if (number <? 1) || (num_pages count per_page <? number) then None
  else
    let bottom := (number - 1) * per_page in
    let top := if count <=? bottom + per_page then count else bottom + per_page in
    Some (firstn (Z.to_nat (top - bottom)) (skipn (Z.to_nat bottom) queryset), number).

(** [paginate_queryset(queryset, request)]: a page that cannot be served
    falls back to page 1. *)
Definition paginate_queryset {A : Type} (queryset : list A)
  (page_size_param page_param : int_param) : page A :=
  let size := chosen_page_size page_size_param in
  let count := Z.of_nat (List.length queryset) in
  let (rows, number) :=
    match paginator_page queryset size (chosen_page page_param) with
    | Some p => p
    | None =>
        match paginator_page queryset size 1 with
        | Some p => p
        | None => ([], 1)
        end
    end in
  {| results := rows;
     current_page := number;
     total_pages := num_pages count size;
     total_items := count;
     page_size := size;
     has_next := number <? num_pages count size;
     has_previous := 1 <? number |}.

End EnhancedAPIView.

(* ================================================================= *)
(** ** Measures used by the further properties *)

(** The columns of [unique_together] on votes. *)
Definition vote_key (v : Vote) : Z * ContentType * Z :=
  (vote_user v, vote_content_type v, vote_object_id v).

(** The votes a target's [votes] relation holds, and their sum as the
    database computes it (no cache). *)
Definition votes_on (t : content_object) (d : Db) : list Vote :=
  match t with
  | a_question q => Questions.votes_of q d
  | an_answer a => Answers.votes_of a d
  end.

Definition stored_score (t : content_object) (d : Db) : Z :=
  fold_right Z.add 0 (map vote_value (votes_on t d)).

(** The value of the vote a call found or returned, 0 for none. *)
Definition found_value (r : result Vote) : Z :=
  match r with
  | Ok v => vote_value v
  | Raise _ => 0
  end.

Definition returned_value (r : result (option Vote)) : Z :=
  match r with
  | Ok (Some v) => vote_value v
  | _ => 0
  end.

(** The model name a target is addressed by in the vote status URL. *)
Definition model_name (t : content_object) : string :=
  match t with
  | a_question _ => "question"
  | an_answer _ => "answer"
  end.

(** [n] dashes. *)
Fixpoint dashes (n : nat) : string :=
  match n with
  | O => EmptyString
  | S n' => String "-" (dashes n')
  end.

(** Sums over a breakdown by type. *)
Definition breakdown_total (b : list (string * (Z * Z))) : Z :=
  fold_right Z.add 0 (map (fun e => fst (snd e)) b).

Definition breakdown_unread (b : list (string * (Z * Z))) : Z :=
  fold_right Z.add 0 (map (fun e => snd (snd e)) b).

(** The score a vote view reports in its response. *)
Definition reported_score (r : result response) : option json :=
  match r with
  | Ok (HTTP_200 body) => dict_get "vote_score" body
  | _ => None
  end.

(** The cache key of a question's vote score. *)
Definition vote_score_key (q : Question) : string :=
  "question_" ++ str (question_id q) ++ "_vote_score".


(** The group memberships a client action asks for. *)
Definition joins (a : client_action) : list (string * string) :=
  match a with
  | open_notifications channel (Some u) =>
      [(("notifications_" ++ str (user_id u))%string, channel);
       ("global_updates", channel)]
  | open_notifications_app channel (Some u) =>
      [(("notifications_" ++ str (user_id u))%string, channel)]
  | open_question channel question_id _ =>
      [(("question_" ++ question_id)%string, channel)]
  | open_live_feed channel _ => [("live_feed", channel)]
  | open_admin channel (Some u) _ =>
      if is_admin_user u then [("admin_monitoring", channel)] else []
  | send_frame channel _ (subscribe_to_question (Some key)) =>
      if key =? 0 then [] else [(("question_" ++ str key)%string, channel)]
  | _ => []
  end.

(** The membership test of [in_group] on one pair. *)
Definition is_pair (group channel : string) (gc : string * string) : bool :=
  String.eqb (fst gc) group && String.eqb (snd gc) channel.


(** Case analysis of a membership in a list of literal pairs. *)
Ltac pair_cases H :=
  repeat match type of H with
         | In _ (_ :: _) => destruct H as [H|H]
         | In _ [] => destruct H
         | (_, _) = (_, _) => injection H as ? ?
         end.

(** A connection after [m] was written to its socket. *)
Definition pushed (m : json) (c : Connection) : Connection :=
  {| channel_name := channel_name c; consumer := consumer c;
     outbox := outbox c ++ [m] |}.

(** A membership read off a layer with the same groups. *)
Ltac via_groups H :=
  match type of H with
  | in_group ?g ?ch ?Lbig = true =>
      match goal with
      | |- in_group g ch ?Lsmall = true =>
          replace (in_group g ch Lsmall) with (in_group g ch Lbig);
          [exact H|unfold in_group; f_equal]
      end
  end.

(* ================================================================= *)
(** * Properties *)

(** ** Queries over tables *)

Lemma filter_map_preserve {A : Type} (p : A -> bool) (f : A -> A) (l : list A) :
  (forall x, p (f x) = p x) ->
  filter p (map f l) = map f (filter p l).
Proof.
  intros Hp. induction l as [|x l IH]; simpl; [reflexivity|].
  rewrite Hp. destruct (p x); simpl; now rewrite IH.
Qed.

Lemma filter_none {A : Type} (p : A -> bool) (l : list A) :
  (forall x, In x l -> p x = false) -> filter p l = [].
Proof.
  induction l as [|x l IH]; simpl; intros H; [reflexivity|].
  rewrite (H x (or_introl eq_refl)). apply IH. intros y Hy. apply H. now right.
Qed.

Lemma filter_all {A : Type} (p : A -> bool) (l : list A) :
  (forall x, In x l -> p x = true) -> filter p l = l.
Proof.
  induction l as [|x l IH]; simpl; intros H; [reflexivity|].
  rewrite (H x (or_introl eq_refl)). f_equal. apply IH. intros y Hy. apply H. now right.
Qed.

Lemma filter_empty_forall {A : Type} (p : A -> bool) (l : list A) :
  filter p l = [] -> forall x, In x l -> p x = false.
Proof.
  induction l as [|y l IH]; simpl; intros H x Hx; [contradiction|].
  destruct (p y) eqn:Hy; [discriminate|].
  destruct Hx as [->|Hx]; [assumption|now apply IH].
Qed.

Lemma map_id_on {A : Type} (f : A -> A) (l : list A) :
  (forall x, In x l -> f x = x) -> map f l = l.
Proof.
  induction l as [|x l IH]; simpl; intros H; [reflexivity|].
  rewrite (H x (or_introl eq_refl)). f_equal. apply IH. intros y Hy. apply H. now right.
Qed.

Lemma objects_get_map {A : Type} (p : A -> bool) (f : A -> A) (l : list A) :
  (forall x, p (f x) = p x) ->
  objects_get p (map f l)
  = match objects_get p l with
    | Ok r => Ok (f r)
    | Raise e => Raise e
    end.
Proof.
  intros Hp. unfold objects_get. rewrite (filter_map_preserve p f l Hp).
  destruct (filter p l) as [|a [|b rest]]; reflexivity.
Qed.

Lemma objects_get_Ok_filter {A : Type} (p : A -> bool) (l : list A) (r : A) :
  objects_get p l = Ok r -> filter p l = [r].
Proof.
  unfold objects_get. destruct (filter p l) as [|a [|b rest]]; intros H;
    try discriminate. now inversion H.
Qed.

Lemma objects_get_Ok_holds {A : Type} (p : A -> bool) (l : list A) (r : A) :
  objects_get p l = Ok r -> In r l /\ p r = true.
Proof.
  intros H. apply objects_get_Ok_filter in H.
  assert (Hin : In r (filter p l)) by (rewrite H; now left).
  now apply filter_In in Hin.
Qed.

Lemma fresh_pk_above {A : Type} (key : A -> Z) (rows : list A) (r : A) :
  In r rows -> key r < fresh_pk key rows.
Proof.
  unfold fresh_pk. induction rows as [|x rows IH]; cbn [fold_right In];
    intros H; [contradiction|].
  destruct H as [->|H]; [lia|]. specialize (IH H). lia.
Qed.

Lemma existsb_of_filter {A : Type} (p : A -> bool) (l : list A) (r : A) :
  filter p l = [r] -> existsb p l = true.
Proof.
  intros H. apply existsb_exists. exists r.
  assert (Hin : In r (filter p l)) by (rewrite H; now left).
  now apply filter_In in Hin.
Qed.

(** ** Notifications: mark all read *)

Lemma set_is_read_true_not_unread (u : Z) (n : Notification) :
  is_unread_for u (if is_unread_for u n then set_is_read true n else n) = false.
Proof.
  destruct (is_unread_for u n) eqn:H; [|assumption].
  unfold is_unread_for. simpl. apply andb_false_r.
Qed.

Lemma with_notifications_same (s : State) :
  with_db (with_notifications (notifications (db s)) (db s)) s = s.
Proof. destruct s as [[us qs ans vs ns ts cts] L c]. reflexivity. Qed.

(** C8. [mark_all_read] returns the number of the recipient's
    notifications that were unread when it was called; afterwards the
    recipient has no unread notification; and when none was unread it
    returns 0 and leaves the state as it was. *)
Theorem mark_all_read_returns_unread_count (u : Z) (s : State) :
  fst (MarkAllReadAPIView.mark_all_read u s) = Ok (unread_count u (db s))
  /\ unread_count u (db (snd (MarkAllReadAPIView.mark_all_read u s))) = 0
  /\ (unread_count u (db s) = 0 ->
      fst (MarkAllReadAPIView.mark_all_read u s) = Ok 0
      /\ snd (MarkAllReadAPIView.mark_all_read u s) = s).
Proof.
  unfold MarkAllReadAPIView.mark_all_read, queryset_update, unread_count. simpl.
  split; [reflexivity|]. split.
  - rewrite filter_none; [reflexivity|].
    intros x Hx. apply in_map_iff in Hx as [n [<- _]].
    apply set_is_read_true_not_unread.
  - intros H0. split; [now rewrite H0|].
    assert (Hnil : filter (is_unread_for u) (notifications (db s)) = []).
    { destruct (filter (is_unread_for u) (notifications (db s))); [reflexivity|].
      simpl in H0. lia. }
    rewrite map_id_on; [apply with_notifications_same|].
    intros x Hx. now rewrite (filter_empty_forall _ _ Hnil x Hx).
Qed.

(** With nothing unread for user 2, the call returns 0 and changes nothing;
    with five unread it returns 5. *)
Lemma mark_all_read_returns_unread_count_witness :
  unread_count 2 (db Site.s0) = 0
  /\ fst (MarkAllReadAPIView.mark_all_read 2 Site.s0) = Ok 0
  /\ snd (MarkAllReadAPIView.mark_all_read 2 Site.s0) = Site.s0.
Proof.
  split; [reflexivity|].
  apply (proj2 (proj2 (mark_all_read_returns_unread_count 2 Site.s0))).
  reflexivity.
Defined.

Example mark_all_read_five :
  let s := with_db (with_notifications
                      (map Site.unread [1; 2; 3; 4; 5]) Site.db0) Site.s0 in
  fst (MarkAllReadAPIView.mark_all_read 2 s) = Ok 5
  /\ unread_count 2 (db (snd (MarkAllReadAPIView.mark_all_read 2 s))) = 0.
Proof. split; reflexivity. Qed.

(** ** The ledger *)

Lemma db_layer_group_send (now group : string) (event : dict) (s : State) :
  db (layer_group_send now group event s) = db s.
Proof. unfold layer_group_send. now destruct (channel_layer s). Qed.

Lemma cache_layer_group_send (now group : string) (event : dict) (s : State) :
  cache (layer_group_send now group event s) = cache s.
Proof. unfold layer_group_send. now destruct (channel_layer s). Qed.

(** What [save] does with a transaction that has no primary key yet:
    it is refused before anything is written (no such user row, or the
    check constraint), or the user row is written and the event sent, after
    which the row is inserted or, its content type missing, refused. *)
Lemma save_new_spec (now : string) (self : ReputationTransaction) (s : State) :
  pk self = None ->
  let r := ReputationTransactions.save now self s in
  (exists e, r = (Raise e, s)
             /\ (existsb (fun x => user_id x =? user_id (user self)) (users (db s)) = false
                 /\ e = DatabaseError
                 \/ existsb (fun x => user_id x =? user_id (user self)) (users (db s))
                    = true
                    /\ reputation (user self) + amount self < -1000
                    /\ e = IntegrityError))
  \/ (existsb (fun x => user_id x =? user_id (user self)) (users (db s)) = true
      /\ -1000 <= reputation (user self) + amount self
      /\ users (db (snd r)) = map (credit (user self) (amount self)) (users (db s))
      /\ questions (db (snd r)) = questions (db s)
      /\ answers (db (snd r)) = answers (db s)
      /\ votes (db (snd r)) = votes (db s)
      /\ notifications (db (snd r)) = notifications (db s)
      /\ content_types (db (snd r)) = content_types (db s)
      /\ cache (snd r) = cache s
      /\ (existsb (Z.eqb (content_type_id self)) (content_types (db s)) = false
          /\ fst r = Raise IntegrityError
          /\ reputation_transactions (db (snd r)) = reputation_transactions (db s)
          \/ existsb (Z.eqb (content_type_id self)) (content_types (db s)) = true
             /\ exists row,
                  fst r = Ok row
                  /\ user_id (user row) = user_id (user self)
                  /\ amount row = amount self
                  /\ transaction_type row = transaction_type self
                  /\ balance_after row = reputation (user self) + amount self
                  /\ reputation_transactions (db (snd r))
                     = reputation_transactions (db s) ++ [row]
                  /\ pk row
                     = Some (fresh_pk transaction_pk (reputation_transactions (db s)))
                  /\ version row = version self)).
Proof.
  intros Hpk. cbv zeta. unfold ReputationTransactions.save. rewrite Hpk.
  unfold bind, User_save_reputation, RealtimeSyncMixin.trigger_realtime_update.
  cbn [user_id set_reputation reputation content_type_id].
  destruct (existsb _ (users (db s))) eqn:Hex;
    [|left; eexists; split; [reflexivity|now left]].
  destruct (reputation (user self) + amount self <? -1000) eqn:Hlt.
  - apply Z.ltb_lt in Hlt. left. eexists. split; [reflexivity|]. right. now repeat split.
  - apply Z.ltb_ge in Hlt. right. rewrite !db_layer_group_send.
    cbn [db with_db content_types with_users].
    destruct (existsb (Z.eqb (content_type_id self)) (content_types (db s))) eqn:Hct;
      cbn [fst snd]; rewrite ?db_layer_group_send, ?cache_layer_group_send;
      cbn [db with_db cache users questions answers votes notifications content_types
           reputation_transactions with_users with_reputation_transactions];
      rewrite ?cache_layer_group_send; cbn [cache with_db];
      (split; [reflexivity|]); (split; [assumption|]);
      do 7 (split; [reflexivity|]).
    + right. split; [reflexivity|]. eexists. repeat split; reflexivity.
    + left. repeat split; reflexivity.
Qed.

Lemma get_user_credit (u : User) (amt uid : Z) (d : Db) :
  objects_get (fun r => user_id r =? uid) (map (credit u amt) (users d))
  = match get_user uid d with
    | Ok r => Ok (credit u amt r)
    | Raise e => Raise e
    end.
Proof.
  unfold get_user. apply objects_get_map.
  intros x. unfold credit. now destruct (user_id x =? user_id u).
Qed.

(** A call that returns its row, made with the stored user object. *)
Lemma create_fresh_spec (e : entry) (s : State) (row : ReputationTransaction) :
  fst (create e s) = Ok row ->
  user_id (user row) = user_id (entry_user e)
  /\ amount row = entry_amount e
  /\ balance_after row = reputation (entry_user e) + entry_amount e
  /\ reputation_transactions (db (snd (create e s)))
     = reputation_transactions (db s) ++ [row]
  /\ users (db (snd (create e s)))
     = map (credit (entry_user e) (entry_amount e)) (users (db s)).
Proof.
  unfold create, ReputationTransactions.objects_create. intros Hok.
  match goal with
  | |- context [ReputationTransactions.save ?n ?t s] =>
      destruct (save_new_spec n t s eq_refl) as [(ex & H & _)|H]
  end.
  - rewrite H in Hok. discriminate.
  - cbv zeta in H. cbn [user amount content_type_id] in H.
    destruct H as (_ & _ & Hus & _ & _ & _ & _ & _ & _ & [(_ & Hfail & _)|(_ & row' & H)]).
    + rewrite Hfail in Hok. discriminate.
    + destruct H as (Hfst & Hid & Hamt & _ & Hbal & Htx & _).
      rewrite Hfst in Hok. inversion Hok; subst row'. now repeat split.
Qed.

Lemma served_fresh_spec (es : list entry) :
  forall (s : State) (uid : Z),
  served_fresh es s ->
  exists new,
    transactions_of uid (db (create_all es s)) = transactions_of uid (db s) ++ new
    /\ map amount new
       = map entry_amount (filter (fun e => user_id (entry_user e) =? uid) es)
    /\ match get_user uid (db s) with
       | Ok u => map balance_after new = prefix_sums (reputation u) (map amount new)
       | Raise _ => new = []
       end.
Proof.
  induction es as [|e es IH]; intros s uid Hfresh; cbn [create_all].
  - exists []. rewrite app_nil_r. repeat split. now destruct (get_user uid (db s)).
  - destruct Hfresh as (Hu & _ & (row & Hok) & Hrest).
    destruct (create_fresh_spec e s row Hok) as (Hrid & Hamt & Hbal & Htx & Hus).
    destruct (IH (snd (create e s)) uid Hrest) as (new1 & Hnew1 & Hamts & Hbal1).
    unfold transactions_of in Hnew1 |- *. rewrite Htx, filter_app in Hnew1.
    unfold get_user in Hbal1 at 1. rewrite Hus, get_user_credit in Hbal1.
    cbn [filter] in Hnew1 |- *. rewrite Hrid in Hnew1.
    destruct (user_id (entry_user e) =? uid) eqn:Heq.
    + apply Z.eqb_eq in Heq. subst uid. rewrite Hu in Hbal1 |- *.
      exists (row :: new1). split; [now rewrite Hnew1, <- app_assoc|].
      cbn [map]. split; [now rewrite Hamt, Hamts|].
      unfold credit in Hbal1. rewrite Z.eqb_refl in Hbal1.
      cbn [reputation set_reputation] in Hbal1.
      cbn [prefix_sums]. rewrite Hbal, Hamt. now f_equal.
    + exists new1. split; [now rewrite Hnew1, app_nil_r|]. split; [exact Hamts|].
      destruct (get_user uid (db s)) as [r|ex] eqn:Hr; [|assumption].
      unfold get_user in Hr. apply objects_get_Ok_holds in Hr as [_ Hrid'].
      apply Z.eqb_eq in Hrid'.
      unfold credit in Hbal1.
      replace (user_id r =? user_id (entry_user e)) with false in Hbal1; [assumption|].
      symmetry. apply Z.eqb_neq. apply Z.eqb_neq in Heq. congruence.
Qed.

(** C1, the claim as it is stated, at three creations of +15 for bob, who
    starts at 100.  The first two are made with the object as stored, the
    third with an object loaded before the second (reputation 115): it
    writes 130 again, where the prefix sum is 145. *)
Lemma stale_user_object_breaks_prefix_sum :
  let plus15 (u : User) :=
    {| entry_now := "2026-01-01T00:00:01"; entry_user := u;
       entry_type := "answer_accepted"; entry_amount := 15;
       entry_description := "accepted"; entry_content_type_id := 1;
       entry_object_id := 3 |} in
  let d := db (create_all [plus15 Site.bob;
                           plus15 (set_reputation 115 Site.bob);
                           plus15 (set_reputation 115 Site.bob)] Site.s0) in
  map balance_after (transactions_of 2 d) = [115; 130; 130]
  /\ prefix_sums (reputation Site.bob) (map amount (transactions_of 2 d))
     = [115; 130; 145]
  /\ map balance_after (transactions_of 2 d)
     <> prefix_sums (reputation Site.bob) (map amount (transactions_of 2 d)).
Proof. cbv zeta. split; [reflexivity|]. split; [reflexivity|]. discriminate. Qed.

(** C1, amended.  Over any sequence of creations that each return their
    row, write values that fit their columns and are each made with the
    user object as stored at that moment, the transactions added for a user
    carry in [balance_after] the prefix sums of their amounts, starting
    from the reputation the user had before the first of them; and every
    creation that returns its row has [balance_after] equal to the
    reputation of the user object it was given plus its amount, which is
    the reputation every stored row of that user then holds. *)
Theorem balance_after_is_prefix_sum (es : list entry) (s : State) (uid : Z) :
  served_fresh es s ->
  (exists new,
     transactions_of uid (db (create_all es s)) = transactions_of uid (db s) ++ new
     /\ map amount new
        = map entry_amount (filter (fun e => user_id (entry_user e) =? uid) es)
     /\ match get_user uid (db s) with
        | Ok u => map balance_after new = prefix_sums (reputation u) (map amount new)
        | Raise _ => new = []
        end)
  /\ (forall e s0 row,
        fits_columns e = true ->
        fst (create e s0) = Ok row ->
        balance_after row = reputation (entry_user e) + entry_amount e
        /\ (exists stored,
              In stored (users (db (snd (create e s0))))
              /\ user_id stored = user_id (entry_user e))
        /\ (forall stored,
              In stored (users (db (snd (create e s0)))) ->
              user_id stored = user_id (entry_user e) ->
              reputation stored = balance_after row)).
Proof.
  intros Hfresh. split; [now apply served_fresh_spec|].
  intros e s0 row _ Hok. unfold create, ReputationTransactions.objects_create in *.
  match type of Hok with
  | fst (ReputationTransactions.save ?n ?t s0) = _ =>
      set (now := n) in *; set (self := t) in *
  end.
  change (entry_user e) with (user self). change (entry_amount e) with (amount self).
  destruct (save_new_spec now self s0 eq_refl) as [(ex & H & _)|H].
  - rewrite H in Hok. discriminate.
  - cbv zeta in H.
    destruct H as (Hex & _ & Hus & _ & _ & _ & _ & _ & _ & [(_ & Hfail & _)|(_ & row' & H)]);
      [rewrite Hfail in Hok; discriminate|].
    destruct H as (Hfst & _ & _ & _ & Hbal & _).
    rewrite Hfst in Hok. inversion Hok; subst row'. clear Hok.
    split; [assumption|]. rewrite Hus, Hbal. split.
    + apply existsb_exists in Hex as (r & Hin & Hr). apply Z.eqb_eq in Hr.
      exists (credit (user self) (amount self) r). split; [now apply in_map|].
      unfold credit. destruct (user_id r =? user_id (user self)); assumption.
    + intros stored Hin Hid. apply in_map_iff in Hin as (r & <- & _).
      unfold credit in Hid |- *.
      destruct (user_id r =? user_id (user self)) eqn:E; [reflexivity|].
      apply Z.eqb_neq in E. contradiction.
Qed.

(** bob starts at 100: +10 gives 110, then +15, credited to the object
    loaded after the first, gives 125. *)
Lemma balance_after_is_prefix_sum_witness :
  let es := [{| entry_now := "2026-01-01T00:00:01"; entry_user := Site.bob;
                entry_type := "answer_upvote"; entry_amount := 10;
                entry_description := "upvote"; entry_content_type_id := 1;
                entry_object_id := 3 |};
             {| entry_now := "2026-01-01T00:00:02";
                entry_user := set_reputation 110 Site.bob;
                entry_type := "answer_accepted"; entry_amount := 15;
                entry_description := "accepted"; entry_content_type_id := 1;
                entry_object_id := 3 |}] in
  served_fresh es Site.s0
  /\ map balance_after (transactions_of 2 (db (create_all es Site.s0))) = [110; 125]
  /\ (exists new,
        transactions_of 2 (db (create_all es Site.s0))
        = transactions_of 2 (db Site.s0) ++ new
        /\ map amount new
           = map entry_amount (filter (fun e => user_id (entry_user e) =? 2) es)
        /\ match get_user 2 (db Site.s0) with
           | Ok u => map balance_after new = prefix_sums (reputation u) (map amount new)
           | Raise _ => new = []
           end).
Proof.
  cbv zeta.
  assert (Hfresh : served_fresh
            [{| entry_now := "2026-01-01T00:00:01"; entry_user := Site.bob;
                entry_type := "answer_upvote"; entry_amount := 10;
                entry_description := "upvote"; entry_content_type_id := 1;
                entry_object_id := 3 |};
             {| entry_now := "2026-01-01T00:00:02";
                entry_user := set_reputation 110 Site.bob;
                entry_type := "answer_accepted"; entry_amount := 15;
                entry_description := "accepted"; entry_content_type_id := 1;
                entry_object_id := 3 |}] Site.s0).
  { cbn [served_fresh]. split; [reflexivity|]. split; [reflexivity|].
    split; [eexists; reflexivity|].
    split; [reflexivity|]. split; [reflexivity|].
    split; [eexists; reflexivity|exact I]. }
  split; [exact Hfresh|]. split; [reflexivity|].
  exact (proj1 (balance_after_is_prefix_sum _ Site.s0 2 Hfresh)).
Defined.

(** ** Votes *)

Lemma frame_refl (s : State) : frame s s.
Proof. repeat split. Qed.

Lemma frame_trans (s1 s2 s3 : State) : frame s1 s2 -> frame s2 s3 -> frame s1 s3.
Proof.
  unfold frame. intros (A1 & A2 & A3 & A4 & A5) (B1 & B2 & B3 & B4 & B5).
  repeat split; congruence.
Qed.

Lemma create_notification_frame (now : string) (rid : Z) (from : User)
  (ntype ntitle nmessage : string) (rq ra : option Z) (s : State) :
  exists n,
    fst (create_notification now rid from ntype ntitle nmessage rq ra s) = Ok n
    /\ recipient n = rid
    /\ sender n = Some (user_id from)
    /\ notification_type n = ntype
    /\ notifications (db (snd (create_notification now rid from ntype ntitle
                                  nmessage rq ra s)))
       = notifications (db s) ++ [n]
    /\ votes (db (snd (create_notification now rid from ntype ntitle nmessage rq ra s)))
       = votes (db s)
    /\ frame s (snd (create_notification now rid from ntype ntitle nmessage rq ra s)).
Proof.
  unfold create_notification, send_notification_to_user, bind, ret. cbn [fst snd].
  eexists. split; [reflexivity|]. unfold frame.
  rewrite !db_layer_group_send, cache_layer_group_send. cbn.
  repeat split.
Qed.

Lemma notify_vote_frame (now : string) (target : option content_object)
  (voter : User) (value : Z) (s : State) :
  fst (notify_vote now target voter value s) = Ok tt
  /\ votes (db (snd (notify_vote now target voter value s))) = votes (db s)
  /\ frame s (snd (notify_vote now target voter value s)).
Proof.
  unfold notify_vote. destruct target as [t|]; [|repeat split].
  destruct (negb (content_object_author t =? user_id voter)); [|repeat split].
  destruct t as [q|a]; unfold bind, ret;
    match goal with
    | |- context [create_notification ?n ?r ?f ?ty ?ti ?m ?rq ?ra s] =>
        destruct (create_notification_frame n r f ty ti m rq ra s)
          as (x & Hfst & _ & _ & _ & _ & Hv & Hfr);
        destruct (create_notification n r f ty ti m rq ra s) as [res s'];
        cbn [fst snd] in *; subst res; cbn [fst snd]
    end; repeat split; try assumption; apply Hfr.
Qed.

Lemma vote_created_frame (now : string) (instance : Vote) (voter : User)
  (created : bool) (s : State) :
  fst (vote_created now instance voter created s) = Ok tt
  /\ votes (db (snd (vote_created now instance voter created s))) = votes (db s)
  /\ frame s (snd (vote_created now instance voter created s)).
Proof.
  unfold vote_created. destruct created; [apply notify_vote_frame|].
  repeat split.
Qed.

Lemma frame_with_votes (vs : list Vote) (s : State) :
  frame s (with_db (with_votes vs (db s)) s).
Proof. repeat split. Qed.

(** The three branches of [toggle_vote], and what every branch preserves. *)
Lemma toggle_vote_cases (now : string) (u : User) (t : content_object) (value : Z)
  (s : State) :
  frame s (snd (Votes.toggle_vote now u t value s))
  /\ match objects_get (Votes.is_vote_of u t) (votes (db s)) with
     | Ok vote =>
         if vote_value vote =? value
         then fst (Votes.toggle_vote now u t value s) = Ok None
              /\ votes (db (snd (Votes.toggle_vote now u t value s)))
                 = filter (fun v => negb (vote_id v =? vote_id vote)) (votes (db s))
         else fst (Votes.toggle_vote now u t value s)
              = Ok (Some (set_vote_value value vote))
              /\ votes (db (snd (Votes.toggle_vote now u t value s)))
                 = map (fun v => if vote_id v =? vote_id vote
                                 then set_vote_value value vote else v)
                       (votes (db s))
     | Raise DoesNotExist =>
         fst (Votes.toggle_vote now u t value s) = Ok (Some (new_vote u t value s))
         /\ votes (db (snd (Votes.toggle_vote now u t value s)))
            = votes (db s) ++ [new_vote u t value s]
     | Raise e => Votes.toggle_vote now u t value s = (Raise e, s)
     end.
Proof.
  unfold Votes.toggle_vote.
  destruct (objects_get (Votes.is_vote_of u t) (votes (db s))) as [vote|e].
  - destruct (vote_value vote =? value).
    + cbn [fst snd]. split; [apply frame_with_votes|]. split; reflexivity.
    + unfold bind, ret.
      match goal with
      | |- context [vote_created ?n ?i ?w ?c ?st] =>
          destruct (vote_created_frame n i w c st) as (Hfst & Hv & Hfr);
          destruct (vote_created n i w c st) as [res s'];
          cbn [fst snd] in *; subst res; cbn [fst snd]
      end.
      split; [eapply frame_trans; [apply frame_with_votes|exact Hfr]|].
      split; [reflexivity|]. rewrite Hv. reflexivity.
  - destruct e; try (split; [apply frame_refl|reflexivity]).
    fold (new_vote u t value s). unfold bind, ret.
    match goal with
    | |- context [vote_created ?n ?i ?w ?c ?st] =>
        destruct (vote_created_frame n i w c st) as (Hfst & Hv & Hfr);
        destruct (vote_created n i w c st) as [res s'];
        cbn [fst snd] in *; subst res; cbn [fst snd]
    end.
    split; [eapply frame_trans; [apply frame_with_votes|exact Hfr]|].
    split; [reflexivity|]. rewrite Hv. reflexivity.
Qed.

Lemma is_vote_of_new_vote (u : User) (t : content_object) (value : Z) (s : State) :
  Votes.is_vote_of u t (new_vote u t value s) = true.
Proof.
  unfold Votes.is_vote_of, new_vote. cbn.
  rewrite !Z.eqb_refl. now destruct t.
Qed.

Lemma is_vote_of_set_vote_value (u : User) (t : content_object) (value : Z) (v : Vote) :
  Votes.is_vote_of u t (set_vote_value value v) = Votes.is_vote_of u t v.
Proof. reflexivity. Qed.

Lemma other_ids_kept (s : State) (nv : Z) :
  nv = fresh_pk vote_id (votes (db s)) ->
  forall x, In x (votes (db s)) -> (vote_id x =? nv) = false.
Proof.
  intros -> x Hx. apply Z.eqb_neq.
  pose proof (fresh_pk_above vote_id (votes (db s)) x Hx). lia.
Qed.

Lemma vote_score_same (t : content_object) (s s' : State) :
  votes (db s') = votes (db s) -> cache s' = cache s ->
  fst (vote_score t s') = fst (vote_score t s).
Proof.
  intros Hv Hc. destruct t as [q|a]; cbn [vote_score fst].
  - unfold Questions.vote_score, Questions.votes_of. rewrite Hv, Hc.
    now destruct (Questions.cache_get _ (cache s)).
  - unfold Answers.vote_score, Answers.votes_of. now rewrite Hv.
Qed.

(** C3. From a state with no vote of [u] on [t], the same toggle twice:
    the second call returns [None], no vote of [u] on [t] is left, the
    votes table is as it was, and the target's vote score reads as it did
    before the first call. *)
Theorem toggle_twice_retracts (now1 now2 : string) (u : User) (t : content_object)
  (value : Z) (s : State) :
  filter (Votes.is_vote_of u t) (votes (db s)) = [] ->
  let s1 := snd (Votes.toggle_vote now1 u t value s) in
  let r2 := Votes.toggle_vote now2 u t value s1 in
  fst r2 = Ok None
  /\ filter (Votes.is_vote_of u t) (votes (db (snd r2))) = []
  /\ votes (db (snd r2)) = votes (db s)
  /\ fst (vote_score t (snd r2)) = fst (vote_score t s).
Proof.
  intros Hnone s1 r2.
  destruct (toggle_vote_cases now1 u t value s) as [Hfr1 H1].
  unfold objects_get in H1. rewrite Hnone in H1. destruct H1 as [_ Hv1].
  fold s1 in Hv1, Hfr1.
  destruct (toggle_vote_cases now2 u t value s1) as [Hfr2 H2].
  fold r2 in Hfr2, H2.
  assert (Hget : objects_get (Votes.is_vote_of u t) (votes (db s1))
                 = Ok (new_vote u t value s)).
  { unfold objects_get. rewrite Hv1, filter_app, Hnone. cbn [filter app].
    now rewrite is_vote_of_new_vote. }
  rewrite Hget in H2. cbn [vote_value new_vote] in H2.
  rewrite Z.eqb_refl in H2. destruct H2 as [Hr2 Hv2].
  assert (Hback : votes (db (snd r2)) = votes (db s)).
  { rewrite Hv2, Hv1, filter_app. cbn [filter vote_id new_vote].
    rewrite Z.eqb_refl. cbn [negb]. rewrite app_nil_r.
    apply filter_all. intros x Hx.
    now rewrite (other_ids_kept s _ eq_refl x Hx). }
  split; [exact Hr2|]. split; [now rewrite Hback|]. split; [exact Hback|].
  apply vote_score_same; [exact Hback|].
  destruct Hfr1 as (_ & _ & _ & _ & Hc1). destruct Hfr2 as (_ & _ & _ & _ & Hc2).
  congruence.
Qed.

(** alice upvotes bob's answer twice. *)
Lemma toggle_twice_retracts_witness :
  let s1 := snd (Votes.toggle_vote "2026-01-01T00:00:01" Site.alice
                   (an_answer Site.a3) 1 Site.s0) in
  let r2 := Votes.toggle_vote "2026-01-01T00:00:02" Site.alice
              (an_answer Site.a3) 1 s1 in
  fst r2 = Ok None
  /\ filter (Votes.is_vote_of Site.alice (an_answer Site.a3))
            (votes (db (snd r2))) = []
  /\ votes (db (snd r2)) = votes (db Site.s0)
  /\ fst (vote_score (an_answer Site.a3) (snd r2))
     = fst (vote_score (an_answer Site.a3) Site.s0).
Proof.
  apply (toggle_twice_retracts "2026-01-01T00:00:01" "2026-01-01T00:00:02"
           Site.alice (an_answer Site.a3) 1 Site.s0).
  reflexivity.
Defined.

(** C4, as stated, fails: alice upvotes bob's answer, then flips to a
    downvote.  One vote valued -1 is left, but no transaction was written,
    so bob's ledger has not moved by the net delta of the flip (-12). *)
Lemma flip_not_reflected_in_ledger :
  let s1 := snd (Votes.toggle_vote "2026-01-01T00:00:01" Site.alice
                   (an_answer Site.a3) 1 Site.s0) in
  let s2 := snd (Votes.toggle_vote "2026-01-01T00:00:02" Site.alice
                   (an_answer Site.a3) (-1) s1) in
  map vote_value (filter (Votes.is_vote_of Site.alice (an_answer Site.a3))
                         (votes (db s2))) = [-1]
  /\ reputation_transactions (db s2) = []
  /\ ~ flip_reflected_in_ledger (an_answer Site.a3) (db s1) (db s2)
  /\ ~ flip_reflected_in_ledger (an_answer Site.a3) (db Site.s0) (db s2).
Proof.
  cbv zeta. split; [reflexivity|]. split; [reflexivity|].
  split; intros H; vm_compute in H; discriminate.
Qed.

(** C4, amended. From a state with no vote of [u] on [t], an upvote
    followed by a downvote: the second call returns the vote the first one
    created, same primary key, now valued -1; it is the only vote of [u]
    on [t]; and the ledger is untouched: no transaction is written and no
    user's reputation changes. *)
Theorem toggle_flip_updates_in_place (now1 now2 : string) (u : User)
  (t : content_object) (s : State) :
  filter (Votes.is_vote_of u t) (votes (db s)) = [] ->
  let r1 := Votes.toggle_vote now1 u t 1 s in
  let r2 := Votes.toggle_vote now2 u t (-1) (snd r1) in
  exists v1 v2,
    fst r1 = Ok (Some v1)
    /\ fst r2 = Ok (Some v2)
    /\ vote_id v2 = vote_id v1
    /\ vote_value v2 = -1
    /\ filter (Votes.is_vote_of u t) (votes (db (snd r2))) = [v2]
    /\ votes (db (snd r2)) = votes (db s) ++ [v2]
    /\ reputation_transactions (db (snd r2)) = reputation_transactions (db s)
    /\ users (db (snd r2)) = users (db s).
Proof.
  intros Hnone r1 r2.
  destruct (toggle_vote_cases now1 u t 1 s) as [Hfr1 H1].
  unfold objects_get in H1. rewrite Hnone in H1. destruct H1 as [Hr1 Hv1].
  fold r1 in Hv1, Hfr1, Hr1.
  destruct (toggle_vote_cases now2 u t (-1) (snd r1)) as [Hfr2 H2].
  fold r2 in Hfr2, H2.
  assert (Hget : objects_get (Votes.is_vote_of u t) (votes (db (snd r1)))
                 = Ok (new_vote u t 1 s)).
  { unfold objects_get. rewrite Hv1, filter_app, Hnone. cbn [filter app].
    now rewrite is_vote_of_new_vote. }
  rewrite Hget in H2. cbn [vote_value new_vote] in H2.
  change (1 =? -1) with false in H2. destruct H2 as [Hr2 Hv2].
  exists (new_vote u t 1 s), (set_vote_value (-1) (new_vote u t 1 s)).
  assert (Hvotes : votes (db (snd r2))
                   = votes (db s) ++ [set_vote_value (-1) (new_vote u t 1 s)]).
  { rewrite Hv2. fold (new_vote u t 1 s). rewrite Hv1, map_app.
    cbn [map vote_id new_vote]. rewrite Z.eqb_refl. f_equal.
    apply map_id_on. intros x Hx.
    now rewrite (other_ids_kept s _ eq_refl x Hx). }
  split; [exact Hr1|]. split; [exact Hr2|]. split; [reflexivity|].
  split; [reflexivity|].
  split.
  { rewrite Hvotes, filter_app, Hnone. cbn [filter app].
    now rewrite is_vote_of_set_vote_value, is_vote_of_new_vote. }
  split; [exact Hvotes|].
  destruct Hfr1 as (U1 & _ & _ & T1 & _). destruct Hfr2 as (U2 & _ & _ & T2 & _).
  split; congruence.
Qed.

Lemma toggle_flip_updates_in_place_witness :
  let r1 := Votes.toggle_vote "2026-01-01T00:00:01" Site.alice
              (an_answer Site.a3) 1 Site.s0 in
  let r2 := Votes.toggle_vote "2026-01-01T00:00:02" Site.alice
              (an_answer Site.a3) (-1) (snd r1) in
  exists v1 v2,
    fst r1 = Ok (Some v1)
    /\ fst r2 = Ok (Some v2)
    /\ vote_id v2 = vote_id v1
    /\ vote_value v2 = -1
    /\ filter (Votes.is_vote_of Site.alice (an_answer Site.a3))
              (votes (db (snd r2))) = [v2]
    /\ votes (db (snd r2)) = votes (db Site.s0) ++ [v2]
    /\ reputation_transactions (db (snd r2)) = reputation_transactions (db Site.s0)
    /\ users (db (snd r2)) = users (db Site.s0).
Proof.
  apply (toggle_flip_updates_in_place "2026-01-01T00:00:01" "2026-01-01T00:00:02"
           Site.alice (an_answer Site.a3) Site.s0).
  reflexivity.
Defined.

(** Rows with distinct primary keys are told apart by their key. *)
Lemma NoDup_key_inj {A : Type} (key : A -> Z) (l : list A) (a b : A) :
  NoDup (map key l) -> In a l -> In b l -> key a = key b -> a = b.
Proof.
  induction l as [|x l IH]; cbn [map In]; intros Hnd Ha Hb Hk; [contradiction|].
  inversion Hnd as [|? ? Hnotin Hnd']; subst.
  destruct Ha as [->|Ha], Hb as [->|Hb].
  - reflexivity.
  - exfalso. apply Hnotin. rewrite Hk. now apply in_map.
  - exfalso. apply Hnotin. rewrite <- Hk. now apply in_map.
  - now apply IH.
Qed.

Lemma filter_filter_implied {A : Type} (q p : A -> bool) (l : list A) :
  (forall x, In x l -> q x = true -> p x = true) ->
  filter q (filter p l) = filter q l.
Proof.
  induction l as [|x l IH]; cbn [filter]; intros H; [reflexivity|].
  assert (IH' := IH (fun y Hy => H y (or_intror Hy))).
  destruct (p x) eqn:Hp; cbn [filter].
  - destruct (q x); now rewrite IH'.
  - destruct (q x) eqn:Hq; [|exact IH'].
    rewrite (H x (or_introl eq_refl) Hq) in Hp. discriminate.
Qed.

Lemma filter_map_untouched {A : Type} (q : A -> bool) (g : A -> A) (l : list A) :
  (forall x, In x l -> q (g x) = q x /\ (q x = true -> g x = x)) ->
  filter q (map g l) = filter q l.
Proof.
  induction l as [|x l IH]; cbn [filter map]; intros H; [reflexivity|].
  destruct (H x (or_introl eq_refl)) as [Hq Hg]. rewrite Hq.
  rewrite (IH (fun y Hy => H y (or_intror Hy))).
  destruct (q x); [now rewrite Hg|reflexivity].
Qed.

(** C10. Whatever branch [toggle_vote] takes, the votes of other users
    and on other targets are the same rows in the same order afterwards, and
    the questions and answers tables (with the users, the ledger and the
    cached scores) are not written. *)
Theorem toggle_vote_touches_one_row (now : string) (u : User) (t : content_object)
  (value : Z) (s : State) :
  NoDup (map vote_id (votes (db s))) ->
  let s' := snd (Votes.toggle_vote now u t value s) in
  filter (fun v => negb (Votes.is_vote_of u t v)) (votes (db s'))
  = filter (fun v => negb (Votes.is_vote_of u t v)) (votes (db s))
  /\ questions (db s') = questions (db s)
  /\ answers (db s') = answers (db s)
  /\ users (db s') = users (db s)
  /\ reputation_transactions (db s') = reputation_transactions (db s)
  /\ cache s' = cache s.
Proof.
  intros Hnd s'.
  destruct (toggle_vote_cases now u t value s) as [Hfr H]. fold s' in Hfr, H.
  destruct Hfr as (Hu & Hq & Ha & Ht & Hc).
  split; [|repeat split; assumption].
  destruct (objects_get (Votes.is_vote_of u t) (votes (db s))) as [vote|e] eqn:Hget.
  - apply objects_get_Ok_holds in Hget as [Hin Hmine].
    assert (Hother : forall x, In x (votes (db s)) ->
                       negb (Votes.is_vote_of u t x) = true ->
                       (vote_id x =? vote_id vote) = false).
    { intros x Hx Hnot. apply Z.eqb_neq. intros Hid.
      rewrite (NoDup_key_inj vote_id _ x vote Hnd Hx Hin Hid), Hmine in Hnot.
      discriminate. }
    destruct (vote_value vote =? value).
    + destruct H as [_ ->]. apply filter_filter_implied.
      intros x Hx Hnot. now rewrite (Hother x Hx Hnot).
    + destruct H as [_ ->]. apply filter_map_untouched.
      intros x Hx. destruct (vote_id x =? vote_id vote) eqn:Hid.
      * apply Z.eqb_eq in Hid.
        rewrite (NoDup_key_inj vote_id _ x vote Hnd Hx Hin Hid).
        rewrite is_vote_of_set_vote_value, Hmine. split; [reflexivity|].
        discriminate.
      * split; reflexivity.
  - destruct e; try (subst s'; now rewrite H).
    destruct H as [_ ->]. rewrite filter_app. cbn [filter].
    rewrite is_vote_of_new_vote. cbn [negb]. apply app_nil_r.
Qed.

(** bob's downvote on the question stays as it is while alice toggles hers. *)
Lemma toggle_vote_touches_one_row_witness :
  let s := with_db (with_votes
                      [{| vote_id := 1; vote_user := 2; vote_value := -1;
                          vote_content_type := ct_question; vote_object_id := 7 |}]
                      Site.db0) Site.s0 in
  let s' := snd (Votes.toggle_vote "2026-01-01T00:00:01" Site.alice
                   (an_answer Site.a3) 1 s) in
  filter (fun v => negb (Votes.is_vote_of Site.alice (an_answer Site.a3) v))
         (votes (db s'))
  = filter (fun v => negb (Votes.is_vote_of Site.alice (an_answer Site.a3) v))
           (votes (db s))
  /\ questions (db s') = questions (db s)
  /\ answers (db s') = answers (db s)
  /\ users (db s') = users (db s)
  /\ reputation_transactions (db s') = reputation_transactions (db s)
  /\ cache s' = cache s.
Proof.
  apply (toggle_vote_touches_one_row "2026-01-01T00:00:01" Site.alice
           (an_answer Site.a3) 1).
  cbn. constructor; [intros []|constructor].
Defined.

(** C2 at a failing input: alice votes on her own question.  The
    validator of the rule rejects the pair, but [toggle_vote] never calls
    it: the call succeeds and the vote is stored (no transaction is written,
    which holds of every call). *)
Theorem self_vote_is_recorded :
  fst (BusinessRuleValidator.validate_vote_eligibility Site.alice
         (a_question Site.q7) Site.s0)
  = Raise (ValidationError "You cannot vote on your own content.")
  /\ fst (Votes.toggle_vote "2026-01-01T00:00:01" Site.alice
            (a_question Site.q7) 1 Site.s0)
     = Ok (Some {| vote_id := 1; vote_user := 1; vote_value := 1;
                   vote_content_type := ct_question; vote_object_id := 7 |})
  /\ votes (db (snd (Votes.toggle_vote "2026-01-01T00:00:01" Site.alice
                       (a_question Site.q7) 1 Site.s0)))
     = [{| vote_id := 1; vote_user := 1; vote_value := 1;
           vote_content_type := ct_question; vote_object_id := 7 |}]
  /\ reputation_transactions
       (db (snd (Votes.toggle_vote "2026-01-01T00:00:01" Site.alice
                   (a_question Site.q7) 1 Site.s0))) = [].
Proof. repeat split. Qed.

(** ** Fan-out *)

Lemma flat_map_single {A : Type} (f : A -> list A) (l : list A) :
  (forall x, In x l -> f x = [x]) -> flat_map f l = l.
Proof.
  induction l as [|x l IH]; cbn [flat_map]; intros H; [reflexivity|].
  rewrite (H x (or_introl eq_refl)). cbn [app]. f_equal. apply IH.
  intros y Hy. apply H. now right.
Qed.

(** A group nobody joined: [group_send] changes no outbox. *)
Lemma group_send_no_member (now group : string) (event : dict) (L : ChannelLayer) :
  (forall c, In c (connections L) -> in_group group (channel_name c) L = false) ->
  group_send now group event L = L.
Proof.
  intros H. unfold group_send. destruct L as [gs cs]. cbn [groups connections] in *.
  f_equal. apply flat_map_single. intros c Hc. now rewrite (H c Hc).
Qed.

(** Saving a new transaction speaks to one group only, the one named after
    the class: when no socket is in it, every outbox stays as it was. *)
Lemma new_transaction_reaches_class_group_only (now : string)
  (self : ReputationTransaction) (s : State) (L : ChannelLayer) :
  pk self = None ->
  channel_layer s = Some L ->
  (forall c, In c (connections L) ->
             in_group "reputationtransaction_updates" (channel_name c) L = false) ->
  channel_layer (snd (ReputationTransactions.save now self s)) = Some L.
Proof.
  intros Hpk HL Hnone. unfold ReputationTransactions.save. rewrite Hpk.
  unfold bind, User_save_reputation, RealtimeSyncMixin.trigger_realtime_update.
  destruct (existsb _ (users (db s))); [|exact HL].
  destruct (_ <? _); [exact HL|].
  cbn [fst snd]. destruct (existsb _ (content_types _)); cbn [fst snd];
    unfold layer_group_send; cbn [channel_layer with_db];
    rewrite HL; cbn [channel_layer with_channel_layer with_db];
    change (lower "ReputationTransaction" ++ "_updates")%string
      with "reputationtransaction_updates";
    now rewrite group_send_no_member.
Qed.

(** The group a notification consumer joins for its user is never that
    group. *)
Lemma personal_group_is_not_class_group (uid : Z) :
  ("notifications_" ++ str uid)%string <> "reputationtransaction_updates".
Proof. cbn. discriminate. Qed.

(** C5 at a failing input: bob, reputation 100, has a socket on each
    notification consumer, both in his group [notifications_2].  A
    transaction of +10 is saved for him: the row says 110, the event goes
    to the group [reputationtransaction_updates] with type
    [realtime_update], and neither socket receives anything.  The same
    payload sent to his group under the handler's type would have been
    delivered as [reputation_update]. *)
Theorem reputation_change_reaches_no_socket :
  let r := ReputationTransactions.objects_create "2026-01-01T00:00:05" Site.bob
             "answer_upvote" 10 "Answer upvoted" 1 3 Site.s0 in
  in_group "notifications_2" "chan-1" Site.layer0 = true
  /\ in_group "notifications_2" "chan-2" Site.layer0 = true
  /\ (exists row, fst r = Ok row /\ balance_after row = 110 /\ amount row = 10)
  /\ (lower "ReputationTransaction" ++ "_updates")%string = "reputationtransaction_updates"
  /\ channel_layer (snd r) = Some Site.layer0
  /\ received "chan-1" Site.layer0
     = [RealtimeConsumers.NotificationConsumer.connection_established
          "2026-01-01T00:00:00"]
  /\ received "chan-2" Site.layer0
     = [NotificationsConsumers.NotificationConsumer.unread_count 0]
  /\ received "chan-1"
       (group_send "2026-01-01T00:00:05" "notifications_2"
          [("type", JStr "reputation_update");
           ("new_reputation", JNum 110);
           ("change", JNum 10);
           ("reason", JStr "Answer Upvoted (+10)")] Site.layer0)
     = [RealtimeConsumers.NotificationConsumer.connection_established
          "2026-01-01T00:00:00";
        JObj [("type", JStr "reputation_update");
              ("new_reputation", JNum 110);
              ("change", JNum 10);
              ("reason", JStr "Answer Upvoted (+10)");
              ("timestamp", JStr "2026-01-01T00:00:05")]].
Proof.
  cbv zeta. repeat split; try reflexivity.
  eexists. repeat split.
Qed.

(** C7 at a failing input: alice accepts bob's answer to her question
    through the view.  The accepted answer goes from none to answer 3 and
    the row is saved, but the question object was just loaded, the tracking
    receiver has not run on it yet, and no notification is created.  The
    same holds of [accept_answer] on a freshly loaded question. *)
Theorem first_acceptance_creates_no_notification :
  let r := AcceptAnswerView.post "2026-01-01T00:00:05" Site.alice 7 3 Site.s0 in
  let r' := Questions.accept_answer "2026-01-01T00:00:05"
              (Questions.from_db Site.q7) Site.a3 Site.alice Site.s0 in
  accepted_answer Site.q7 = None
  /\ fst r = Ok (HTTP_200 [("message", JStr "Great choice! Answer has been accepted.");
                           ("accepted_answer_id", JNum 3)])
  /\ map accepted_answer (questions (db (snd r))) = [Some 3]
  /\ notifications (db (snd r)) = []
  /\ map accepted_answer (questions (db (snd r'))) = [Some 3]
  /\ notifications (db (snd r')) = [].
Proof. cbv zeta. repeat split. Qed.

(** The receiver does notify once the same object is saved a second time
    with another accepted answer. *)
Example second_save_notifies :
  let a4 := {| answer_id := 4; answer_question := 7; answer_author := 2;
               is_accepted := false |} in
  let s := with_db (with_answers [Site.a3; a4] Site.db0) Site.s0 in
  let q := {| question_id := 7; question_title := question_title Site.q7;
              question_author := 1; accepted_answer := Some 3;
              is_answered := true |} in
  let r1 := Questions.save "2026-01-01T00:00:05" (Questions.from_db q) None s in
  match fst r1 with
  | Ok q1 =>
      let q2 := {| fields := {| question_id := 7;
                                question_title := question_title Site.q7;
                                question_author := 1; accepted_answer := Some 4;
                                is_answered := true |};
                   _previous_accepted_answer := _previous_accepted_answer q1 |} in
      notifications (db (snd r1)) = []
      /\ map (fun n => (notification_type n, recipient n, sender n))
             (notifications (db (snd (Questions.save "2026-01-01T00:00:06" q2 None
                                        (snd r1)))))
         = [("answer_accepted", 2, Some 1)]
  | Raise _ => False
  end.
Proof. cbv zeta. split; reflexivity. Qed.

(** ** Timestamps *)

(** C9, as stated, fails: the count sent on connect by the notifications
    consumer has no [timestamp]. *)
Lemma unread_count_has_no_timestamp :
  ~ (forall now trigger c m, sends now trigger c m -> has_field "timestamp" m = true).
Proof.
  intros H.
  specialize (H "2026-01-01T00:00:00" None Notifications_NotificationConsumer _
                (sends_unread_count _ 0)).
  discriminate H.
Qed.

(** C9, amended. Every message a consumer sends, other than
    [unread_count], [notification] and [system_status], carries a
    top-level [timestamp]: the ISO-8601 text of the time of sending, or,
    for a channel layer event that brings its own [timestamp], that value. *)
Theorem stamped_messages_carry_timestamp (now : string) (trigger : option dict)
  (c : consumer_class) (m : json) :
  sends now trigger c m ->
  unstamped_type m = false ->
  message_field "timestamp" m = Some (stamp now trigger).
Proof.
  intros Hs Hu. inversion Hs; subst; try reflexivity; try discriminate Hu.
  match goal with H : dispatch _ _ _ = Some _ |- _ => rename H into Hd end.
  unfold dispatch in Hd. cbn [stamp].
  destruct (dict_get "type" event) as [[| | |t| |]|]; try discriminate Hd.
  destruct c;
    unfold RealtimeConsumers.NotificationConsumer.new_notification,
           RealtimeConsumers.NotificationConsumer.reputation_update,
           RealtimeConsumers.NotificationConsumer.vote_update,
           RealtimeConsumers.NotificationConsumer.answer_update,
           RealtimeConsumers.QuestionConsumer.question_vote_update,
           RealtimeConsumers.QuestionConsumer.new_answer,
           RealtimeConsumers.QuestionConsumer.answer_accepted,
           RealtimeConsumers.QuestionConsumer.view_count_update,
           RealtimeConsumers.LiveFeedConsumer.new_activity,
           RealtimeConsumers.LiveFeedConsumer.trending_update,
           RealtimeConsumers.AdminMonitoringConsumer.system_alert,
           RealtimeConsumers.AdminMonitoringConsumer.performance_warning,
           NotificationsConsumers.NotificationConsumer.notification_message in Hd;
    handler_cases; try reflexivity; try discriminate Hu.
Qed.

Lemma stamped_messages_carry_timestamp_witness :
  message_field "timestamp"
    (JObj [("type", JStr "reputation_update");
           ("new_reputation", JNum 110);
           ("change", JNum 10);
           ("reason", JStr "Answer Upvoted (+10)");
           ("timestamp", JStr "2026-01-01T00:00:05")])
  = Some (JStr "2026-01-01T00:00:05").
Proof.
  apply (stamped_messages_carry_timestamp "2026-01-01T00:00:05"
           (Some [("type", JStr "reputation_update");
                  ("new_reputation", JNum 110);
                  ("change", JNum 10);
                  ("reason", JStr "Answer Upvoted (+10)")])
           Realtime_NotificationConsumer).
  - apply sends_handler. reflexivity.
  - reflexivity.
Defined.

(** ** Accepting an answer *)

Lemma bind_Ok {A B : Type} (m : M A) (k : A -> M B) (s : State) (a : A) :
  fst (m s) = Ok a -> bind m k s = k a (snd (m s)).
Proof. unfold bind. destruct (m s) as [r s']. cbn. now intros ->. Qed.

Lemma atomic_Ok {A : Type} (m : M A) (s : State) (a : A) :
  fst (m s) = Ok a -> atomic m s = m s.
Proof. unfold atomic. destruct (m s) as [r s']. cbn. now intros ->. Qed.

Lemma distinct_not_in (k : Z) (keys : list Z) :
  existsb (Z.eqb k) keys = false -> ~ In k keys.
Proof.
  intros H Hin. assert (existsb (Z.eqb k) keys = true); [|congruence].
  apply existsb_exists. exists k. split; [assumption|apply Z.eqb_refl].
Qed.

Lemma objects_get_distinct {A : Type} (key : A -> Z) (rows : list A) (r : A) :
  distinct (map key rows) = true -> In r rows ->
  objects_get (fun x => key x =? key r) rows = Ok r.
Proof.
  intros Hd Hin. unfold objects_get.
  assert (Hf : filter (fun x => key x =? key r) rows = [r]); [|now rewrite Hf].
  induction rows as [|x rows IH]; cbn [map distinct filter In] in *; [contradiction|].
  apply andb_true_iff in Hd as [Hx Hd]. apply negb_true_iff in Hx.
  apply distinct_not_in in Hx.
  destruct Hin as [->|Hin].
  - rewrite Z.eqb_refl. f_equal. apply filter_none.
    intros y Hy. apply Z.eqb_neq. intros E. apply Hx. rewrite <- E. now apply in_map.
  - destruct (key x =? key r) eqn:E.
    + apply Z.eqb_eq in E. exfalso. apply Hx. rewrite E. now apply in_map.
    + now apply IH.
Qed.

Lemma objects_get_has_key {A : Type} (key : A -> Z) (rows : list A) (k : Z) :
  distinct (map key rows) = true -> has_key key k rows = true ->
  exists r, In r rows /\ key r = k /\ objects_get (fun x => key x =? k) rows = Ok r.
Proof.
  intros Hd Hk. apply existsb_exists in Hk as (r & Hin & Hr). apply Z.eqb_eq in Hr.
  exists r. repeat split; try assumption. subst k. now apply objects_get_distinct.
Qed.

Lemma existsb_map_preserve {A : Type} (p : A -> bool) (f : A -> A) (l : list A) :
  (forall x, p (f x) = p x) -> existsb p (map f l) = existsb p l.
Proof.
  intros Hp. induction l as [|x l IH]; cbn; [reflexivity|]. now rewrite Hp, IH.
Qed.

Lemma objects_get_exists {A : Type} (p : A -> bool) (l : list A) (r : A) :
  objects_get p l = Ok r -> existsb p l = true.
Proof. intros H. apply objects_get_Ok_filter in H. now apply (existsb_of_filter p l r). Qed.

Lemma clear_others_id (self a : Answer) : answer_id (clear_others self a) = answer_id a.
Proof. unfold clear_others. now destruct (_ && _). Qed.

Lemma write_flag_id (self a : Answer) : answer_id (write_flag self a) = answer_id a.
Proof. unfold write_flag. now destruct (_ =? _). Qed.

Lemma save_is_accepted_spec (now : string) (self : Answer) (s : State) :
  existsb (fun a => answer_id a =? answer_id self) (answers (db s)) = true ->
  fst (Answers.save_is_accepted now self s) = Ok tt
  /\ answers (db (snd (Answers.save_is_accepted now self s)))
     = answers_saved self (answers (db s))
  /\ users (db (snd (Answers.save_is_accepted now self s))) = users (db s)
  /\ questions (db (snd (Answers.save_is_accepted now self s))) = questions (db s)
  /\ notifications (db (snd (Answers.save_is_accepted now self s)))
     = notifications (db s)
  /\ reputation_transactions (db (snd (Answers.save_is_accepted now self s)))
     = reputation_transactions (db s).
Proof.
  intros Hex.
  unfold Answers.save_is_accepted, answers_saved, answer_created, write_flag.
  destruct (is_accepted self) eqn:Hacc.
  - unfold bind, execute, ret, queryset_update. cbn.
    fold (clear_others self).
    rewrite existsb_map_preserve by (intros x; now rewrite clear_others_id).
    rewrite Hex. cbn. repeat split.
  - unfold bind, execute, ret. cbn. rewrite Hex. cbn. repeat split.
Qed.

Lemma get_answer_saved (self : Answer) (k : Z) (d : Db) :
  objects_get (fun a => answer_id a =? k) (answers_saved self (answers d))
  = match get_answer k d with
    | Ok r => Ok (write_flag self (if is_accepted self then clear_others self r else r))
    | Raise e => Raise e
    end.
Proof.
  unfold answers_saved, get_answer.
  rewrite objects_get_map by (intros x; now rewrite write_flag_id).
  destruct (is_accepted self); [|reflexivity].
  rewrite objects_get_map by (intros x; now rewrite clear_others_id).
  now destruct (objects_get _ (answers d)).
Qed.

Lemma notify_answer_accepted_spec (now : string) (a : Answer) (s : State)
  (qq : Question) (asker : User) :
  get_question (answer_question a) (db s) = Ok qq ->
  get_user (question_author qq) (db s) = Ok asker ->
  fst (notify_answer_accepted now a s) = Ok tt
  /\ frame s (snd (notify_answer_accepted now a s)).
Proof.
  intros Hq Hu. unfold notify_answer_accepted, bind, query, ret.
  rewrite Hq, Hu.
  match goal with
  | |- context [create_notification ?n ?r ?f ?ty ?ti ?m ?rq ?ra s] =>
      destruct (create_notification_frame n r f ty ti m rq ra s)
        as (x & Hfst & _ & _ & _ & _ & _ & Hfr);
      destruct (create_notification n r f ty ti m rq ra s) as [res s'];
      cbn [fst snd] in *; subst res; cbn [fst snd]
  end.
  split; [reflexivity|exact Hfr].
Qed.

Lemma question_answer_accepted_spec (now : string) (self : QuestionInstance)
  (s : State) :
  (forall a, accepted_answer (fields self) = Some a ->
             _previous_accepted_answer self <> None ->
             exists ans qq asker,
               get_answer a (db s) = Ok ans
               /\ get_question (answer_question ans) (db s) = Ok qq
               /\ get_user (question_author qq) (db s) = Ok asker) ->
  fst (question_answer_accepted now self s) = Ok tt
  /\ frame s (snd (question_answer_accepted now self s)).
Proof.
  intros H. unfold question_answer_accepted.
  destruct (accepted_answer (fields self)) as [a|]; [|split; [reflexivity|apply frame_refl]].
  destruct (_previous_accepted_answer self) as [previous|];
    [|split; [reflexivity|apply frame_refl]].
  destruct (negb _); [|split; [reflexivity|apply frame_refl]].
  destruct (H a eq_refl) as (ans & qq & asker & Ha & Hq & Hu); [discriminate|].
  unfold bind, query. rewrite Ha.
  apply (notify_answer_accepted_spec now ans s qq asker Hq Hu).
Qed.

Lemma accepted_row_id (k aid : Z) (r : Question) :
  question_id (accepted_row k aid r) = question_id r.
Proof. unfold accepted_row. now destruct (_ =? _). Qed.

Lemma accepted_row_author (k aid : Z) (r : Question) :
  question_author (accepted_row k aid r) = question_author r.
Proof. unfold accepted_row. now destruct (_ =? _). Qed.

Lemma get_question_accepted (k aid j : Z) (qs : list Question) :
  objects_get (fun q => question_id q =? j) (map (accepted_row k aid) qs)
  = match objects_get (fun q => question_id q =? j) qs with
    | Ok r => Ok (accepted_row k aid r)
    | Raise e => Raise e
    end.
Proof. apply objects_get_map. intros x. now rewrite accepted_row_id. Qed.

Lemma written_row_accepted (q r : Question) (aid : Z) :
  (if question_id r =? question_id q
   then Questions.written_row (Some ["accepted_answer"; "is_answered"])
          {| question_id := question_id q; question_title := question_title q;
             question_author := question_author q;
             accepted_answer := Some aid; is_answered := true |} r
   else r)
  = accepted_row (question_id q) aid r.
Proof. reflexivity. Qed.

(** [self.save(update_fields=["accepted_answer", "is_answered"])] with the
    new accepted answer set on the object. *)
Lemma save_accepted_spec (now : string) (q : Question)
  (previous : option (option Z)) (aid : Z) (s : State) (ans : Answer)
  (asker : User) :
  get_question (question_id q) (db s) = Ok q ->
  get_answer aid (db s) = Ok ans ->
  answer_question ans = question_id q ->
  get_user (question_author q) (db s) = Ok asker ->
  let self1 := {| fields := {| question_id := question_id q;
                               question_title := question_title q;
                               question_author := question_author q;
                               accepted_answer := Some aid;
                               is_answered := true |};
                  _previous_accepted_answer := previous |} in
  let r := Questions.save now self1 (Some ["accepted_answer"; "is_answered"]) s in
  exists self',
    fst r = Ok self'
    /\ fields self' = fields self1
    /\ questions (db (snd r)) = map (accepted_row (question_id q) aid) (questions (db s))
    /\ users (db (snd r)) = users (db s)
    /\ answers (db (snd r)) = answers (db s)
    /\ reputation_transactions (db (snd r)) = reputation_transactions (db s).
Proof.
  intros Hq Ha Hon Hu self1 r. subst r. unfold Questions.save.
  match goal with |- context [atomic ?m s] => set (inner := m) end.
  assert (Hinner : exists self',
             fst (inner s) = Ok self'
             /\ fields self' = fields self1
             /\ questions (db (snd (inner s)))
                = map (accepted_row (question_id q) aid) (questions (db s))
             /\ users (db (snd (inner s))) = users (db s)
             /\ answers (db (snd (inner s))) = answers (db s)
             /\ reputation_transactions (db (snd (inner s)))
                = reputation_transactions (db s)).
  { subst inner. cbn [fields question_id self1].
    match goal with |- context [bind ?u _] => set (upd := u) end.
    set (s1 := with_db (with_questions
                          (map (accepted_row (question_id q) aid) (questions (db s)))
                          (db s)) s).
    assert (Hupd : upd s = (Ok tt, s1)).
    { subst upd. cbn beta. unfold get_question in Hq.
      rewrite (objects_get_exists _ _ _ Hq).
      now rewrite (map_ext _ _ (fun r => written_row_accepted q r aid)). }
    rewrite (bind_Ok upd _ s tt) by now rewrite Hupd.
    rewrite Hupd. cbn [snd].
    assert (Hq1 : get_question (question_id q) (db s1)
                  = Ok (accepted_row (question_id q) aid q)).
    { unfold get_question in Hq |- *. cbn [s1 db with_db questions with_questions].
      now rewrite get_question_accepted, Hq. }
    destruct (question_answer_accepted_spec now self1 s1) as [Hfst Hfr].
    { intros a Hacc _. cbn in Hacc. inversion Hacc; subst a.
      exists ans, (accepted_row (question_id q) aid q), asker.
      split; [exact Ha|]. split; [now rewrite Hon|].
      rewrite accepted_row_author. exact Hu. }
    rewrite (bind_Ok _ _ s1 tt Hfst).
    set (s2 := snd (question_answer_accepted now self1 s1)) in *.
    destruct Hfr as (Hus & Hqs & Has & Hts & _).
    unfold track_accepted_answer_changes. cbn [fields question_id self1].
    unfold get_question in Hq1 |- *. rewrite Hqs, Hq1. cbn [fst snd].
    eexists. split; [reflexivity|]. split; [reflexivity|].
    rewrite Hqs, Hus, Has, Hts. repeat split. }
  destruct Hinner as (self' & Hfst & Hrest).
  rewrite (atomic_Ok inner s self' Hfst). exists self'. split; assumption.
Qed.

Lemma save_new_succeeds (now : string) (self : ReputationTransaction) (s : State) :
  pk self = None ->
  existsb (fun r => user_id r =? user_id (user self)) (users (db s)) = true ->
  -1000 <= reputation (user self) + amount self ->
  existsb (Z.eqb (content_type_id self)) (content_types (db s)) = true ->
  exists row,
    fst (ReputationTransactions.save now self s) = Ok row
    /\ user_id (user row) = user_id (user self)
    /\ amount row = amount self
    /\ transaction_type row = transaction_type self
    /\ balance_after row = reputation (user self) + amount self
    /\ reputation_transactions (db (snd (ReputationTransactions.save now self s)))
       = reputation_transactions (db s) ++ [row]
    /\ questions (db (snd (ReputationTransactions.save now self s))) = questions (db s)
    /\ answers (db (snd (ReputationTransactions.save now self s))) = answers (db s).
Proof.
  intros Hpk Hex Hge Hct.
  destruct (save_new_spec now self s Hpk) as [(e & _ & [(Hno & _)|(_ & Hlt & _)])|H].
  - congruence.
  - lia.
  - cbv zeta in H.
    destruct H as (_ & _ & _ & Hqs & Has & _ & _ & _ & _ & [(Hno & _)|(_ & row & H)]);
      [congruence|].
    exists row. destruct H as (H1 & H2 & H3 & H4 & H5 & H6 & _).
    repeat split; assumption.
Qed.

(** What [integrity] gives for one question and one of its answers. *)
Lemma integrity_lookups (d : Db) (q : Question) (a : Answer) :
  integrity d = true -> In q (questions d) -> In a (answers d) ->
  get_question (question_id q) d = Ok q
  /\ get_answer (answer_id a) d = Ok a
  /\ (exists author, get_user (answer_author a) d = Ok author
                     /\ -1000 <= reputation author)
  /\ (exists asker, get_user (question_author q) d = Ok asker)
  /\ (forall p, accepted_answer q = Some p -> exists pa, get_answer p d = Ok pa).
Proof.
  unfold integrity. intros H Hq Ha.
  repeat (apply andb_true_iff in H as [H ?]).
  rename H into Hdu.
  match goal with
  | H1 : distinct (map question_id _) = true,
    H2 : distinct (map answer_id _) = true,
    H3 : forallb _ (answers d) = true,
    H4 : forallb _ (questions d) = true,
    H5 : forallb _ (users d) = true |- _ =>
      rename H1 into Hdq; rename H2 into Hda; rename H3 into Hfa;
      rename H4 into Hfq; rename H5 into Hfu
  end.
  rewrite forallb_forall in Hfa, Hfq, Hfu.
  specialize (Hfa a Ha). specialize (Hfq q Hq).
  apply andb_true_iff in Hfa as [Hau _]. apply andb_true_iff in Hfq as [Hqu Hqa].
  split; [now apply objects_get_distinct|].
  split; [now apply objects_get_distinct|].
  split.
  - destruct (objects_get_has_key user_id (users d) _ Hdu Hau) as (r & Hin & _ & Hget).
    exists r. split; [exact Hget|]. apply Z.leb_le. now apply Hfu.
  - split.
    + destruct (objects_get_has_key user_id (users d) _ Hdu Hqu) as (r & _ & _ & Hget).
      now exists r.
    + intros p Hp. rewrite Hp in Hqa.
      destruct (objects_get_has_key answer_id (answers d) _ Hda Hqa) as (r & _ & _ & Hget).
      now exists r.
Qed.

Lemma unaccept_id (previous : option Z) (x : Answer) :
  answer_id (unaccept previous x) = answer_id x.
Proof. unfold unaccept. destruct previous; [now destruct (_ =? _)|reflexivity]. Qed.

Lemma unaccept_question (previous : option Z) (x : Answer) :
  answer_question (unaccept previous x) = answer_question x.
Proof. unfold unaccept. destruct previous; [now destruct (_ =? _)|reflexivity]. Qed.

Lemma set_true_unaccept (previous : option Z) (x : Answer) :
  set_is_accepted true (unaccept previous x) = set_is_accepted true x.
Proof. unfold unaccept. destruct previous; [now destruct (_ =? _)|reflexivity]. Qed.

Lemma remove_previous_spec (now : string) (previous : option Z) (s : State) :
  (forall p, previous = Some p -> exists pa, get_answer p (db s) = Ok pa) ->
  let step :=
    match previous with
    | Some p =>
        prev <- query (get_answer p) ;;
        Answers.save_is_accepted now (set_is_accepted false prev)
    | None => ret tt
    end in
  fst (step s) = Ok tt
  /\ answers (db (snd (step s))) = map (unaccept previous) (answers (db s))
  /\ users (db (snd (step s))) = users (db s)
  /\ questions (db (snd (step s))) = questions (db s)
  /\ reputation_transactions (db (snd (step s))) = reputation_transactions (db s).
Proof.
  intros H step. subst step. destruct previous as [p|].
  - destruct (H p eq_refl) as [pa Hpa].
    assert (Hquery : query (get_answer p) s = (Ok pa, s))
      by (unfold query; now rewrite Hpa).
    rewrite (bind_Ok _ _ s pa) by now rewrite Hquery.
    rewrite Hquery. cbn [snd].
    pose proof (objects_get_exists _ _ _ Hpa) as Hex.
    pose proof (objects_get_Ok_holds _ _ _ Hpa) as [_ Hid]. apply Z.eqb_eq in Hid.
    destruct (save_is_accepted_spec now (set_is_accepted false pa) s)
      as (Hfst & Hans & Hus & Hqs & _ & Hts).
    { cbn [answer_id set_is_accepted]. now rewrite Hid. }
    split; [exact Hfst|]. split; [|repeat split; assumption].
    rewrite Hans. unfold answers_saved. cbn [is_accepted set_is_accepted].
    apply map_ext. intros x. unfold write_flag, unaccept.
    cbn [answer_id is_accepted set_is_accepted]. now rewrite Hid.
  - cbn. rewrite map_id. repeat split.
Qed.

(** C6 at a failing input: alice, the author of question 7, accepts
    answer 999 to it, written by bob.  [accept_answer] passes the answer's
    primary key as [content_type_id]: the content types are keyed 1 to 20,
    the insert of the transaction violates the foreign key, the call raises
    [IntegrityError] and the transaction around it takes everything back.
    Question 7 has no accepted answer, answer 999 is not flagged, bob holds
    100 and the ledger is empty.  Answer 3 is accepted and rewarded only
    because a content type happens to be keyed 3, and that is the content
    type its transaction names. *)
Theorem accept_answer_fails_on_answer_key :
  let a999 := {| answer_id := 999; answer_question := 7; answer_author := 2;
                 is_accepted := false |} in
  let s := with_db (with_answers [Site.a3; a999] Site.db0) Site.s0 in
  let r := Questions.accept_answer "2026-01-01T00:00:05"
             (Questions.from_db Site.q7) a999 Site.alice s in
  let r3 := Questions.accept_answer "2026-01-01T00:00:05"
              (Questions.from_db Site.q7) Site.a3 Site.alice s in
  question_author Site.q7 = user_id Site.alice
  /\ get_question 7 (db s) = Ok Site.q7
  /\ get_answer 999 (db s) = Ok a999
  /\ BusinessRuleValidator.validate_answer_acceptance a999 Site.alice s = (Ok tt, s)
  /\ existsb (Z.eqb 999) (content_types (db s)) = false
  /\ r = (Raise IntegrityError, s)
  /\ map accepted_answer (questions (db (snd r))) = [None]
  /\ map is_accepted (answers (db (snd r))) = [false; false]
  /\ map reputation (users (db (snd r))) = [100; 100]
  /\ reputation_transactions (db (snd r)) = []
  /\ map accepted_answer (questions (db (snd r3))) = [Some 3]
  /\ map content_type_id (reputation_transactions (db (snd r3))) = [3]
  /\ map object_id (reputation_transactions (db (snd r3))) = [3].
Proof. cbv zeta. repeat split. Qed.

(** The content types are written by nothing here. *)
Lemma save_is_accepted_content_types (now : string) (self : Answer) (s : State) :
  content_types (db (snd (Answers.save_is_accepted now self s))) = content_types (db s).
Proof.
  unfold Answers.save_is_accepted, bind, execute, ret.
  destruct (is_accepted self); cbn [fst snd];
    match goal with |- context [existsb ?p ?l] => destruct (existsb p l) end;
    reflexivity.
Qed.

Lemma remove_previous_content_types (now : string) (previous : option Z) (s : State) :
  content_types
    (db (snd (match previous with
              | Some p =>
                  prev <- query (get_answer p) ;;
                  Answers.save_is_accepted now (set_is_accepted false prev)
              | None => ret tt
              end s)))
  = content_types (db s).
Proof.
  destruct previous as [p|]; [|reflexivity]. unfold bind, query.
  destruct (get_answer p (db s)); [|reflexivity].
  match goal with
  | |- context [Answers.save_is_accepted now ?x s] =>
      pose proof (save_is_accepted_content_types now x s) as H;
      destruct (Answers.save_is_accepted now x s) as [[[]|e] s']
  end; exact H.
Qed.

Lemma create_notification_content_types (now : string) (rid : Z) (from : User)
  (ntype ntitle nmessage : string) (rq ra : option Z) (s : State) :
  content_types (db (snd (create_notification now rid from ntype ntitle nmessage rq ra s)))
  = content_types (db s).
Proof.
  unfold create_notification, send_notification_to_user, bind, ret. cbn [fst snd].
  now rewrite db_layer_group_send.
Qed.

Lemma question_answer_accepted_content_types (now : string) (self : QuestionInstance)
  (s : State) :
  content_types (db (snd (question_answer_accepted now self s))) = content_types (db s).
Proof.
  unfold question_answer_accepted.
  destruct (accepted_answer (fields self)) as [a|]; [|reflexivity].
  destruct (_previous_accepted_answer self) as [previous|]; [|reflexivity].
  destruct (negb _); [|reflexivity].
  unfold bind, query.
  destruct (get_answer a (db s)) as [ans|e]; [|reflexivity].
  unfold notify_answer_accepted, bind, query, ret.
  destruct (get_question (answer_question ans) (db s)) as [q|e]; [|reflexivity].
  destruct (get_user (question_author q) (db s)) as [asker|e]; [|reflexivity].
  match goal with
  | |- context [create_notification ?n ?r ?f ?ty ?ti ?m ?rq ?ra s] =>
      pose proof (create_notification_content_types n r f ty ti m rq ra s) as H;
      destruct (create_notification n r f ty ti m rq ra s) as [[x|e] s']
  end; exact H.
Qed.

Lemma question_save_content_types (now : string) (self : QuestionInstance)
  (update_fields : option (list string)) (s : State) :
  content_types (db (snd (Questions.save now self update_fields s)))
  = content_types (db s).
Proof.
  unfold Questions.save, atomic.
  match goal with
  | |- context [let (_, _) := ?m s in _] => set (inner := m)
  end.
  assert (Hinner : content_types (db (snd (inner s))) = content_types (db s)).
  { subst inner. unfold bind.
    match goal with
    | |- context [existsb ?p ?l] => destruct (existsb p l)
    end.
    - match goal with
      | |- context [question_answer_accepted now self ?st] =>
          pose proof (question_answer_accepted_content_types now self st) as H;
          destruct (question_answer_accepted now self st) as [[[]|e] s2]
      end; cbn [fst snd] in *.
      + unfold track_accepted_answer_changes.
        destruct (get_question _ (db s2)) as [p|[]]; cbn [snd]; exact H.
      + exact H.
    - destruct update_fields; [reflexivity|].
      match goal with
      | |- context [question_answer_accepted now self ?st] =>
          pose proof (question_answer_accepted_content_types now self st) as H;
          destruct (question_answer_accepted now self st) as [[[]|e] s2]
      end; cbn [fst snd] in *.
      + unfold track_accepted_answer_changes.
        destruct (get_question _ (db s2)) as [p|[]]; cbn [snd]; exact H.
      + exact H. }
  destruct (inner s) as [[x|e] s']; cbn [fst snd] in *; [exact Hinner|reflexivity].
Qed.

(** X29. What [accept_answer] does when the insert of the transaction goes
    through.  On a database that satisfies its schema, for a question held
    by the object [self], an answer [a] to it that no other question holds
    as accepted and whose primary key is also the key of a content type, and
    a user [u] who is the question's author or a moderator, the transaction
    to be created fitting its columns, the call succeeds: the question (object and row) has [a] as accepted answer and
    is answered, [a] is flagged accepted, no other answer to the question
    is, the answer the question held as accepted before has its flag
    cleared, and exactly one transaction is appended: [answer_accepted],
    +15, for [a]'s author. *)
Theorem accept_answer_effects_given_content_type (now : string) (self : QuestionInstance) (a : Answer)
  (u : User) (s : State) :
  integrity (db s) = true ->
  In (fields self) (questions (db s)) ->
  In a (answers (db s)) ->
  answer_question a = question_id (fields self) ->
  (question_author (fields self) = user_id u \/ is_moderator u = true) ->
  (forall q', In q' (questions (db s)) ->
              accepted_answer q' = Some (answer_id a) ->
              question_id q' = question_id (fields self)) ->
  existsb (Z.eqb (answer_id a)) (content_types (db s)) = true ->
  (forall author,
     get_user (answer_author a) (db s) = Ok author ->
     fits_columns
       {| entry_now := now; entry_user := author; entry_type := "answer_accepted";
          entry_amount := 15;
          entry_description :=
            "Answer accepted for question: " ++ question_title (fields self);
          entry_content_type_id := answer_id a;
          entry_object_id := answer_id a |} = true) ->
  let r := Questions.accept_answer now self a u s in
  exists self' tx,
    fst r = Ok self'
    /\ accepted_answer (fields self') = Some (answer_id a)
    /\ is_answered (fields self') = true
    /\ get_question (question_id (fields self)) (db (snd r))
       = Ok {| question_id := question_id (fields self);
               question_title := question_title (fields self);
               question_author := question_author (fields self);
               accepted_answer := Some (answer_id a);
               is_answered := true |}
    /\ get_answer (answer_id a) (db (snd r)) = Ok (set_is_accepted true a)
    /\ (forall x, In x (answers (db (snd r))) ->
                  answer_question x = question_id (fields self) ->
                  answer_id x <> answer_id a -> is_accepted x = false)
    /\ (forall p, accepted_answer (fields self) = Some p -> p <> answer_id a ->
                  exists pa, get_answer p (db s) = Ok pa
                             /\ get_answer p (db (snd r)) = Ok (set_is_accepted false pa))
    /\ reputation_transactions (db (snd r)) = reputation_transactions (db s) ++ [tx]
    /\ transaction_type tx = "answer_accepted"
    /\ amount tx = 15
    /\ user_id (user tx) = answer_author a.
Proof.
  intros Hint Hq Ha Hon Hauth _ Hct _ r.
  destruct (integrity_lookups _ _ _ Hint Hq Ha)
    as (Hgq & Hga & (author & Hgu & Hrep) & (asker & Hgasker) & Hprev).
  subst r. unfold Questions.accept_answer.
  assert (Hval : BusinessRuleValidator.validate_answer_acceptance a u s = (Ok tt, s)).
  { unfold BusinessRuleValidator.validate_answer_acceptance, bind, query, ret, raise.
    rewrite Hon, Hgq.
    destruct Hauth as [E|E]; rewrite E; [now rewrite Z.eqb_refl|].
    now rewrite andb_false_r. }
  rewrite (bind_Ok _ _ s tt) by now rewrite Hval.
  rewrite Hval. cbn [snd].
  match goal with |- context [atomic ?m s] => set (inner := m) end.
  enough (Hinner : exists self' tx,
             fst (inner s) = Ok self'
             /\ accepted_answer (fields self') = Some (answer_id a)
             /\ is_answered (fields self') = true
             /\ get_question (question_id (fields self)) (db (snd (inner s)))
                = Ok {| question_id := question_id (fields self);
                        question_title := question_title (fields self);
                        question_author := question_author (fields self);
                        accepted_answer := Some (answer_id a);
                        is_answered := true |}
             /\ get_answer (answer_id a) (db (snd (inner s)))
                = Ok (set_is_accepted true a)
             /\ (forall x, In x (answers (db (snd (inner s)))) ->
                           answer_question x = question_id (fields self) ->
                           answer_id x <> answer_id a -> is_accepted x = false)
             /\ (forall p, accepted_answer (fields self) = Some p ->
                           p <> answer_id a ->
                           exists pa, get_answer p (db s) = Ok pa
                                      /\ get_answer p (db (snd (inner s)))
                                         = Ok (set_is_accepted false pa))
             /\ reputation_transactions (db (snd (inner s)))
                = reputation_transactions (db s) ++ [tx]
             /\ transaction_type tx = "answer_accepted"
             /\ amount tx = 15
             /\ user_id (user tx) = answer_author a).
  { destruct Hinner as (self' & tx & Hfst & Hrest).
    rewrite (atomic_Ok inner s self' Hfst). now exists self', tx. }
  subst inner.
  (* the previous accepted answer *)
  destruct (remove_previous_spec now (accepted_answer (fields self)) s Hprev)
    as (F1 & A1 & U1 & Q1 & T1).
  cbv zeta in F1, A1, U1, Q1, T1.
  match type of F1 with fst (?m s) = _ => set (step1 := m) in * end.
  rewrite (bind_Ok step1 _ s tt F1).
  set (s1 := snd (step1 s)) in *.
  (* the new accepted answer *)
  destruct (save_is_accepted_spec now (set_is_accepted true a) s1)
    as (F2 & A2 & U2 & Q2 & _ & T2).
  { cbn [answer_id set_is_accepted]. rewrite A1.
    rewrite existsb_map_preserve by (intros x; now rewrite unaccept_id).
    exact (objects_get_exists _ _ _ Hga). }
  rewrite (bind_Ok _ _ s1 tt F2).
  set (s2 := snd (Answers.save_is_accepted now (set_is_accepted true a) s1)) in *.
  assert (Hlook : forall k,
            get_answer k (db s2)
            = match get_answer k (db s) with
              | Ok x => Ok (write_flag (set_is_accepted true a)
                              (clear_others (set_is_accepted true a)
                                 (unaccept (accepted_answer (fields self)) x)))
              | Raise e => Raise e
              end).
  { intros k. unfold get_answer at 1. rewrite A2, get_answer_saved.
    unfold get_answer. rewrite A1.
    rewrite objects_get_map by (intros x; now rewrite unaccept_id).
    now destruct (objects_get _ (answers (db s))). }
  assert (Hga2 : get_answer (answer_id a) (db s2) = Ok (set_is_accepted true a)).
  { rewrite Hlook, Hga. f_equal. unfold clear_others, write_flag.
    cbn [answer_id set_is_accepted is_accepted].
    rewrite unaccept_id, Z.eqb_refl. cbn [negb]. rewrite andb_false_r.
    rewrite unaccept_id, Z.eqb_refl. apply set_true_unaccept. }
  (* the question *)
  destruct (save_accepted_spec now (fields self) (_previous_accepted_answer self)
              (answer_id a) s2 (set_is_accepted true a) asker)
    as (self' & F3 & Fld & Q3 & U3 & A3 & T3).
  { unfold get_question. rewrite Q2, Q1. exact Hgq. }
  { exact Hga2. }
  { exact Hon. }
  { unfold get_user. rewrite U2, U1. exact Hgasker. }
  cbv zeta in F3, Fld, Q3, U3, A3, T3.
  rewrite (bind_Ok _ _ s2 self' F3).
  match type of F3 with fst (?m s2) = _ => set (s3 := snd (m s2)) in * end.
  (* the reputation *)
  assert (Hq4 : query (get_user (answer_author a)) s3 = (Ok author, s3)).
  { unfold query, get_user. rewrite U3, U2, U1. unfold get_user in Hgu. now rewrite Hgu. }
  rewrite (bind_Ok _ _ s3 author) by now rewrite Hq4.
  rewrite Hq4. cbn [snd].
  pose proof (objects_get_Ok_holds _ _ _ Hgu) as [_ Haid]. apply Z.eqb_eq in Haid.
  unfold ReputationTransactions.objects_create.
  match goal with
  | |- context [ReputationTransactions.save ?n ?t] =>
      destruct (save_new_succeeds n t s3 eq_refl)
        as (row & F5 & Rid & Ramt & Rty & Rbal & T5 & Q5 & A5)
  end.
  { cbn [user]. rewrite U3, U2, U1. rewrite Haid.
    exact (objects_get_exists _ _ _ Hgu). }
  { cbn [user amount]. lia. }
  { cbn [content_type_id].
    subst s3. rewrite question_save_content_types.
    subst s2. rewrite save_is_accepted_content_types.
    subst s1 step1. now rewrite remove_previous_content_types. }
  cbn [user amount transaction_type] in Rid, Ramt, Rty, Rbal.
  rewrite (bind_Ok _ _ s3 row F5). unfold ret. cbn [fst snd].
  match type of F5 with fst (?m s3) = _ => set (s4 := snd (m s3)) in * end.
  exists self', row.
  split; [reflexivity|]. split; [now rewrite Fld|]. split; [now rewrite Fld|].
  split.
  { unfold get_question. rewrite Q5, Q3, Q2, Q1, get_question_accepted.
    unfold get_question in Hgq. rewrite Hgq. unfold accepted_row.
    now rewrite Z.eqb_refl. }
  assert (Hlook4 : forall k, get_answer k (db s4) = get_answer k (db s2)).
  { intros k. unfold get_answer. now rewrite A5, A3. }
  split; [now rewrite Hlook4|].
  split.
  { intros x Hx Hxq Hxa. rewrite A5, A3, A2, A1 in Hx. unfold answers_saved in Hx.
    cbn [is_accepted set_is_accepted] in Hx.
    apply in_map_iff in Hx as (x2 & <- & Hx).
    apply in_map_iff in Hx as (x1 & <- & Hx).
    apply in_map_iff in Hx as (x0 & <- & Hx).
    rewrite write_flag_id, clear_others_id, unaccept_id in Hxa.
    unfold write_flag in Hxq |- *. cbn [answer_id set_is_accepted] in Hxq |- *.
    rewrite clear_others_id, unaccept_id in Hxq |- *.
    apply Z.eqb_neq in Hxa. rewrite Hxa in Hxq |- *.
    unfold clear_others in Hxq |- *.
    cbn [answer_id answer_question set_is_accepted] in Hxq |- *.
    rewrite unaccept_id, Hxa in Hxq |- *. cbn [negb] in Hxq |- *.
    rewrite andb_true_r in Hxq |- *.
    destruct (is_accepted (unaccept (accepted_answer (fields self)) x0)) eqn:Eacc.
    - rewrite andb_true_r in Hxq |- *.
      destruct (answer_question (unaccept (accepted_answer (fields self)) x0)
                =? answer_question a) eqn:Equ; [reflexivity|].
      apply Z.eqb_neq in Equ. congruence.
    - rewrite andb_false_r. exact Eacc. }
  split.
  { intros p Hp Hne. destruct (Hprev p Hp) as [pa Hpa]. exists pa.
    split; [exact Hpa|]. rewrite Hlook4, Hlook, Hpa. f_equal.
    pose proof (objects_get_Ok_holds _ _ _ Hpa) as [_ Hpid]. apply Z.eqb_eq in Hpid.
    rewrite Hp. unfold unaccept. rewrite Hpid, Z.eqb_refl.
    unfold clear_others. cbn [is_accepted set_is_accepted].
    rewrite andb_false_r. cbn [andb].
    unfold write_flag. cbn [answer_id set_is_accepted]. rewrite Hpid.
    apply Z.eqb_neq in Hne. now rewrite Hne. }
  split; [now rewrite T5, T3, T2, T1|].
  repeat split; congruence.
Qed.

(** alice accepts bob's answer 3 to her question 7. *)
Lemma accept_answer_effects_given_content_type_witness :
  exists self' tx,
    fst (Questions.accept_answer "2026-01-01T00:00:05"
           (Questions.from_db Site.q7) Site.a3 Site.alice Site.s0)
    = Ok self'
    /\ accepted_answer (fields self') = Some 3
    /\ is_answered (fields self') = true
    /\ get_question 7
         (db (snd (Questions.accept_answer "2026-01-01T00:00:05"
                     (Questions.from_db Site.q7) Site.a3 Site.alice
                     Site.s0)))
       = Ok {| question_id := 7; question_title := "How do I sort a list?";
               question_author := 1; accepted_answer := Some 3;
               is_answered := true |}
    /\ reputation_transactions
         (db (snd (Questions.accept_answer "2026-01-01T00:00:05"
                     (Questions.from_db Site.q7) Site.a3 Site.alice
                     Site.s0)))
       = [tx]
    /\ transaction_type tx = "answer_accepted"
    /\ amount tx = 15
    /\ user_id (user tx) = 2
    /\ balance_after tx = 115.
Proof.
  assert (Hfree : forall q', In q' (questions (db Site.s0)) ->
                             accepted_answer q' = Some (answer_id Site.a3) ->
                             question_id q' = question_id (fields (Questions.from_db Site.q7))).
  { intros q' [<-|[]] _. reflexivity. }
  assert (Hfits : forall author,
             get_user (answer_author Site.a3) (db Site.s0) = Ok author ->
             fits_columns
               {| entry_now := "2026-01-01T00:00:05"; entry_user := author;
                  entry_type := "answer_accepted"; entry_amount := 15;
                  entry_description :=
                    "Answer accepted for question: "
                    ++ question_title (fields (Questions.from_db Site.q7));
                  entry_content_type_id := answer_id Site.a3;
                  entry_object_id := answer_id Site.a3 |} = true).
  { intros author H. cbn in H. inversion H. reflexivity. }
  destruct (accept_answer_effects_given_content_type "2026-01-01T00:00:05"
              (Questions.from_db Site.q7) Site.a3 Site.alice Site.s0
              eq_refl (or_introl eq_refl) (or_introl eq_refl) eq_refl
              (or_introl eq_refl) Hfree eq_refl Hfits)
    as (self' & tx & H1 & H2 & H3 & H4 & _ & _ & _ & H8 & H9 & H10 & H11).
  exists self', tx. cbv zeta in *.
  repeat (split; [assumption|]).
  cbn in H8. inversion H8. reflexivity.
Defined.


(* ================================================================= *)
(** * Further properties *)

(** ** Votes: uniqueness and scores *)

Lemma ContentType_eqb_eq (a b : ContentType) : ContentType_eqb a b = true <-> a = b.
Proof. destruct a, b; cbn; split; congruence. Qed.

Lemma is_vote_of_key (u : User) (t : content_object) (v : Vote) :
  Votes.is_vote_of u t v = true
  <-> vote_key v = (user_id u, get_for_model t, content_object_id t).
Proof.
  unfold Votes.is_vote_of, vote_key. rewrite !andb_true_iff, !Z.eqb_eq, ContentType_eqb_eq.
  split.
  - intros [[-> ->] ->]. reflexivity.
  - intros H. inversion H. repeat split.
Qed.

Lemma NoDup_map_filter {A B : Type} (key : A -> B) (keep : A -> bool)
  (rows : list A) (Hnd : NoDup (map key rows)) :
  NoDup (map key (filter keep rows)).
Proof.
  induction rows as [|x rows IH]; cbn [map filter] in *; [constructor|].
  inversion Hnd as [|? ? Hnotin Hnd']; subst.
  destruct (keep x); cbn [map]; [|now apply IH].
  constructor; [|now apply IH].
  intros Hin. apply Hnotin. apply in_map_iff in Hin as (y & Hy & Hin).
  apply filter_In in Hin as [Hin _]. rewrite <- Hy. now apply in_map.
Qed.

Lemma NoDup_map_snoc {A B : Type} (f : A -> B) (l : list A) (x : A) :
  NoDup (map f l) -> ~ In (f x) (map f l) -> NoDup (map f (l ++ [x])).
Proof.
  intros Hnd Hnotin. rewrite map_app. cbn [map].
  apply NoDup_app; [assumption|repeat constructor; intros []|].
  intros y Hy [<-|[]]. contradiction.
Qed.

(** X1. [toggle_vote] keeps the votes table well-formed: primary keys stay
    distinct and there is never more than one vote per user and target. *)
Theorem toggle_vote_keeps_votes_unique (now : string) (u : User) (t : content_object)
  (value : Z) (s : State) :
  NoDup (map vote_id (votes (db s))) ->
  NoDup (map vote_key (votes (db s))) ->
  NoDup (map vote_id (votes (db (snd (Votes.toggle_vote now u t value s)))))
  /\ NoDup (map vote_key (votes (db (snd (Votes.toggle_vote now u t value s))))).
Proof.
  intros Hid Hkey.
  destruct (toggle_vote_cases now u t value s) as [_ H].
  destruct (objects_get (Votes.is_vote_of u t) (votes (db s))) as [vote|e] eqn:Hget.
  - apply objects_get_Ok_holds in Hget as [Hin Hmine].
    destruct (vote_value vote =? value).
    + destruct H as [_ ->]. split; now apply NoDup_map_filter.
    + destruct H as [_ ->].
      assert (Hsame : forall (B : Type) (f : Vote -> B),
                 f (set_vote_value value vote) = f vote ->
                 map f (map (fun v => if vote_id v =? vote_id vote
                                      then set_vote_value value vote else v)
                            (votes (db s)))
                 = map f (votes (db s))).
      { intros B f Hf. rewrite map_map. apply map_ext_in. intros x Hx.
        destruct (vote_id x =? vote_id vote) eqn:E; [|reflexivity].
        apply Z.eqb_eq in E.
        now rewrite Hf, (NoDup_key_inj vote_id _ x vote Hid Hx Hin E). }
      rewrite !Hsame by reflexivity. now split.
  - destruct e; try (rewrite H; now split).
    destruct H as [_ ->]. split.
    + apply NoDup_map_snoc; [assumption|].
      intros Hin. apply in_map_iff in Hin as (x & Hx & Hin).
      pose proof (fresh_pk_above vote_id (votes (db s)) x Hin) as Hlt.
      cbn [vote_id new_vote] in Hx. lia.
    + apply NoDup_map_snoc; [assumption|].
      intros Hin. apply in_map_iff in Hin as (x & Hx & Hin).
      assert (Hmine : Votes.is_vote_of u t x = true).
      { apply is_vote_of_key. rewrite Hx. reflexivity. }
      unfold objects_get in Hget.
      assert (Hf : In x (filter (Votes.is_vote_of u t) (votes (db s))))
        by (apply filter_In; now split).
      destruct (filter (Votes.is_vote_of u t) (votes (db s))) as [|a [|b rest]];
        [contradiction|discriminate|discriminate].
Qed.

Lemma toggle_vote_keeps_votes_unique_witness :
  NoDup (map vote_id
           (votes (db (snd (Votes.toggle_vote "2026-01-01T00:00:01" Site.alice
                              (an_answer Site.a3) 1 Site.s0)))))
  /\ NoDup (map vote_key
              (votes (db (snd (Votes.toggle_vote "2026-01-01T00:00:01" Site.alice
                                 (an_answer Site.a3) 1 Site.s0))))).
Proof.
  apply (toggle_vote_keeps_votes_unique "2026-01-01T00:00:01" Site.alice
           (an_answer Site.a3) 1 Site.s0); constructor.
Defined.

Lemma votes_on_filter (t : content_object) (d : Db) :
  votes_on t d
  = filter (fun v => ContentType_eqb (vote_content_type v) (get_for_model t)
                     && (vote_object_id v =? content_object_id t))
           (votes d).
Proof. now destruct t. Qed.

Lemma is_vote_of_on_target (u : User) (t : content_object) (v : Vote) :
  Votes.is_vote_of u t v = true ->
  ContentType_eqb (vote_content_type v) (get_for_model t)
  && (vote_object_id v =? content_object_id t) = true.
Proof.
  unfold Votes.is_vote_of. rewrite !andb_true_iff. now intros [[_ ->] ->].
Qed.

Lemma score_without (on : Vote -> bool) (l : list Vote) (v : Vote) :
  NoDup (map vote_id l) -> In v l -> on v = true ->
  fold_right Z.add 0
    (map vote_value (filter on (filter (fun x => negb (vote_id x =? vote_id v)) l)))
  = fold_right Z.add 0 (map vote_value (filter on l)) - vote_value v.
Proof.
  induction l as [|x l IH]; cbn [map In]; intros Hnd Hin Hon; [contradiction|].
  inversion Hnd as [|? ? Hnotin Hnd']; subst.
  destruct Hin as [->|Hin].
  - cbn [filter]. rewrite Z.eqb_refl. cbn [negb]. rewrite Hon. cbn [map fold_right].
    rewrite (filter_all (fun x => negb (vote_id x =? vote_id v))); [lia|].
    intros y Hy. apply negb_true_iff, Z.eqb_neq. intros E.
    apply Hnotin. rewrite <- E. now apply in_map.
  - assert (Hne : (vote_id x =? vote_id v) = false).
    { apply Z.eqb_neq. intros E. apply Hnotin. rewrite E. now apply in_map. }
    cbn [filter]. rewrite Hne. cbn [negb filter].
    specialize (IH Hnd' Hin Hon).
    destruct (on x); cbn [map fold_right]; lia.
Qed.

Lemma score_replaced (on : Vote -> bool) (l : list Vote) (v v' : Vote) :
  NoDup (map vote_id l) -> In v l -> on v = true -> on v' = true ->
  fold_right Z.add 0
    (map vote_value
       (filter on (map (fun x => if vote_id x =? vote_id v then v' else x) l)))
  = fold_right Z.add 0 (map vote_value (filter on l)) - vote_value v + vote_value v'.
Proof.
  induction l as [|x l IH]; cbn [map In]; intros Hnd Hin Hon Hon'; [contradiction|].
  inversion Hnd as [|? ? Hnotin Hnd']; subst.
  destruct Hin as [->|Hin].
  - cbn [filter]. rewrite Z.eqb_refl, Hon, Hon'. cbn [map fold_right].
    rewrite map_id_on; [lia|].
    intros y Hy. replace (vote_id y =? vote_id v) with false; [reflexivity|].
    symmetry. apply Z.eqb_neq. intros E. apply Hnotin. rewrite <- E. now apply in_map.
  - assert (Hne : (vote_id x =? vote_id v) = false).
    { apply Z.eqb_neq. intros E. apply Hnotin. rewrite E. now apply in_map. }
    cbn [filter]. rewrite Hne.
    specialize (IH Hnd' Hin Hon Hon').
    destruct (on x); cbn [map fold_right]; lia.
Qed.

(** The votes of other users and on other targets, as [toggle_vote]
    leaves them. *)
Lemma toggle_vote_others (now : string) (u : User) (t : content_object)
  (value : Z) (s : State) :
  NoDup (map vote_id (votes (db s))) ->
  filter (fun v => negb (Votes.is_vote_of u t v))
         (votes (db (snd (Votes.toggle_vote now u t value s))))
  = filter (fun v => negb (Votes.is_vote_of u t v)) (votes (db s)).
Proof.
  intros Hnd.
  destruct (toggle_vote_cases now u t value s) as [_ H].
  destruct (objects_get (Votes.is_vote_of u t) (votes (db s))) as [vote|e] eqn:Hget.
  - apply objects_get_Ok_holds in Hget as [Hin Hmine].
    assert (Hother : forall x, In x (votes (db s)) ->
                       negb (Votes.is_vote_of u t x) = true ->
                       (vote_id x =? vote_id vote) = false).
    { intros x Hx Hnot. apply Z.eqb_neq. intros Hid.
      rewrite (NoDup_key_inj vote_id _ x vote Hnd Hx Hin Hid), Hmine in Hnot.
      discriminate. }
    destruct (vote_value vote =? value); destruct H as [_ ->].
    + apply filter_filter_implied. intros x Hx Hnot. now rewrite (Hother x Hx Hnot).
    + apply filter_map_untouched. intros x Hx.
      destruct (vote_id x =? vote_id vote) eqn:Hid; [|split; reflexivity].
      apply Z.eqb_eq in Hid.
      rewrite (NoDup_key_inj vote_id _ x vote Hnd Hx Hin Hid).
      rewrite is_vote_of_set_vote_value, Hmine. split; [reflexivity|discriminate].
  - destruct e; try (now rewrite H).
    destruct H as [_ ->]. rewrite filter_app. cbn [filter].
    rewrite is_vote_of_new_vote. cbn [negb]. apply app_nil_r.
Qed.

Lemma filter_through {A : Type} (q p : A -> bool) (l l' : list A) :
  (forall x, q x = true -> p x = true) ->
  filter p l' = filter p l -> filter q l' = filter q l.
Proof.
  intros Himp H.
  rewrite <- (filter_filter_implied q p l') by (intros x _; apply Himp).
  rewrite <- (filter_filter_implied q p l) by (intros x _; apply Himp).
  now rewrite H.
Qed.

(** X2. A toggle moves the target's stored score by the value it applied
    minus the value it found, and moves the score of no other target. *)
Theorem toggle_vote_score_delta (now : string) (u : User) (t : content_object)
  (value : Z) (s : State) :
  NoDup (map vote_id (votes (db s))) ->
  stored_score t (db (snd (Votes.toggle_vote now u t value s)))
  = stored_score t (db s)
    - found_value (objects_get (Votes.is_vote_of u t) (votes (db s)))
    + returned_value (fst (Votes.toggle_vote now u t value s))
  /\ (forall t',
        get_for_model t' <> get_for_model t
        \/ content_object_id t' <> content_object_id t ->
        stored_score t' (db (snd (Votes.toggle_vote now u t value s)))
        = stored_score t' (db s)).
Proof.
  intros Hnd. split.
  - destruct (toggle_vote_cases now u t value s) as [_ H].
    unfold stored_score. rewrite !votes_on_filter.
    set (on := fun v => ContentType_eqb (vote_content_type v) (get_for_model t)
                        && (vote_object_id v =? content_object_id t)).
    destruct (objects_get (Votes.is_vote_of u t) (votes (db s))) as [vote|e] eqn:Hget.
    + apply objects_get_Ok_holds in Hget as [Hin Hmine].
      pose proof (is_vote_of_on_target u t vote Hmine) as Hon.
      destruct (vote_value vote =? value); destruct H as [-> ->];
        cbn [found_value returned_value].
      * rewrite (score_without on _ vote Hnd Hin Hon). lia.
      * rewrite (score_replaced on _ vote (set_vote_value value vote) Hnd Hin Hon Hon).
        reflexivity.
    + destruct e; try (rewrite H; cbn [fst snd found_value returned_value]; lia).
      destruct H as [-> ->]. cbn [found_value returned_value vote_value new_vote].
      rewrite filter_app, map_app, fold_right_app. cbn [filter].
      assert (Hon : on (new_vote u t value s) = true)
        by exact (is_vote_of_on_target u t _ (is_vote_of_new_vote u t value s)).
      rewrite Hon. cbn [map fold_right vote_value new_vote].
      generalize (filter on (votes (db s))). intros l.
      induction l as [|x l IH]; cbn [map fold_right]; lia.
  - intros t' Hdiff. unfold stored_score. rewrite !votes_on_filter. f_equal. f_equal.
    apply (filter_through _ (fun v => negb (Votes.is_vote_of u t v)));
      [|now apply toggle_vote_others].
    intros x Hx. apply andb_true_iff in Hx as [Hct Hoid].
    apply ContentType_eqb_eq in Hct. apply Z.eqb_eq in Hoid.
    apply negb_true_iff. destruct (Votes.is_vote_of u t x) eqn:E; [|reflexivity].
    apply is_vote_of_key in E. unfold vote_key in E. inversion E.
    destruct Hdiff as [Hd|Hd]; exfalso; apply Hd; congruence.
Qed.

(** bob's question has one downvote; alice upvoting it takes it from -1 to 0. *)
Lemma toggle_vote_score_delta_witness :
  stored_score (a_question Site.q7)
    (db (snd (Votes.toggle_vote "2026-01-01T00:00:01" Site.bob (a_question Site.q7) 1
                (with_db (with_votes
                            [{| vote_id := 1; vote_user := 1; vote_value := -1;
                                vote_content_type := ct_question;
                                vote_object_id := 7 |}]
                            Site.db0) Site.s0))))
  = -1 - 0 + 1.
Proof.
  apply (proj1 (toggle_vote_score_delta "2026-01-01T00:00:01" Site.bob
                  (a_question Site.q7) 1
                  (with_db (with_votes
                              [{| vote_id := 1; vote_user := 1; vote_value := -1;
                                  vote_content_type := ct_question;
                                  vote_object_id := 7 |}]
                              Site.db0) Site.s0)
                  ltac:(cbn; constructor; [intros []|constructor]))).
Defined.

Lemma create_notification_row (now : string) (rid : Z) (from : User)
  (ntype ntitle nmessage : string) (rq ra : option Z) (s : State) :
  exists n,
    fst (create_notification now rid from ntype ntitle nmessage rq ra s) = Ok n
    /\ notifications (db (snd (create_notification now rid from ntype ntitle
                                  nmessage rq ra s)))
       = notifications (db s) ++ [n]
    /\ recipient n = rid
    /\ sender n = Some (user_id from)
    /\ is_read n = false
    /\ notification_type n = ntype
    /\ related_question_id n = rq
    /\ related_answer_id n = ra.
Proof.
  unfold create_notification, send_notification_to_user, bind, ret. cbn [fst snd].
  eexists. split; [reflexivity|].
  rewrite !db_layer_group_send. cbn. repeat split.
Qed.

Lemma notify_vote_notifications (now : string) (target : option content_object)
  (voter : User) (value : Z) (s : State) :
  exists new,
    notifications (db (snd (notify_vote now target voter value s)))
    = notifications (db s) ++ new
    /\ match target with
       | Some t' =>
           if content_object_author t' =? user_id voter
           then new = []
           else exists n,
                  new = [n]
                  /\ recipient n = content_object_author t'
                  /\ sender n = Some (user_id voter)
                  /\ is_read n = false
                  /\ notification_type n
                     = (model_name t' ++ "_" ++ voted_word value)%string
       | None => new = []
       end.
Proof.
  unfold notify_vote.
  destruct target as [t'|]; [|exists []; now rewrite app_nil_r].
  destruct (content_object_author t' =? user_id voter);
    [exists []; now rewrite app_nil_r|].
  cbn [negb].
  destruct t' as [q|a]; unfold bind, ret;
    match goal with
    | |- context [create_notification ?n ?r ?f ?ty ?ti ?m ?rq ?ra s] =>
        destruct (create_notification_row n r f ty ti m rq ra s)
          as (x & Hfst & Hn & Hr & Hs & Hu & Hty & _);
        destruct (create_notification n r f ty ti m rq ra s) as [res s'];
        cbn [fst snd] in *; subst res; cbn [fst snd]
    end;
    (exists [x]; split; [exact Hn|]); exists x; repeat split; assumption.
Qed.

(** X3. Who hears of a vote.  Only a newly created vote on somebody
    else's content adds a notification: one unread row for the author, sent
    by the voter, typed by the kind of target and the direction of the vote.
    A changed or retracted vote, a vote on one's own content and a vote on
    a target that is not stored add none. *)
Theorem toggle_vote_notifications (now : string) (u : User) (t : content_object)
  (value : Z) (s : State) :
  exists new,
    notifications (db (snd (Votes.toggle_vote now u t value s)))
    = notifications (db s) ++ new
    /\ match objects_get (Votes.is_vote_of u t) (votes (db s)),
             resolve_content_object (get_for_model t) (content_object_id t) (db s) with
       | Raise DoesNotExist, Some t' =>
           if content_object_author t' =? user_id u
           then new = []
           else exists n,
                  new = [n]
                  /\ recipient n = content_object_author t'
                  /\ sender n = Some (user_id u)
                  /\ is_read n = false
                  /\ notification_type n
                     = (model_name t' ++ "_" ++ voted_word value)%string
       | _, _ => new = []
       end.
Proof.
  unfold Votes.toggle_vote.
  destruct (objects_get (Votes.is_vote_of u t) (votes (db s))) as [vote|e].
  - exists []. rewrite app_nil_r.
    destruct (vote_value vote =? value); cbn; split; reflexivity.
  - destruct e; try (exists []; rewrite app_nil_r; cbn; split; reflexivity).
    unfold bind, vote_created, ret.
    match goal with
    | |- context [notify_vote ?n ?tg ?w ?v ?st] =>
        destruct (notify_vote_notifications n tg w v st) as (new & Hnew & Hshape);
        destruct (notify_vote_frame n tg w v st) as (Hok & _ & _);
        destruct (notify_vote n tg w v st) as [res s'];
        cbn [fst snd] in *; subst res; cbn [fst snd]
    end.
    exists new. split; [exact Hnew|].
    cbn [vote_content_type vote_object_id vote_value] in Hshape.
    change (resolve_content_object (get_for_model t) (content_object_id t)
              (db (with_db
                     (with_votes
                        (votes (db s) ++
                         [{| vote_id := fresh_pk vote_id (votes (db s));
                             vote_user := user_id u; vote_value := value;
                             vote_content_type := get_for_model t;
                             vote_object_id := content_object_id t |}]) (db s)) s)))
      with (resolve_content_object (get_for_model t) (content_object_id t) (db s))
      in Hshape.
    destruct (resolve_content_object (get_for_model t) (content_object_id t) (db s));
      exact Hshape.
Qed.

Lemma filter_map_preserve_in {A : Type} (p : A -> bool) (f : A -> A) (l : list A) :
  (forall x, In x l -> p (f x) = p x) ->
  filter p (map f l) = map f (filter p l).
Proof.
  induction l as [|x l IH]; cbn [filter map]; intros Hp; [reflexivity|].
  rewrite (Hp x (or_introl eq_refl)).
  rewrite (IH (fun y Hy => Hp y (or_intror Hy))).
  now destruct (p x).
Qed.

Lemma filter_comm {A : Type} (p q : A -> bool) (l : list A) :
  filter p (filter q l) = filter q (filter p l).
Proof.
  induction l as [|x l IH]; cbn [filter]; [reflexivity|].
  destruct (p x) eqn:Hp, (q x) eqn:Hq; cbn [filter]; rewrite ?Hp, ?Hq; now rewrite IH.
Qed.

(** X4. What a toggle returned is what the vote status view then shows:
    the value of the returned vote, or null after a retraction. *)
Theorem vote_status_after_toggle (now : string) (u : User) (t : content_object)
  (value : Z) (s : State) :
  NoDup (map vote_id (votes (db s))) ->
  match fst (Votes.toggle_vote now u t value s) with
  | Ok r =>
      UserVoteStatusView.get u (model_name t) (content_object_id t)
        (snd (Votes.toggle_vote now u t value s))
      = Ok (HTTP_200 [("vote_value", match r with
                                      | Some v => JNum (vote_value v)
                                      | None => JNull
                                      end)])
  | Raise _ => True
  end.
Proof.
  intros Hnd.
  destruct (toggle_vote_cases now u t value s) as [_ H].
  assert (Hget : forall s',
             UserVoteStatusView.get u (model_name t) (content_object_id t) s'
             = match objects_get (Votes.is_vote_of u t) (votes (db s')) with
               | Ok vote => Ok (HTTP_200 [("vote_value", JNum (vote_value vote))])
               | Raise DoesNotExist => Ok (HTTP_200 [("vote_value", JNull)])
               | Raise e => Raise e
               end).
  { intros s'. unfold UserVoteStatusView.get. now destruct t. }
  destruct (objects_get (Votes.is_vote_of u t) (votes (db s))) as [vote|e] eqn:Hfound.
  - pose proof (objects_get_Ok_filter _ _ _ Hfound) as Hf.
    apply objects_get_Ok_holds in Hfound as [Hin Hmine].
    destruct (vote_value vote =? value); destruct H as [-> Hv].
    + rewrite Hget. unfold objects_get. rewrite Hv, filter_comm, Hf.
      cbn [filter]. now rewrite Z.eqb_refl.
    + rewrite Hget. unfold objects_get. rewrite Hv.
      rewrite filter_map_preserve_in, Hf.
      * cbn [map]. now rewrite Z.eqb_refl.
      * intros x Hx. destruct (vote_id x =? vote_id vote) eqn:E; [|reflexivity].
        apply Z.eqb_eq in E.
        now rewrite (NoDup_key_inj vote_id _ x vote Hnd Hx Hin E).
  - destruct e; try (now rewrite H).
    destruct H as [-> Hv]. rewrite Hget. unfold objects_get. rewrite Hv, filter_app.
    unfold objects_get in Hfound.
    destruct (filter (Votes.is_vote_of u t) (votes (db s))) as [|a [|b rest]];
      try discriminate.
    cbn [filter app]. now rewrite is_vote_of_new_vote.
Qed.

Lemma vote_status_after_toggle_witness :
  UserVoteStatusView.get Site.alice "answer" 3
    (snd (Votes.toggle_vote "2026-01-01T00:00:01" Site.alice (an_answer Site.a3) (-1)
            Site.s0))
  = Ok (HTTP_200 [("vote_value", JNum (-1))]).
Proof.
  exact (vote_status_after_toggle "2026-01-01T00:00:01" Site.alice (an_answer Site.a3)
           (-1) Site.s0 (NoDup_nil Z)).
Defined.

Lemma toggle_vote_cache (now : string) (u : User) (t : content_object) (value : Z)
  (s : State) :
  cache (snd (Votes.toggle_vote now u t value s)) = cache s.
Proof. now destruct (toggle_vote_cases now u t value s) as [(_ & _ & _ & _ & Hc) _]. Qed.

(** X5. The score the question vote view reports is the cached one when
    the cache holds a score for the question, whatever the votes now are;
    only with a cold cache is it the sum over the stored votes, which the
    read then caches. *)
Theorem question_vote_view_reports_cached_score (now : string) (u : User) (k : Z)
  (value : Z) (q : Question) (s : State) :
  get_question k (db s) = Ok q ->
  match fst (Votes.toggle_vote now u (a_question q) value s) with
  | Raise _ => True
  | Ok _ =>
      let r := QuestionVoteView.post now u k value s in
      match Questions.cache_get (vote_score_key q) (cache s) with
      | Some c => reported_score (fst r) = Some (JNum c)
      | None =>
          reported_score (fst r)
          = Some (JNum (stored_score (a_question q) (db (snd r))))
          /\ Questions.cache_get (vote_score_key q) (cache (snd r))
             = Some (stored_score (a_question q) (db (snd r)))
      end
  end.
Proof.
  intros Hq. unfold QuestionVoteView.post. rewrite Hq.
  pose proof (toggle_vote_cache now u (a_question q) value s) as Hc.
  destruct (Votes.toggle_vote now u (a_question q) value s) as [[r|e] s1];
    cbn [fst snd] in *; [|exact I].
  unfold Questions.vote_score. fold (vote_score_key q). rewrite Hc.
  destruct (Questions.cache_get (vote_score_key q) (cache s)) as [c|] eqn:Hcache.
  - destruct r; reflexivity.
  - destruct r; cbn [fst snd reported_score dict_get]; cbn; rewrite String.eqb_refl;
      split; reflexivity.
Qed.

Lemma question_vote_view_reports_cached_score_witness :
  reported_score
    (fst (QuestionVoteView.post "2026-01-01T00:00:01" Site.bob 7 1
            (with_cache [(vote_score_key Site.q7, 41)] Site.s0)))
  = Some (JNum 41).
Proof.
  exact (question_vote_view_reports_cached_score "2026-01-01T00:00:01" Site.bob 7 1
           Site.q7 (with_cache [(vote_score_key Site.q7, 41)] Site.s0) eq_refl).
Defined.

(** ** The ledger: floor, conservation, saving again *)

(** What one creation can do: refuse before writing, write the user row
    and fail at the insert, or write the user row and the ledger row. *)
Lemma create_cases (e : entry) (s : State) :
  (exists ex, create e s = (Raise ex, s)
              /\ (existsb (fun r => user_id r =? user_id (entry_user e)) (users (db s))
                  = true ->
                  reputation (entry_user e) + entry_amount e < -1000 /\ ex = IntegrityError))
  \/ (-1000 <= reputation (entry_user e) + entry_amount e
      /\ existsb (fun r => user_id r =? user_id (entry_user e)) (users (db s)) = true
      /\ users (db (snd (create e s)))
         = map (credit (entry_user e) (entry_amount e)) (users (db s))
      /\ (existsb (Z.eqb (entry_content_type_id e)) (content_types (db s)) = false
          /\ fst (create e s) = Raise IntegrityError
          /\ reputation_transactions (db (snd (create e s)))
             = reputation_transactions (db s)
          \/ existsb (Z.eqb (entry_content_type_id e)) (content_types (db s)) = true
             /\ exists row,
                  fst (create e s) = Ok row
                  /\ reputation_transactions (db (snd (create e s)))
                     = reputation_transactions (db s) ++ [row])).
Proof.
  unfold create, ReputationTransactions.objects_create.
  match goal with
  | |- context [ReputationTransactions.save ?n ?t s] =>
      destruct (save_new_spec n t s eq_refl) as [(ex & H & Hwhy)|H]
  end; cbn [user amount content_type_id] in *.
  - left. exists ex. split; [exact H|]. intros Hex.
    destruct Hwhy as [(Hno & _)|(_ & Hlt & He)]; [congruence|now split].
  - right. cbv zeta in H.
    destruct H as (Hex & Hge & Hus & _ & _ & _ & _ & _ & _ & Hins).
    split; [exact Hge|]. split; [exact Hex|]. split; [exact Hus|].
    destruct Hins as [(Hno & Hfail & Htx)|(Hct & row & Hok & _ & _ & _ & _ & Htx & _)].
    + left. now repeat split.
    + right. split; [exact Hct|]. now exists row.
Qed.

(** X6. The ledger never takes a reputation below the floor: a creation
    that would write a reputation below -1000 is rejected with
    [IntegrityError] and changes nothing, so serving creations, with
    whatever user objects, keeps every stored reputation at -1000 or
    above. *)
Theorem ledger_keeps_reputation_floor (es : list entry) (s : State) :
  (forall e,
     existsb (fun r => user_id r =? user_id (entry_user e)) (users (db s)) = true ->
     reputation (entry_user e) + entry_amount e < -1000 ->
     create e s = (Raise IntegrityError, s))
  /\ ((forall u, In u (users (db s)) -> -1000 <= reputation u) ->
      forall u, In u (users (db (create_all es s))) -> -1000 <= reputation u).
Proof.
  split.
  - intros e Hex Hlt. destruct (create_cases e s) as [(ex & H & Hwhy)|(Hge & _)]; [|lia].
    destruct (Hwhy Hex) as [_ ->]. exact H.
  - revert s. induction es as [|e es IH]; intros s Hfloor; cbn [create_all];
      [exact Hfloor|].
    apply IH. destruct (create_cases e s) as [(ex & H & _)|(Hge & _ & Hus & _)].
    + now rewrite H.
    + rewrite Hus. intros u Hin. apply in_map_iff in Hin as (r & <- & Hr).
      unfold credit. destruct (user_id r =? user_id (entry_user e)); [|now apply Hfloor].
      cbn [reputation set_reputation]. exact Hge.
Qed.

(** bob at 100 cannot be charged 1101. *)
Lemma ledger_keeps_reputation_floor_witness :
  create {| entry_now := "2026-01-01T00:00:01"; entry_user := Site.bob;
            entry_type := "spam_penalty"; entry_amount := -1101;
            entry_description := "spam"; entry_content_type_id := 1;
            entry_object_id := 3 |} Site.s0
  = (Raise IntegrityError, Site.s0).
Proof.
  apply (proj1 (ledger_keeps_reputation_floor [] Site.s0)); [reflexivity|cbn; lia].
Defined.

(** X7. A creation for a stored user, with values that fit their columns
    and a new reputation of -1000 or more, whose content type is no row of
    the content types table fails at the insert, after the user row was
    written: it raises [IntegrityError], the user holds the credited
    reputation and the ledger has no row for it.  Only a transaction around
    the call takes the credit back. *)
Theorem failed_insert_keeps_the_credit (e : entry) (s : State) :
  existsb (fun r => user_id r =? user_id (entry_user e)) (users (db s)) = true ->
  -1000 <= reputation (entry_user e) + entry_amount e ->
  fits_columns e = true ->
  existsb (Z.eqb (entry_content_type_id e)) (content_types (db s)) = false ->
  fst (create e s) = Raise IntegrityError
  /\ users (db (snd (create e s)))
     = map (credit (entry_user e) (entry_amount e)) (users (db s))
  /\ reputation_transactions (db (snd (create e s))) = reputation_transactions (db s)
  /\ atomic (create e) s
     = (Raise IntegrityError, with_db (db s) (snd (create e s))).
Proof.
  intros Hex Hge _ Hct.
  destruct (create_cases e s) as [(ex & H & Hwhy)|(_ & _ & Hus & Hins)].
  - destruct (Hwhy Hex) as [Hlt _]. lia.
  - destruct Hins as [(_ & Hfail & Htx)|(Hyes & _)]; [|congruence].
    repeat split; try assumption.
    unfold atomic. destruct (create e s) as [[row|ex] s']; cbn [fst snd] in *;
      [discriminate|]. now inversion Hfail.
Qed.

(** +10 for bob under content type 999: bob holds 110, the ledger is
    empty. *)
Lemma failed_insert_keeps_the_credit_witness :
  let e := {| entry_now := "2026-01-01T00:00:01"; entry_user := Site.bob;
              entry_type := "answer_upvote"; entry_amount := 10;
              entry_description := "upvote"; entry_content_type_id := 999;
              entry_object_id := 3 |} in
  fst (create e Site.s0) = Raise IntegrityError
  /\ map reputation (users (db (snd (create e Site.s0)))) = [100; 110]
  /\ reputation_transactions (db (snd (create e Site.s0))) = [].
Proof.
  cbv zeta.
  destruct (failed_insert_keeps_the_credit
              {| entry_now := "2026-01-01T00:00:01"; entry_user := Site.bob;
                 entry_type := "answer_upvote"; entry_amount := 10;
                 entry_description := "upvote"; entry_content_type_id := 999;
                 entry_object_id := 3 |} Site.s0)
    as (H1 & H2 & H3 & _); [reflexivity|cbn; lia|reflexivity|reflexivity|].
  split; [exact H1|]. split; [now rewrite H2|exact H3].
Defined.

(** X8. Saving a stored transaction again does not credit it again: the
    user's reputation and the channel layer stay as the first save left
    them, no row is added, the balance is kept, and only the version moves
    up by one. *)
Theorem saving_again_credits_nothing (now now' : string)
  (self : ReputationTransaction) (s : State) :
  pk self = None ->
  match fst (ReputationTransactions.save now self s) with
  | Raise _ => True
  | Ok row =>
      let s1 := snd (ReputationTransactions.save now self s) in
      exists row',
        fst (ReputationTransactions.save now' row s1) = Ok row'
        /\ version row' = version row + 1
        /\ balance_after row' = balance_after row
        /\ pk row' = pk row
        /\ users (db (snd (ReputationTransactions.save now' row s1))) = users (db s1)
        /\ channel_layer (snd (ReputationTransactions.save now' row s1))
           = channel_layer s1
        /\ map pk (reputation_transactions
                     (db (snd (ReputationTransactions.save now' row s1))))
           = map pk (reputation_transactions (db s1))
  end.
Proof.
  intros Hpk.
  destruct (save_new_spec now self s Hpk) as [(ex & H & _)|H]; [now rewrite H|].
  cbv zeta in H.
  destruct H as (_ & _ & _ & _ & _ & _ & _ & _ & _ & [(_ & Hfail & _)|(_ & row & H)]);
    [now rewrite Hfail|].
  destruct H as (Hok & _ & _ & _ & _ & Htx & Hk & _). rewrite Hok. cbv zeta.
  set (s1 := snd (ReputationTransactions.save now self s)) in *.
  set (rows := reputation_transactions (db s)) in *.
  set (k := fresh_pk transaction_pk rows) in *.
  unfold ReputationTransactions.save. rewrite Hk.
  cbn [fst snd db with_db reputation_transactions with_reputation_transactions users
       channel_layer].
  eexists. split; [reflexivity|]. cbn [version balance_after pk].
  do 5 (split; [reflexivity|]).
  assert (Hfresh : forall r, In r rows -> has_pk k r = false).
  { intros r Hr. unfold has_pk. destruct (pk r) as [j|] eqn:Hj; [|reflexivity].
    apply Z.eqb_neq. pose proof (fresh_pk_above transaction_pk rows r Hr) as Hlt.
    unfold transaction_pk in Hlt at 1. rewrite Hj in Hlt. subst k. lia. }
  assert (Hrow : has_pk k row = true) by (unfold has_pk; now rewrite Hk, Z.eqb_refl).
  subst s1. rewrite Htx, existsb_app. cbn [existsb]. rewrite Hrow, orb_true_r.
  rewrite !map_app. cbn [map]. rewrite Hrow. cbn [pk]. rewrite Hk. f_equal.
  rewrite map_map. apply map_ext_in. intros r Hr. now rewrite (Hfresh r Hr).
Qed.

Lemma saving_again_credits_nothing_witness :
  let tx := {| pk := None; user := Site.bob; transaction_type := "answer_upvote";
               amount := 10; description := "upvote"; content_type_id := 1;
               object_id := 3; balance_after := 0; version := 1 |} in
  match fst (ReputationTransactions.save "2026-01-01T00:00:01" tx Site.s0) with
  | Raise _ => True
  | Ok row =>
      let s1 := snd (ReputationTransactions.save "2026-01-01T00:00:01" tx Site.s0) in
      exists row',
        fst (ReputationTransactions.save "2026-01-01T00:00:02" row s1) = Ok row'
        /\ version row' = version row + 1
        /\ balance_after row' = balance_after row
        /\ pk row' = pk row
        /\ users (db (snd (ReputationTransactions.save "2026-01-01T00:00:02" row s1)))
           = users (db s1)
        /\ channel_layer (snd (ReputationTransactions.save "2026-01-01T00:00:02" row s1))
           = channel_layer s1
        /\ map pk (reputation_transactions
                     (db (snd (ReputationTransactions.save "2026-01-01T00:00:02"
                                 row s1))))
           = map pk (reputation_transactions (db s1))
  end.
Proof.
  cbv zeta.
  exact (saving_again_credits_nothing "2026-01-01T00:00:01" "2026-01-01T00:00:02"
           {| pk := None; user := Site.bob; transaction_type := "answer_upvote";
              amount := 10; description := "upvote"; content_type_id := 1;
              object_id := 3; balance_after := 0; version := 1 |} Site.s0 eq_refl).
Defined.

(** ** Accepting: refusals, atomicity, the single accepted answer *)

Lemma bind_Raise {A B : Type} (m : M A) (k : A -> M B) (s s' : State) (e : exn) :
  m s = (Raise e, s') -> bind m k s = (Raise e, s').
Proof. unfold bind. now intros ->. Qed.



(** X10. [accept_answer] is all or nothing: whenever it raises, whatever
    the exception and wherever it came from, the database is exactly as it
    was before the call. *)
Theorem accept_answer_is_atomic (now : string) (self : QuestionInstance) (a : Answer)
  (u : User) (s : State) :
  match fst (Questions.accept_answer now self a u s) with
  | Raise _ => db (snd (Questions.accept_answer now self a u s)) = db s
  | Ok _ => True
  end.
Proof.
  unfold Questions.accept_answer.
  set (v := BusinessRuleValidator.validate_answer_acceptance a u).
  assert (Hv : v s = (Ok tt, s) \/ exists e, v s = (Raise e, s)).
  { subst v. unfold BusinessRuleValidator.validate_answer_acceptance, bind, query,
      raise, ret.
    destruct (get_question (answer_question a) (db s)) as [q|e]; [|eauto].
    destruct (negb (question_author q =? user_id u) && negb (is_moderator u)); eauto. }
  destruct Hv as [Hv|[e Hv]].
  2: { rewrite (bind_Raise v _ s s e Hv). reflexivity. }
  rewrite (bind_Ok v _ s tt) by now rewrite Hv.
  rewrite Hv. cbn [snd]. unfold atomic.
  match goal with
  | |- context [let (_, _) := ?m s in _] => destruct (m s) as [[x|e] s']
  end; cbn [fst snd]; [exact I|reflexivity].
Qed.

Lemma filter_map_map_untouched {A : Type} (q : A -> bool) (f g : A -> A) (l : list A) :
  (forall x, q (f x) = q x /\ (q x = true -> f x = x)) ->
  (forall x, q (g x) = q x /\ (q x = true -> g x = x)) ->
  filter q (map g (map f l)) = filter q l.
Proof.
  intros Hf Hg.
  rewrite filter_map_untouched by (intros x _; apply Hg).
  apply filter_map_untouched. intros x _. apply Hf.
Qed.

Lemma clear_others_question (self a : Answer) :
  answer_question (clear_others self a) = answer_question a.
Proof. unfold clear_others. now destruct (_ && _). Qed.

Lemma write_flag_question (self a : Answer) :
  answer_question (write_flag self a) = answer_question a.
Proof. unfold write_flag. now destruct (_ =? _). Qed.

(** X11. Saving an answer flagged as accepted leaves it the only accepted
    answer of its question: every other answer of that question is
    unflagged, the saved row is flagged, and the answers of other questions
    are untouched. *)
Theorem saving_accepted_answer_unflags_siblings (now : string) (self : Answer)
  (s : State) :
  is_accepted self = true ->
  existsb (fun a => answer_id a =? answer_id self) (answers (db s)) = true ->
  let s' := snd (Answers.save_is_accepted now self s) in
  fst (Answers.save_is_accepted now self s) = Ok tt
  /\ (forall x, In x (answers (db s')) ->
                answer_question x = answer_question self ->
                answer_id x <> answer_id self -> is_accepted x = false)
  /\ (forall x, In x (answers (db s')) ->
                answer_id x = answer_id self -> is_accepted x = true)
  /\ filter (fun x => negb (answer_question x =? answer_question self)
                      && negb (answer_id x =? answer_id self))
            (answers (db s'))
     = filter (fun x => negb (answer_question x =? answer_question self)
                        && negb (answer_id x =? answer_id self))
              (answers (db s)).
Proof.
  intros Hacc Hex s'.
  destruct (save_is_accepted_spec now self s Hex) as (Hfst & Hans & _).
  fold s' in Hans. split; [exact Hfst|]. rewrite Hans. unfold answers_saved.
  rewrite Hacc. split; [|split].
  - intros x Hx Hq Hid.
    apply in_map_iff in Hx as (x1 & <- & Hx). apply in_map_iff in Hx as (x0 & <- & Hx).
    rewrite write_flag_id, clear_others_id in Hid. apply Z.eqb_neq in Hid.
    unfold write_flag in Hq |- *. rewrite clear_others_id, Hid in Hq |- *.
    unfold clear_others in Hq |- *. rewrite Hid in Hq |- *. cbn [negb] in Hq |- *.
    rewrite andb_true_r in Hq |- *.
    destruct (is_accepted x0) eqn:E.
    + rewrite andb_true_r in Hq |- *.
      destruct (answer_question x0 =? answer_question self) eqn:Eq; [reflexivity|].
      apply Z.eqb_neq in Eq. contradiction.
    + now rewrite andb_false_r.
  - intros x Hx Hid.
    apply in_map_iff in Hx as (x1 & <- & Hx).
    unfold write_flag in Hid |- *.
    destruct (answer_id x1 =? answer_id self) eqn:E.
    + cbn [is_accepted set_is_accepted]. exact Hacc.
    + apply Z.eqb_neq in E. contradiction.
  - apply filter_map_map_untouched; intros x; split.
    + now rewrite clear_others_id, clear_others_question.
    + intros Hq. apply andb_true_iff in Hq as [Hq _]. apply negb_true_iff in Hq.
      unfold clear_others. now rewrite Hq.
    + now rewrite write_flag_id, write_flag_question.
    + intros Hq. apply andb_true_iff in Hq as [_ Hq]. apply negb_true_iff in Hq.
      unfold write_flag. now rewrite Hq.
Qed.

Lemma saving_accepted_answer_unflags_siblings_witness :
  let old := {| answer_id := 4; answer_question := 7; answer_author := 1;
                is_accepted := true |} in
  let s := with_db (with_answers [old; Site.a3] Site.db0) Site.s0 in
  map is_accepted
      (answers (db (snd (Answers.save_is_accepted "2026-01-01T00:00:05"
                           (set_is_accepted true Site.a3) s))))
  = [false; true]
  /\ forall x,
       In x (answers (db (snd (Answers.save_is_accepted "2026-01-01T00:00:05"
                                 (set_is_accepted true Site.a3) s)))) ->
       answer_question x = 7 -> answer_id x <> 3 -> is_accepted x = false.
Proof.
  cbv zeta. split; [reflexivity|].
  exact (proj1 (proj2 (saving_accepted_answer_unflags_siblings "2026-01-01T00:00:05"
                         (set_is_accepted true Site.a3)
                         (with_db (with_answers
                                     [{| answer_id := 4; answer_question := 7;
                                         answer_author := 1; is_accepted := true |};
                                      Site.a3] Site.db0) Site.s0)
                         eq_refl eq_refl))).
Defined.












(** X13. The view and the model method disagree on moderators: a
    moderator who is not the author passes [validate_answer_acceptance],
    yet the view answers 403 and changes nothing. *)
Theorem accept_view_refuses_moderators (now : string) (u : User) (question_key
  answer_key : Z) (q : Question) (a : Answer) (s : State) :
  get_question question_key (db s) = Ok q ->
  get_question (answer_question a) (db s) = Ok q ->
  question_author q <> user_id u ->
  is_moderator u = true ->
  BusinessRuleValidator.validate_answer_acceptance a u s = (Ok tt, s)
  /\ AcceptAnswerView.post now u question_key answer_key s
     = (Ok (HTTP_403 [("error", JStr "Only the question author can accept answers")]),
        s).
Proof.
  intros Hq Hqa Hne Hmod. apply Z.eqb_neq in Hne. split.
  - unfold BusinessRuleValidator.validate_answer_acceptance, bind, query, ret.
    now rewrite Hqa, Hmod, andb_false_r.
  - unfold AcceptAnswerView.post. now rewrite Hq, Hne.
Qed.

Lemma accept_view_refuses_moderators_witness :
  let carol := {| user_id := 3; username := "carol"; role := role_moderator;
                  is_suspended := false; reputation := 500 |} in
  BusinessRuleValidator.validate_answer_acceptance Site.a3 carol Site.s0
  = (Ok tt, Site.s0)
  /\ AcceptAnswerView.post "2026-01-01T00:00:05" carol 7 3 Site.s0
     = (Ok (HTTP_403 [("error", JStr "Only the question author can accept answers")]),
        Site.s0).
Proof.
  cbv zeta.
  apply (accept_view_refuses_moderators _ _ 7 3 Site.q7 Site.a3);
    [reflexivity|reflexivity|discriminate|reflexivity].
Defined.

(** ** Notifications: reading, statistics, backlog *)

(** X14. Marking one notification read.  A key that names no notification
    of the caller, someone else's included, gives 404 and changes nothing.
    A key that names one gives 200; afterwards every row with that key is
    read, rows with other keys are untouched, and nothing but read flags
    has changed. *)
Theorem mark_read_view_touches_own_notification_only (u : User) (key : Z) (s : State) :
  ((forall n, In n (notifications (db s)) -> notification_id n = key ->
              recipient n <> user_id u) ->
   MarkNotificationReadAPIView.post u key s = (Ok HTTP_404, s))
  /\ (forall n,
        objects_get (fun n => (notification_id n =? key) && (recipient n =? user_id u))
                    (notifications (db s)) = Ok n ->
        let r := MarkNotificationReadAPIView.post u key s in
        fst r = Ok (HTTP_200 [("success", JBool true);
                              ("message", JStr "Notification marked as read")])
        /\ (forall x, In x (notifications (db (snd r))) ->
                      notification_id x = key -> is_read x = true)
        /\ filter (fun x => negb (notification_id x =? key)) (notifications (db (snd r)))
           = filter (fun x => negb (notification_id x =? key)) (notifications (db s))
        /\ map (set_is_read true) (notifications (db (snd r)))
           = map (set_is_read true) (notifications (db s))).
Proof.
  split.
  - intros H. unfold MarkNotificationReadAPIView.post, objects_get.
    rewrite filter_none; [reflexivity|].
    intros n Hn. destruct (notification_id n =? key) eqn:E; [|reflexivity].
    apply Z.eqb_eq in E. cbn [andb]. apply Z.eqb_neq. now apply H.
  - intros n Hn r. subst r. unfold MarkNotificationReadAPIView.post. rewrite Hn.
    pose proof (objects_get_Ok_holds _ _ _ Hn) as [_ Hk].
    apply andb_true_iff in Hk as [Hk _]. apply Z.eqb_eq in Hk.
    unfold bind, mark_as_read, execute, ret. cbn [fst snd db with_db notifications
      with_notifications]. rewrite Hk.
    split; [reflexivity|]. split; [|split].
    + intros x Hx Hid. apply in_map_iff in Hx as (x0 & <- & _).
      destruct (notification_id x0 =? key) eqn:E; [reflexivity|].
      apply Z.eqb_neq in E. contradiction.
    + apply filter_map_untouched. intros x _.
      destruct (notification_id x =? key) eqn:E; cbn [notification_id set_is_read];
        rewrite ?E; split; try reflexivity. discriminate.
    + rewrite map_map. apply map_ext. intros x.
      now destruct (notification_id x =? key).
Qed.

(** alice cannot mark bob's notification 1. *)
Lemma mark_read_view_touches_own_notification_only_witness :
  MarkNotificationReadAPIView.post Site.alice 1
    (with_db (with_notifications [Site.unread 1] Site.db0) Site.s0)
  = (Ok HTTP_404, with_db (with_notifications [Site.unread 1] Site.db0) Site.s0).
Proof.
  apply (proj1 (mark_read_view_touches_own_notification_only Site.alice 1
                  (with_db (with_notifications [Site.unread 1] Site.db0) Site.s0))).
  intros n [<-|[]] _. discriminate.
Defined.


(** X16. A new answer is announced to the question's author and to nobody
    when the author answers their own question. *)
Theorem new_answer_notifies_the_asker_only (now : string) (q : Question) (a : Answer)
  (s : State) :
  (question_author q = answer_author a -> notify_new_answer now q a s = (Ok tt, s))
  /\ (forall author,
        question_author q <> answer_author a ->
        get_user (answer_author a) (db s) = Ok author ->
        exists n,
          fst (notify_new_answer now q a s) = Ok tt
          /\ notifications (db (snd (notify_new_answer now q a s)))
             = notifications (db s) ++ [n]
          /\ recipient n = question_author q
          /\ sender n = Some (answer_author a)
          /\ is_read n = false
          /\ notification_type n = "new_answer"
          /\ related_question_id n = Some (question_id q)
          /\ related_answer_id n = Some (answer_id a)).
Proof.
  split.
  - intros E. unfold notify_new_answer. now rewrite E, Z.eqb_refl.
  - intros author Hne Hu. unfold notify_new_answer.
    apply Z.eqb_neq in Hne. rewrite Hne. cbn [negb].
    unfold bind, query, ret. rewrite Hu.
    pose proof (objects_get_Ok_holds _ _ _ Hu) as [_ Hid]. apply Z.eqb_eq in Hid.
    match goal with
    | |- context [create_notification ?n ?r ?f ?ty ?ti ?m ?rq ?ra s] =>
        destruct (create_notification_row n r f ty ti m rq ra s)
          as (x & Hfst & Hn & Hr & Hs & Hunread & Hty & Hrq & Hra);
        destruct (create_notification n r f ty ti m rq ra s) as [res s'];
        cbn [fst snd] in *; subst res; cbn [fst snd]
    end.
    exists x. rewrite Hid in Hs. repeat split; assumption.
Qed.

Lemma new_answer_notifies_the_asker_only_witness :
  exists n,
    notifications (db (snd (notify_new_answer "2026-01-01T00:00:05" Site.q7 Site.a3
                              Site.s0)))
    = [n]
    /\ recipient n = 1 /\ sender n = Some 2 /\ notification_type n = "new_answer".
Proof.
  destruct (proj2 (new_answer_notifies_the_asker_only "2026-01-01T00:00:05" Site.q7
                     Site.a3 Site.s0) Site.bob)
    as (n & _ & Hn & Hr & Hs & _ & Hty & _); [discriminate|reflexivity|].
  exists n. repeat split; assumption.
Defined.

Lemma count_type_sums (ntype : string) (unread : bool) (acc : list (string * (Z * Z))) :
  breakdown_total (NotificationStatsAPIView.count_type ntype unread acc)
  = breakdown_total acc + 1
  /\ breakdown_unread (NotificationStatsAPIView.count_type ntype unread acc)
     = breakdown_unread acc + (if unread then 1 else 0).
Proof.
  unfold breakdown_total, breakdown_unread.
  induction acc as [|[k [total un]] rest [IHt IHu]];
    cbn [NotificationStatsAPIView.count_type map fold_right fst snd].
  - destruct unread; split; lia.
  - destruct (String.eqb k ntype); cbn [map fold_right fst snd];
      destruct unread; split; lia.
Qed.

Lemma count_type_keys (ntype : string) (unread : bool) (acc : list (string * (Z * Z))) :
  NoDup (map fst acc) ->
  NoDup (map fst (NotificationStatsAPIView.count_type ntype unread acc))
  /\ (forall k, In k (map fst (NotificationStatsAPIView.count_type ntype unread acc)) ->
                k = ntype \/ In k (map fst acc)).
Proof.
  induction acc as [|[k [total un]] rest IH];
    cbn [NotificationStatsAPIView.count_type map fst]; intros Hnd.
  - split; [repeat constructor; intros []|]. intros k [<-|[]]. now left.
  - inversion Hnd as [|? ? Hnotin Hnd']; subst.
    destruct (String.eqb k ntype) eqn:E; cbn [map fst].
    + split; [assumption|]. intros k' Hk'. now right.
    + destruct (IH Hnd') as [IHnd IHin]. split.
      * constructor; [|assumption]. intros Hin.
        destruct (IHin k Hin) as [->|Hin']; [|contradiction].
        now rewrite String.eqb_refl in E.
      * intros k' [<-|Hk']; [right; now left|].
        destruct (IHin k' Hk') as [->|Hin']; [now left|right; now right].
Qed.

Lemma types_breakdown_sums (rows : list Notification) :
  forall acc,
    NoDup (map fst acc) ->
    let b := fold_left (fun acc n => NotificationStatsAPIView.count_type
                                       (notification_type n) (negb (is_read n)) acc)
                       rows acc in
    breakdown_total b = breakdown_total acc + Z.of_nat (List.length rows)
    /\ breakdown_unread b
       = breakdown_unread acc
         + Z.of_nat (List.length (filter (fun n => negb (is_read n)) rows))
    /\ NoDup (map fst b).
Proof.
  induction rows as [|n rows IH]; intros acc Hnd; cbn [fold_left].
  - cbn. repeat split; try lia. assumption.
  - destruct (count_type_sums (notification_type n) (negb (is_read n)) acc) as [Ht Hu].
    destruct (count_type_keys (notification_type n) (negb (is_read n)) acc Hnd)
      as [Hnd' _].
    destruct (IH _ Hnd') as (IHt & IHu & IHnd). cbv zeta in *.
    rewrite IHt, IHu, Ht, Hu. cbn [filter List.length].
    split; [|split; [|assumption]].
    + rewrite Nat2Z.inj_succ. lia.
    + destruct (negb (is_read n)); cbn [List.length]; [rewrite Nat2Z.inj_succ|]; lia.
Qed.

Lemma unread_of_recipient (uid : Z) (l : list Notification) :
  filter (fun n => negb (is_read n)) (filter (fun n => recipient n =? uid) l)
  = filter (is_unread_for uid) l.
Proof.
  unfold is_unread_for.
  induction l as [|n l IH]; cbn [filter]; [reflexivity|].
  destruct (recipient n =? uid); cbn [andb filter]; [|exact IH].
  destruct (negb (is_read n)); now rewrite IH.
Qed.

(** X17. The statistics add up: in the breakdown by type every type
    occurs once, the totals sum to the number of the user's notifications
    and the unread counts sum to the user's unread count, the one the
    unread view and [mark_all_read] report. *)
Theorem notification_stats_add_up (u : User) (d : Db) :
  let rows := NotificationStatsAPIView.user_notifications u d in
  let b := NotificationStatsAPIView.types_breakdown rows in
  NoDup (map fst b)
  /\ breakdown_total b = Z.of_nat (List.length rows)
  /\ breakdown_unread b = unread_count (user_id u) d.
Proof.
  intros rows b.
  destruct (types_breakdown_sums rows [] (NoDup_nil _)) as (Ht & Hu & Hnd).
  cbv zeta in *. fold (NotificationStatsAPIView.types_breakdown rows) in Ht, Hu, Hnd.
  fold b in Ht, Hu, Hnd.
  split; [exact Hnd|]. split; [exact Ht|]. rewrite Hu.
  cbn [breakdown_unread map fold_right].
  unfold unread_count, rows, NotificationStatsAPIView.user_notifications.
  rewrite filter_rev, length_rev, unread_of_recipient. lia.
Qed.













(** ** The channel layer: delivery and membership *)

(** X19. Who a pushed notification reaches.  [send_notification_to_user]
    publishes a [notification_message] event to the recipient's group
    [notifications_<id>].  Only the consumer of notifications/consumers.py
    has a handler of that name: its sockets in the group receive the
    [notification] message.  The realtime consumer joins the same group on
    connect and has no such handler, so its sockets in the group end, as
    would the sockets of any other consumer in it.  Sockets outside the
    group, the group memberships and the database are left as they were. *)
Theorem notification_push_ends_realtime_sockets (now : string) (k : Z)
  (sender_username : option string) (n : Notification) (s : State)
  (L : ChannelLayer) :
  channel_layer s = Some L ->
  let s' := snd (send_notification_to_user now k sender_username n s) in
  let m := JObj [("type", JStr "notification");
                 ("notification", NotificationSerializer_data sender_username n)] in
  db s' = db s
  /\ exists L',
       channel_layer s' = Some L'
       /\ groups L' = groups L
       /\ connections L'
          = flat_map (fun c =>
                        if in_group ("notifications_" ++ str k) (channel_name c) L
                        then match consumer c with
                             | Notifications_NotificationConsumer => [pushed m c]
                             | _ => []
                             end
                        else [c])
                     (connections L).
Proof.
  intros HL. cbv zeta. unfold send_notification_to_user. cbn [snd].
  split; [apply db_layer_group_send|].
  unfold layer_group_send. rewrite HL. cbn [channel_layer with_channel_layer].
  eexists. split; [reflexivity|]. split; [reflexivity|].
  unfold group_send. cbn [connections]. apply flat_map_ext. intros c.
  destruct (in_group _ (channel_name c) L); [|reflexivity].
  unfold dispatch, pushed. cbn [dict_get].
  change (String.eqb "type" "type") with true. cbn iota.
  destruct (consumer c); reflexivity.
Qed.

(** bob has a socket on each notification consumer, both in his group:
    alice's notification reaches the socket of notifications/consumers.py
    and ends the realtime one, whose channel stays in the group. *)
Lemma notification_push_ends_realtime_sockets_witness :
  let r := create_notification "2026-01-01T00:00:05" 2 Site.alice "new_answer"
             "New answer" "alice answered" (Some 7) (Some 3) Site.s0 in
  match channel_layer (snd r) with
  | Some L' =>
      serving "chan-1" Site.layer0 = Some Realtime_NotificationConsumer
      /\ serving "chan-1" L' = None
      /\ in_group "notifications_2" "chan-1" L' = true
      /\ serving "chan-2" L' = Some Notifications_NotificationConsumer
      /\ List.length (received "chan-2" L') = 2%nat
  | None => False
  end
  /\ (let s' := snd (send_notification_to_user "2026-01-01T00:00:05" 2 (Some "alice")
                       (Site.unread 1) Site.s0) in
      db s' = db Site.s0
      /\ exists L',
           channel_layer s' = Some L'
           /\ groups L' = groups Site.layer0
           /\ connections L'
              = flat_map
                  (fun c =>
                     if in_group ("notifications_" ++ str 2) (channel_name c) Site.layer0
                     then match consumer c with
                          | Notifications_NotificationConsumer =>
                              [pushed (JObj [("type", JStr "notification");
                                             ("notification",
                                              NotificationSerializer_data (Some "alice")
                                                (Site.unread 1))]) c]
                          | _ => []
                          end
                     else [c])
                  (connections Site.layer0)).
Proof.
  split; [vm_compute; repeat split|].
  exact (notification_push_ends_realtime_sockets "2026-01-01T00:00:05" 2 (Some "alice")
           (Site.unread 1) Site.s0 Site.layer0 eq_refl).
Defined.

(** [str] prints different integers differently. *)
Lemma to_int_not_nil (z : Z) :
  Z.to_int z <> Decimal.Pos Decimal.Nil /\ Z.to_int z <> Decimal.Neg Decimal.Nil.
Proof.
  destruct z; cbn; split; try discriminate.
  - intros H. inversion H. generalize (DecimalPos.Unsigned.to_uint_nonnil p). congruence.
  - intros H. inversion H. generalize (DecimalPos.Unsigned.to_uint_nonnil p). congruence.
Qed.

Lemma str_inj (a b : Z) : str a = str b -> a = b.
Proof.
  unfold str. intros H. apply (f_equal NilZero.int_of_string) in H.
  destruct (to_int_not_nil a), (to_int_not_nil b).
  rewrite !NilZero.isi in H by assumption. inversion H.
  now apply DecimalZ.to_int_inj.
Qed.

Lemma in_group_groups (group channel : string) (L L' : ChannelLayer) :
  groups L = groups L' -> in_group group channel L = in_group group channel L'.
Proof. unfold in_group. now intros ->. Qed.

Lemma in_group_group_add (g ch g' ch' : string) (L : ChannelLayer) :
  in_group g ch (group_add g' ch' L)
  = in_group g ch L || is_pair g ch (g', ch').
Proof.
  unfold group_add, is_pair. cbn [fst snd].
  destruct (in_group g' ch' L) eqn:E.
  - destruct (String.eqb g' g) eqn:Eg; cbn [andb]; [|now rewrite orb_false_r].
    destruct (String.eqb ch' ch) eqn:Ec; [|now rewrite orb_false_r].
    apply String.eqb_eq in Eg, Ec. subst. now rewrite E.
  - unfold in_group. cbn [groups]. rewrite existsb_app. cbn [existsb fst snd].
    now rewrite orb_false_r.
Qed.

Lemma groups_close (channel : string) (L : ChannelLayer) :
  groups (close channel L) = groups L.
Proof. reflexivity. Qed.

(** What a step can add to the groups. *)
Lemma client_step_joins (now : string) (a : client_action) (dl : Db * ChannelLayer)
  (g ch : string) :
  in_group g ch (snd (client_step now a dl)) = true ->
  in_group g ch (snd dl) = true \/ existsb (is_pair g ch) (joins a) = true.
Proof.
  assert (Hadd : forall g' ch' L,
             in_group g ch (group_add g' ch' L) = true ->
             in_group g ch L = true \/ is_pair g ch (g', ch') = true).
  { intros g' ch' L H. rewrite in_group_group_add in H. now apply orb_true_iff in H. }
  destruct a as [channel [u|]|channel [u|]|channel qid qd|channel acts
                 |channel [u|] st|channel u fr];
    cbn [client_step joins snd fst existsb]; try (now left).
  - unfold RealtimeNotificationConsumer.connect.
    destruct (valid_group_name _); [|now left]. cbv zeta. intros H.
    assert (H' : in_group g ch
                   (group_add "global_updates" channel
                      (group_add ("notifications_" ++ str (user_id u)) channel
                         (snd dl))) = true).
    { via_groups H. now destruct (get_pending_notifications u (fst dl)) as [[|? ?]|]. }
    apply Hadd in H' as [H'|H']; [|right; now rewrite H', !orb_true_r].
    apply Hadd in H' as [H'|H']; [now left|right; now rewrite H'].
  - unfold NotificationsNotificationConsumer.connect.
    destruct (valid_group_name _); [|now left]. cbv zeta. intros H.
    assert (H' : in_group g ch
                   (group_add ("notifications_" ++ str (user_id u)) channel (snd dl))
                 = true) by (via_groups H; reflexivity).
    apply Hadd in H' as [H'|H']; [now left|right; now rewrite H'].
  - unfold QuestionConsumer.connect.
    destruct (valid_group_name _); [|now left]. cbv zeta. intros H.
    assert (H' : in_group g ch (group_add ("question_" ++ qid) channel (snd dl)) = true)
      by (via_groups H; now destruct qd).
    apply Hadd in H' as [H'|H']; [now left|right; now rewrite H'].
  - unfold LiveFeedConsumer.connect. cbv zeta. intros H.
    assert (H' : in_group g ch (group_add "live_feed" channel (snd dl)) = true)
      by (via_groups H; reflexivity).
    apply Hadd in H' as [H'|H']; [now left|right; now rewrite H'].
  - unfold AdminMonitoringConsumer.connect.
    destruct (is_admin_user u); cbn [negb existsb]; [|now left].
    cbv zeta. intros H.
    assert (H' : in_group g ch (group_add "admin_monitoring" channel (snd dl)) = true)
      by (via_groups H; reflexivity).
    apply Hadd in H' as [H'|H']; [now left|right; now rewrite H'].
  - destruct dl as [d L]. cbn [snd].
    destruct (serving channel L) as [[| | | |]|]; try (now left).
    + unfold receive.
      destruct fr as [| |[key|]|[key|]| |k|]; cbn [snd existsb];
        try (intros H; left; via_groups H; reflexivity).
      * destruct (key =? 0); [now left|].
        destruct (consumer_mark_notification_read u key d) as [[[|]|e] d'];
          cbn [snd]; intros H; left; via_groups H; reflexivity.
      * unfold RealtimeNotificationConsumer.handle_question_subscription.
        destruct (key =? 0); cbn [snd existsb]; [now left|].
        destruct (valid_group_name _); cbn [snd];
          [|intros H; left; via_groups H; reflexivity].
        intros H.
        assert (H' : in_group g ch (group_add ("question_" ++ str key) channel L) = true)
          by (via_groups H; reflexivity).
        apply Hadd in H' as [H'|H']; [now left|right; now rewrite H'].
    + unfold notifications_receive.
      destruct fr as [| |[key|]|[key|]| |[key|]|]; cbn [snd]; try (now left).
      destruct (consumer_mark_notification_read u key d) as [[b|e] d']; cbn [snd];
        now left.
Qed.

Lemma client_run_joined (now : string) (actions : list client_action)
  (dl : Db * ChannelLayer) (g ch : string) :
  in_group g ch (snd (client_run now actions dl)) = true ->
  in_group g ch (snd dl) = true
  \/ exists a, In a actions /\ In (g, ch) (joins a).
Proof.
  revert dl. induction actions as [|a rest IH]; intros dl; cbn [client_run];
    [now left|].
  intros H. apply IH in H as [H|(a' & Ha' & Hin)].
  - apply client_step_joins in H as [H|H]; [now left|]. right.
    apply existsb_exists in H as ((g', ch') & Hin & Hp).
    unfold is_pair in Hp. cbn [fst snd] in Hp. apply andb_true_iff in Hp as [Hg Hc].
    apply String.eqb_eq in Hg, Hc. subst. exists a. split; [now left|exact Hin].
  - right. exists a'. split; [now right|exact Hin].
Qed.

(** X20. Whatever sockets clients open and whatever frames they send,
    a channel is in the [admin_monitoring] group afterwards only if it was
    there before or the admin socket was opened on it by a user who passes
    [is_admin_user]: anonymous users, plain users, suspended admins, question
    sockets and question subscriptions never get there. *)
Theorem only_admins_join_admin_monitoring (now : string)
  (actions : list client_action) (dl : Db * ChannelLayer) (channel : string) :
  in_group "admin_monitoring" channel (snd (client_run now actions dl)) = true ->
  in_group "admin_monitoring" channel (snd dl) = true
  \/ exists u status,
       In (open_admin channel (Some u) status) actions /\ is_admin_user u = true.
Proof.
  intros H. apply client_run_joined in H as [H|(a & Ha & Hin)]; [now left|]. right.
  destruct a as [c [u|]|c [u|]|c qid qd|c acts|c [u|] st|c u fr];
    cbn [joins] in Hin; try (pair_cases Hin; discriminate).
  - destruct (is_admin_user u) eqn:E; [|destruct Hin]. destruct Hin as [Hin|[]].
    inversion Hin; subst. now exists u, st.
  - destruct fr as [| |[key|]|[key|]| |key'|]; try (pair_cases Hin; discriminate).
    destruct (key =? 0); pair_cases Hin; discriminate.
Qed.

Lemma only_admins_join_admin_monitoring_witness :
  let root := {| user_id := 9; username := "root"; role := role_admin;
                 is_suspended := false; reputation := 1 |} in
  let actions := [open_question "c2" "7" None;
                  open_admin "c1" (Some Site.alice) JNull;
                  open_admin "c1" (Some root) JNull] in
  in_group "admin_monitoring" "c1" Site.layer0 = true
  \/ exists u status,
       In (open_admin "c1" (Some u) status) actions /\ is_admin_user u = true.
Proof.
  cbv zeta.
  apply (only_admins_join_admin_monitoring "2026-01-01T00:00:00"
           [open_question "c2" "7" None;
            open_admin "c1" (Some Site.alice) JNull;
            open_admin "c1" (Some {| user_id := 9; username := "root";
                                     role := role_admin; is_suspended := false;
                                     reputation := 1 |}) JNull]
           (Site.db0, Site.layer0) "c1").
  vm_compute. reflexivity.
Defined.

(** X21. A channel is in the personal group [notifications_<k>] after a run
    only if it was there before or a notification socket was opened on it by
    the user whose id is [k]: no frame a client sends and no other socket
    puts a channel into somebody's personal group. *)
Theorem personal_group_joined_by_owner_only (now : string)
  (actions : list client_action) (dl : Db * ChannelLayer) (k : Z) (channel : string) :
  in_group ("notifications_" ++ str k) channel (snd (client_run now actions dl)) = true ->
  in_group ("notifications_" ++ str k) channel (snd dl) = true
  \/ exists u,
       user_id u = k
       /\ (In (open_notifications channel (Some u)) actions
           \/ In (open_notifications_app channel (Some u)) actions).
Proof.
  intros H. apply client_run_joined in H as [H|(a & Ha & Hin)]; [now left|]. right.
  destruct a as [c [u|]|c [u|]|c qid qd|c acts|c [u|] st|c u fr];
    cbn [joins] in Hin; try (pair_cases Hin; discriminate).
  - pair_cases Hin; try discriminate. subst.
    exists u. split; [|now left].
    match goal with E : str _ = str _ |- _ => now apply str_inj in E end.
  - pair_cases Hin; try discriminate. subst.
    exists u. split; [|now right].
    match goal with E : str _ = str _ |- _ => now apply str_inj in E end.
  - destruct (is_admin_user u); pair_cases Hin; discriminate.
  - destruct fr as [| |[key|]|[key|]| |key'|]; try (pair_cases Hin; discriminate).
    destruct (key =? 0); pair_cases Hin; discriminate.
Qed.

Lemma personal_group_joined_by_owner_only_witness :
  let actions := [open_notifications "c1" (Some Site.bob);
                  send_frame "c1" Site.bob (subscribe_to_question (Some 7))] in
  in_group "notifications_2" "c1" Site.layer0 = true
  \/ exists u,
       user_id u = 2
       /\ (In (open_notifications "c1" (Some u)) actions
           \/ In (open_notifications_app "c1" (Some u)) actions).
Proof.
  cbv zeta.
  apply (personal_group_joined_by_owner_only "2026-01-01T00:00:00"
           [open_notifications "c1" (Some Site.bob);
            send_frame "c1" Site.bob (subscribe_to_question (Some 7))]
           (Site.db0, Site.layer0) 2 "c1").
  vm_compute. reflexivity.
Defined.

(** ** What socket clients can write *)








(** ** Connecting and disconnecting *)

Lemma send_others (channel : string) (m : json) (L : ChannelLayer) :
  filter (fun c => negb (String.eqb (channel_name c) channel)) (connections (send channel m L))
  = filter (fun c => negb (String.eqb (channel_name c) channel)) (connections L).
Proof.
  unfold send. cbn [connections].
  induction (connections L) as [|c l IH]; cbn [map filter]; [reflexivity|].
  destruct (String.eqb (channel_name c) channel) eqn:E; cbn [channel_name negb].
  - rewrite E. exact IH.
  - rewrite E. cbn [negb]. now rewrite IH.
Qed.

Lemma accept_others (channel : string) (k : consumer_class) (L : ChannelLayer) :
  (forall c, In c (connections L) -> channel_name c <> channel) ->
  filter (fun c => negb (String.eqb (channel_name c) channel))
         (connections (accept channel k L))
  = connections L.
Proof.
  intros H. unfold accept. cbn [connections]. rewrite filter_app. cbn [filter channel_name].
  rewrite String.eqb_refl. cbn [negb]. rewrite app_nil_r.
  apply filter_all. intros c Hc. apply negb_true_iff, String.eqb_neq. now apply H.
Qed.

Lemma connections_group_add (group channel : string) (L : ChannelLayer) :
  connections (group_add group channel L) = connections L.
Proof. unfold group_add. now destruct (in_group group channel L). Qed.

Lemma fresh_not_in_group (group channel : string) (L : ChannelLayer) :
  (forall gc, In gc (groups L) -> snd gc <> channel) ->
  in_group group channel L = false.
Proof.
  intros H. unfold in_group. apply not_true_is_false. intros Hex.
  apply existsb_exists in Hex as (gc & Hin & Hp).
  apply andb_true_iff in Hp as [_ Hc]. apply String.eqb_eq in Hc. now apply (H gc).
Qed.

(** X23. A notification socket that connects on a fresh channel and
    disconnects leaves the channel layer exactly as it found it.  A
    [subscribe_to_question] frame with a non-zero id whose group name
    [question_<id>] the channel layer accepts joins that group, and
    disconnect does not leave it: the channel stays a member.  When the
    layer refuses the name, nothing is joined and the frame is answered
    with the error [Message processing failed]. *)
Theorem disconnect_undoes_connect_not_subscriptions (now : string) (channel : string)
  (u : User) (d : Db) (L : ChannelLayer) (key : Z) :
  (forall gc, In gc (groups L) -> snd gc <> channel) ->
  (forall c, In c (connections L) -> channel_name c <> channel) ->
  key <> 0 ->
  let Lc := RealtimeNotificationConsumer.connect now channel (Some u) d L in
  RealtimeNotificationConsumer.disconnect channel u Lc = L
  /\ (valid_group_name ("question_" ++ str key) = true ->
      exists L',
        receive now channel u (subscribe_to_question (Some key)) (d, Lc) = (d, L')
        /\ in_group ("question_" ++ str key) channel
             (RealtimeNotificationConsumer.disconnect channel u L') = true)
  /\ (valid_group_name ("question_" ++ str key) = false ->
      receive now channel u (subscribe_to_question (Some key)) (d, Lc)
      = (d, send channel
              (RealtimeConsumers.NotificationConsumer.send_error now
                 "Message processing failed") Lc)).
Proof.
  intros Hg Hc Hkey Lc.
  set (g1 := ("notifications_" ++ str (user_id u))%string).
  set (L2 := group_add "global_updates" channel (group_add g1 channel L)).
  set (others := fun c : Connection => negb (String.eqb (channel_name c) channel)).
  assert (HL2 : groups L2 = groups L ++ [(g1, channel); ("global_updates", channel)]).
  { unfold L2, group_add at 2. rewrite (fresh_not_in_group g1 channel L Hg).
    unfold group_add.
    replace (in_group "global_updates" channel _) with false.
    - cbn [groups]. now rewrite <- app_assoc.
    - symmetry. unfold in_group. cbn [groups]. rewrite existsb_app.
      fold (in_group "global_updates" channel L).
      rewrite (fresh_not_in_group _ channel L Hg). reflexivity. }
  assert (Hkeep : filter (fun gc => negb (String.eqb (fst gc) "global_updates"
                                          && String.eqb (snd gc) channel))
                    (filter (fun gc => negb (String.eqb (fst gc) g1
                                             && String.eqb (snd gc) channel))
                       (groups L))
                  = groups L).
  { rewrite (filter_all _ (groups L)), (filter_all _ (groups L)); [reflexivity| |];
      intros gc Hin; apply negb_true_iff, andb_false_iff; right;
      apply String.eqb_neq; now apply Hg. }
  assert (Hfresh : filter others (connections L) = connections L).
  { apply filter_all. intros c Hin. apply negb_true_iff, String.eqb_neq. now apply Hc. }
  split; [|split].
  - unfold Lc, RealtimeNotificationConsumer.connect. fold g1.
    destruct (valid_group_name g1).
    + cbv zeta. fold L2.
      assert (H4 : filter others
                     (connections
                        (send channel
                           (RealtimeConsumers.NotificationConsumer.connection_established
                              now)
                           (accept channel Realtime_NotificationConsumer L2)))
                   = connections L).
      { assert (HcL2 : connections L2 = connections L)
          by (unfold L2; now rewrite !connections_group_add).
        unfold others. rewrite send_others, <- HcL2. apply (accept_others channel _ L2).
        now rewrite HcL2. }
      assert (Hconn : forall L5,
                 groups L5 = groups L2 ->
                 filter others (connections L5) = connections L ->
                 RealtimeNotificationConsumer.disconnect channel u L5 = L).
      { intros L5 Hgr Hcn.
        unfold RealtimeNotificationConsumer.disconnect. cbv zeta. fold g1.
        unfold group_discard. cbn [groups connections]. fold others.
        rewrite Hcn, Hgr, HL2.
        rewrite !filter_app, Hkeep. cbn [filter fst snd].
        rewrite !String.eqb_refl. cbn [andb negb].
        replace (String.eqb "global_updates" g1) with false by reflexivity.
        cbn [andb negb filter fst snd]. rewrite !String.eqb_refl. cbn [andb negb].
        rewrite app_nil_r. now destruct L. }
      destruct (get_pending_notifications u d) as [[|n ns]|]; apply Hconn;
        try reflexivity; try exact H4.
      * unfold others. rewrite send_others. exact H4.
      * unfold close. cbn [connections]. fold others. rewrite H4. exact Hfresh.
    + unfold RealtimeNotificationConsumer.disconnect. cbv zeta.
      unfold group_discard. cbn [groups connections]. fold others.
      rewrite Hfresh.
      rewrite (filter_all _ (groups L)), (filter_all _ (groups L)); [now destruct L| |];
        intros gc Hin; apply negb_true_iff, andb_false_iff; right;
        apply String.eqb_neq; now apply Hg.
  - intros Hvalid.
    unfold receive, RealtimeNotificationConsumer.handle_question_subscription.
    apply Z.eqb_neq in Hkey. rewrite Hkey, Hvalid.
    eexists. split; [reflexivity|].
    unfold RealtimeNotificationConsumer.disconnect. cbv zeta. fold g1.
    unfold in_group, group_discard. cbn [groups].
    apply existsb_exists. exists (("question_" ++ str key)%string, channel). split.
    + apply filter_In. split; [apply filter_In; split|]; try reflexivity.
      assert (Hin : in_group ("question_" ++ str key) channel
                      (group_add ("question_" ++ str key) channel Lc) = true).
      { rewrite in_group_group_add. unfold is_pair. cbn [fst snd].
        rewrite !String.eqb_refl. now rewrite orb_true_r. }
      unfold in_group in Hin. apply existsb_exists in Hin as ((g', c') & Hin & Hp).
      apply andb_true_iff in Hp as [Hp1 Hp2]. cbn [fst snd] in Hp1, Hp2.
      apply String.eqb_eq in Hp1, Hp2. now subst.
    + cbn [fst snd]. now rewrite !String.eqb_refl.
  - intros Hinvalid.
    unfold receive, RealtimeNotificationConsumer.handle_question_subscription.
    apply Z.eqb_neq in Hkey. now rewrite Hkey, Hinvalid.
Qed.

Lemma disconnect_undoes_connect_not_subscriptions_witness :
  let L := {| groups := [("live_feed", "chan-5")];
              connections := [{| channel_name := "chan-5";
                                 consumer := Realtime_LiveFeedConsumer;
                                 outbox := [] |}] |} in
  let Lc := RealtimeNotificationConsumer.connect "2026-01-01T00:00:00" "chan-1"
              (Some Site.bob) Site.db0 L in
  RealtimeNotificationConsumer.disconnect "chan-1" Site.bob Lc = L
  /\ (exists L',
        receive "2026-01-01T00:00:00" "chan-1" Site.bob (subscribe_to_question (Some 7))
          (Site.db0, Lc) = (Site.db0, L')
        /\ in_group "question_7" "chan-1"
             (RealtimeNotificationConsumer.disconnect "chan-1" Site.bob L') = true)
  /\ valid_group_name ("question_" ++ str (10 ^ 100)) = false.
Proof.
  cbv zeta.
  pose proof (disconnect_undoes_connect_not_subscriptions "2026-01-01T00:00:00" "chan-1"
                Site.bob Site.db0
                {| groups := [("live_feed", "chan-5")];
                   connections := [{| channel_name := "chan-5";
                                      consumer := Realtime_LiveFeedConsumer;
                                      outbox := [] |}] |} 7) as H.
  cbv zeta in H.
  destruct H as (H1 & H2 & _).
  - cbn. intros gc [<-|[]]. cbn. discriminate.
  - cbn. intros c [<-|[]]. cbn. discriminate.
  - lia.
  - split; [exact H1|]. split; [apply H2; reflexivity|]. vm_compute. reflexivity.
Defined.

(** ** Pagination *)

Lemma chosen_page_size_bounds (p : EnhancedAPIView.int_param) :
  5 <= EnhancedAPIView.chosen_page_size p <= 100.
Proof. destruct p; unfold EnhancedAPIView.chosen_page_size; lia. Qed.

Lemma num_pages_bounds (n s : Z) :
  0 < s ->
  1 <= EnhancedAPIView.num_pages n s
  /\ Z.max 1 n <= EnhancedAPIView.num_pages n s * s
  /\ (EnhancedAPIView.num_pages n s - 1) * s < Z.max 1 n.
Proof.
  intros Hs. unfold EnhancedAPIView.num_pages.
  pose proof (Z.div_mod (Z.max 1 n + s - 1) s) as Hdm.
  pose proof (Z.mod_pos_bound (Z.max 1 n + s - 1) s Hs) as Hm.
  assert (Hne : s <> 0) by lia. specialize (Hdm Hne).
  set (N := (Z.max 1 n + s - 1) / s) in *.
  set (r := (Z.max 1 n + s - 1) mod s) in *.
  assert (H1 : Z.max 1 n <= N * s) by nia.
  assert (H2 : (N - 1) * s < Z.max 1 n) by nia.
  repeat split; try assumption. nia.
Qed.

Lemma slice_top {A : Type} (q : list A) (bottom s : Z) :
  0 < s ->
  firstn (Z.to_nat ((if Z.of_nat (List.length q) <=? bottom + s
                     then Z.of_nat (List.length q) else bottom + s) - bottom))
         (skipn (Z.to_nat bottom) q)
  = firstn (Z.to_nat s) (skipn (Z.to_nat bottom) q).
Proof.
  intros Hs. destruct (Z.of_nat (List.length q) <=? bottom + s) eqn:E.
  - apply Z.leb_le in E.
    rewrite !firstn_all2; try reflexivity; rewrite length_skipn; lia.
  - f_equal. lia.
Qed.

(** The page [paginate_queryset] serves. *)
Lemma paginate_queryset_spec {A : Type} (q : list A)
  (ps pg : EnhancedAPIView.int_param) :
  let s := EnhancedAPIView.chosen_page_size ps in
  let n := Z.of_nat (List.length q) in
  let N := EnhancedAPIView.num_pages n s in
  let k := if (1 <=? EnhancedAPIView.chosen_page pg)
              && (EnhancedAPIView.chosen_page pg <=? N)
           then EnhancedAPIView.chosen_page pg else 1 in
  EnhancedAPIView.paginate_queryset q ps pg
  = {| EnhancedAPIView.results :=
         firstn (Z.to_nat s) (skipn (Z.to_nat ((k - 1) * s)) q);
       EnhancedAPIView.current_page := k;
       EnhancedAPIView.total_pages := N;
       EnhancedAPIView.total_items := n;
       EnhancedAPIView.page_size := s;
       EnhancedAPIView.has_next := k <? N;
       EnhancedAPIView.has_previous := 1 <? k |}.
Proof.
  cbv zeta. unfold EnhancedAPIView.paginate_queryset.
  pose proof (chosen_page_size_bounds ps) as Hs.
  set (s := EnhancedAPIView.chosen_page_size ps) in *.
  set (n := Z.of_nat (List.length q)).
  destruct (num_pages_bounds n s) as (HN & _ & _); [lia|].
  set (N := EnhancedAPIView.num_pages n s) in *.
  set (c := EnhancedAPIView.chosen_page pg).
  assert (H1 : EnhancedAPIView.paginator_page q s 1
               = Some (firstn (Z.to_nat s) (skipn (Z.to_nat ((1 - 1) * s)) q), 1)).
  { unfold EnhancedAPIView.paginator_page. fold n. fold N.
    replace ((1 <? 1) || (N <? 1)) with false by (symmetry; apply orb_false_iff; lia).
    cbv zeta. unfold n. rewrite slice_top by lia. reflexivity. }
  destruct ((1 <=? c) && (c <=? N)) eqn:E.
  - apply andb_true_iff in E as [E1 E2].
    unfold EnhancedAPIView.paginator_page at 1. fold n. fold N.
    replace ((c <? 1) || (N <? c)) with false by (symmetry; apply orb_false_iff; lia).
    cbv zeta. unfold n. rewrite slice_top by lia. reflexivity.
  - unfold EnhancedAPIView.paginator_page at 1. fold n. fold N.
    replace ((c <? 1) || (N <? c)) with true
      by (symmetry; apply orb_true_iff; apply andb_false_iff in E; lia).
    rewrite H1. reflexivity.
Qed.

(** X24. The page [paginate_queryset] returns, whatever the request asks
    for: the page size lies between 5 and 100, the page number between 1 and
    the number of pages, the rows are the slice of the queryset that starts
    at [(page - 1) * page_size] and has at most [page_size] rows, a page of a
    queryset that has rows is never empty, and a page number that cannot be
    served (below 1, beyond the last page, or not a number) gives page 1. *)
Theorem paginate_queryset_serves_a_valid_page {A : Type} (q : list A)
  (ps pg : EnhancedAPIView.int_param) :
  let p := EnhancedAPIView.paginate_queryset q ps pg in
  let size := EnhancedAPIView.page_size p in
  let k := EnhancedAPIView.current_page p in
  5 <= size <= 100
  /\ 1 <= k <= EnhancedAPIView.total_pages p
  /\ EnhancedAPIView.total_items p = Z.of_nat (List.length q)
  /\ EnhancedAPIView.results p
     = firstn (Z.to_nat size) (skipn (Z.to_nat ((k - 1) * size)) q)
  /\ Z.of_nat (List.length (EnhancedAPIView.results p)) <= size
  /\ (q <> [] -> EnhancedAPIView.results p <> [])
  /\ (k = EnhancedAPIView.chosen_page pg \/ k = 1)
  /\ (1 <= EnhancedAPIView.chosen_page pg <= EnhancedAPIView.total_pages p ->
      k = EnhancedAPIView.chosen_page pg).
Proof.
  cbv zeta. rewrite paginate_queryset_spec.
  cbn [EnhancedAPIView.results EnhancedAPIView.current_page EnhancedAPIView.total_pages
       EnhancedAPIView.total_items EnhancedAPIView.page_size].
  pose proof (chosen_page_size_bounds ps) as Hs.
  set (s := EnhancedAPIView.chosen_page_size ps) in *.
  set (n := Z.of_nat (List.length q)).
  destruct (num_pages_bounds n s) as (HN & Hhi & Hlo); [lia|].
  set (N := EnhancedAPIView.num_pages n s) in *.
  set (c := EnhancedAPIView.chosen_page pg).
  set (k := if (1 <=? c) && (c <=? N) then c else 1).
  assert (Hk : 1 <= k <= N).
  { unfold k. destruct ((1 <=? c) && (c <=? N)) eqn:E; [|lia].
    apply andb_true_iff in E. lia. }
  repeat split; try lia.
  - rewrite length_firstn. lia.
  - intros Hq Hnil.
    assert (Hn : 1 <= n) by (unfold n; destruct q; [contradiction|cbn; lia]).
    apply (f_equal (@List.length A)) in Hnil.
    rewrite length_firstn, length_skipn in Hnil. cbn [List.length] in Hnil.
    assert ((k - 1) * s < n) by nia.
    unfold n in *. lia.
  - unfold k. destruct ((1 <=? c) && (c <=? N)); [now left|now right].
  - intros Hc. unfold k.
    replace ((1 <=? c) && (c <=? N)) with true; [reflexivity|].
    symmetry. apply andb_true_iff. lia.
Qed.

Lemma chunks_concat {A : Type} (s N : nat) (q : list A) :
  (List.length q <= N * s)%nat ->
  List.concat (map (fun k => firstn s (skipn (k * s) q)) (seq 0 N)) = q.
Proof.
  revert q. induction N as [|N IH]; intros q Hlen.
  - cbn in *. destruct q; [reflexivity|cbn in Hlen; lia].
  - cbn [seq map List.concat]. rewrite <- seq_shift, map_map. cbn [Nat.mul skipn].
    transitivity (firstn s q ++ skipn s q); [|apply firstn_skipn]. f_equal.
    rewrite <- (IH (skipn s q)) by (rewrite length_skipn; lia).
    f_equal. apply map_ext. intros k. f_equal.
    rewrite skipn_skipn. f_equal. lia.
Qed.

(** X25. Reading the pages 1 to [total_pages] one after the other gives
    the queryset back: every row is served on exactly one page, in order. *)
Theorem pages_partition_the_queryset {A : Type} (q : list A)
  (ps : EnhancedAPIView.int_param) :
  let pages := Z.to_nat (EnhancedAPIView.total_pages
                           (EnhancedAPIView.paginate_queryset q ps
                              EnhancedAPIView.absent)) in
  List.concat (map (fun k => EnhancedAPIView.results
                          (EnhancedAPIView.paginate_queryset q ps
                             (EnhancedAPIView.number (Z.of_nat k))))
              (seq 1 pages))
  = q.
Proof.
  cbv zeta. rewrite paginate_queryset_spec. cbn [EnhancedAPIView.total_pages].
  pose proof (chosen_page_size_bounds ps) as Hs.
  set (s := EnhancedAPIView.chosen_page_size ps) in *.
  set (n := Z.of_nat (List.length q)).
  destruct (num_pages_bounds n s) as (HN & Hhi & Hlo); [lia|].
  set (N := EnhancedAPIView.num_pages n s) in *.
  rewrite <- seq_shift, map_map.
  transitivity (List.concat (map (fun k => firstn (Z.to_nat s) (skipn (k * Z.to_nat s) q))
                              (seq 0 (Z.to_nat N))));
    [|apply chunks_concat; unfold n in *; nia].
  f_equal. apply map_ext_in. intros k Hk. apply in_seq in Hk.
  rewrite paginate_queryset_spec. cbn [EnhancedAPIView.results EnhancedAPIView.chosen_page].
  fold s. fold n. fold N.
  assert (Hin : (1 <=? Z.of_nat (S k)) && (Z.of_nat (S k) <=? N) = true)
    by (apply andb_true_iff; split; apply Z.leb_le; lia).
  rewrite Hin. f_equal. f_equal.
  replace (Z.of_nat (S k) - 1) with (Z.of_nat k) by lia.
  rewrite Z2Nat.inj_mul by lia. now rewrite Nat2Z.id.
Qed.

(** ** Ordering, thresholds and counts *)

Lemma lstrip_dash_dashes (s : string) :
  exists n, s = (dashes n ++ ComplexityReducer.lstrip_dash s)%string.
Proof.
  induction s as [|c r [n IH]]; [now exists O|].
  cbn [ComplexityReducer.lstrip_dash]. destruct (Ascii.eqb c "-") eqn:E.
  - apply Ascii.eqb_eq in E. subst c. exists (S n). cbn [dashes append]. now f_equal.
  - now exists O.
Qed.

(** X26. The ordering [build_order_clause] returns is the default or the
    one the request asks for, and the request is followed exactly when what
    is left of it after its leading dashes is an allowed field: so what is
    returned from a request is an allowed field behind any number of dashes,
    and a request for anything else gets the default. *)
Theorem build_order_clause_follows_the_whitelist (order_by : option string)
  (allowed_fields : list string) (default : string) :
  let r := ComplexityReducer.build_order_clause order_by allowed_fields default in
  (r = default
   \/ exists n field,
        In field allowed_fields /\ order_by = Some r
        /\ r = (dashes n ++ field)%string)
  /\ (forall o, order_by = Some o ->
        In (ComplexityReducer.lstrip_dash o) allowed_fields -> r = o)
  /\ (forall o, order_by = Some o ->
        ~ In (ComplexityReducer.lstrip_dash o) allowed_fields -> r = default).
Proof.
  cbv zeta. unfold ComplexityReducer.build_order_clause.
  destruct order_by as [o|].
  - destruct (existsb (String.eqb (ComplexityReducer.lstrip_dash o)) allowed_fields)
      eqn:E.
    + apply existsb_exists in E as (f & Hin & Hf). apply String.eqb_eq in Hf.
      split; [|split].
      * right. destruct (lstrip_dash_dashes o) as [n Hn].
        exists n, f. split; [exact Hin|]. split; [reflexivity|]. now rewrite <- Hf.
      * intros o' Ho _. now inversion Ho.
      * intros o' Ho Hnot. inversion Ho; subst o'. exfalso. apply Hnot.
        now rewrite Hf.
    + split; [now left|]. split; [|reflexivity].
      intros o' Ho Hin. inversion Ho; subst o'.
      assert (Hex : existsb (String.eqb (ComplexityReducer.lstrip_dash o)) allowed_fields
                    = true).
      { apply existsb_exists. exists (ComplexityReducer.lstrip_dash o).
        split; [exact Hin|apply String.eqb_refl]. }
      congruence.
  - split; [|split; discriminate]. left.
    now destruct (existsb _ allowed_fields).
Qed.

Lemma threshold_get_nonneg (action_type : string) :
  0 <= threshold_get action_type thresholds.
Proof.
  unfold thresholds. cbn [threshold_get].
  repeat match goal with |- context [String.eqb ?a ?b] => destruct (String.eqb a b) end;
    lia.
Qed.

Lemma validate_reputation_threshold_Ok (u : User) (action_type : string) (s : State) :
  MoreBusinessRules.validate_reputation_threshold u action_type s = (Ok tt, s)
  <-> threshold_get action_type thresholds <= reputation u.
Proof.
  unfold MoreBusinessRules.validate_reputation_threshold. cbv zeta.
  destruct (reputation u <? threshold_get action_type thresholds) eqn:E.
  - apply Z.ltb_lt in E. unfold raise. split; [discriminate|lia].
  - apply Z.ltb_ge in E. unfold ret. split; [intros _; lia|reflexivity].
Qed.

(** X27. The reputation thresholds of the validator and the privileges
    of the user model agree for a user who is not suspended: the validator
    lets the user downvote exactly when [can_vote] holds, comment exactly
    when [can_comment] holds and, for a user who is no moderator, edit
    exactly when [can_edit_posts] holds; the user is a [New Member] exactly
    when they cannot vote.  A user whose reputation is negative is refused
    every action, also one the table of thresholds does not list. *)
Theorem reputation_thresholds_agree_with_privileges (u : User) (s : State) :
  is_suspended u = false ->
  (MoreBusinessRules.validate_reputation_threshold u "downvote" s = (Ok tt, s)
   <-> can_vote u = true)
  /\ (MoreBusinessRules.validate_reputation_threshold u "comment" s = (Ok tt, s)
      <-> can_comment u = true)
  /\ (is_moderator u = false ->
      (MoreBusinessRules.validate_reputation_threshold u "edit" s = (Ok tt, s)
       <-> can_edit_posts u = true))
  /\ (calculate_reputation_level u = "New Member" <-> can_vote u = false)
  /\ (reputation u < 0 ->
      forall action_type,
        MoreBusinessRules.validate_reputation_threshold u action_type s <> (Ok tt, s)).
Proof.
  intros Hs. rewrite !validate_reputation_threshold_Ok.
  unfold can_vote, can_comment, can_edit_posts. rewrite Hs. cbn [negb threshold_get thresholds].
  rewrite !andb_true_r. cbn.
  split; [symmetry; apply Z.leb_le|].
  split; [symmetry; apply Z.leb_le|].
  split; [intros Hm; rewrite Hm, orb_false_r; symmetry; apply Z.leb_le|].
  split.
  - unfold calculate_reputation_level. split; intros H.
    + destruct (reputation u <? 15) eqn:E; [apply Z.leb_gt; lia|].
      repeat match type of H with
             | (if ?c then _ else _) = _ => destruct c; try discriminate
             end.
    + apply Z.leb_gt in H.
      replace (reputation u <? 15) with true by (symmetry; apply Z.ltb_lt; lia).
      reflexivity.
  - intros Hneg action_type H. apply validate_reputation_threshold_Ok in H.
    pose proof (threshold_get_nonneg action_type). lia.
Qed.

Lemma reputation_thresholds_agree_with_privileges_witness :
  (MoreBusinessRules.validate_reputation_threshold Site.bob "downvote" Site.s0
   = (Ok tt, Site.s0)
   <-> can_vote Site.bob = true)
  /\ (MoreBusinessRules.validate_reputation_threshold Site.bob "comment" Site.s0
      = (Ok tt, Site.s0)
      <-> can_comment Site.bob = true)
  /\ (is_moderator Site.bob = false ->
      (MoreBusinessRules.validate_reputation_threshold Site.bob "edit" Site.s0
       = (Ok tt, Site.s0)
       <-> can_edit_posts Site.bob = true))
  /\ (calculate_reputation_level Site.bob = "New Member" <-> can_vote Site.bob = false)
  /\ (reputation Site.bob < 0 ->
      forall action_type,
        MoreBusinessRules.validate_reputation_threshold Site.bob action_type Site.s0
        <> (Ok tt, Site.s0)).
Proof.
  apply (reputation_thresholds_agree_with_privileges Site.bob Site.s0). reflexivity.
Defined.

Lemma sum_by_counts (l : list Vote) :
  (forall v, In v l -> vote_value v = 1 \/ vote_value v = -1) ->
  fold_right Z.add 0 (map vote_value l)
  = Z.of_nat (List.length (filter (fun v => vote_value v =? 1) l))
    - Z.of_nat (List.length (filter (fun v => vote_value v =? -1) l)).
Proof.
  induction l as [|v l IH]; intros H; [reflexivity|].
  cbn [map fold_right filter]. rewrite IH by (intros w Hw; apply H; now right).
  destruct (H v (or_introl eq_refl)) as [E|E]; rewrite E.
  - change (1 =? 1) with true. change (1 =? -1) with false.
    cbn [List.length]. rewrite Nat2Z.inj_succ. lia.
  - change (-1 =? 1) with false. change (-1 =? -1) with true.
    cbn [List.length]. rewrite Nat2Z.inj_succ. lia.
Qed.

(** X28. When every stored vote is an upvote (1) or a downvote (-1), the
    score of an answer is its number of upvotes minus its number of
    downvotes, and so is the score [Question.vote_score] computes when the
    cache holds none for the question. *)
Theorem vote_score_is_upvotes_minus_downvotes (s : State) :
  (forall v, In v (votes (db s)) -> vote_value v = 1 \/ vote_value v = -1) ->
  (forall a, Answers.vote_score a (db s)
             = AnswerVotes.upvote_count a (db s) - AnswerVotes.downvote_count a (db s))
  /\ (forall q, Questions.cache_get (vote_score_key q) (cache s) = None ->
                fst (Questions.vote_score q s)
                = QuestionVotes.upvote_count q (db s)
                  - QuestionVotes.downvote_count q (db s)).
Proof.
  intros H. split.
  - intros a. unfold Answers.vote_score, AnswerVotes.upvote_count,
      AnswerVotes.downvote_count.
    apply sum_by_counts. intros v Hv. apply H.
    unfold Answers.votes_of in Hv. now apply filter_In in Hv.
  - intros q Hc. unfold Questions.vote_score. cbv zeta.
    unfold vote_score_key in Hc. rewrite Hc. cbn [fst].
    unfold QuestionVotes.upvote_count, QuestionVotes.downvote_count.
    apply sum_by_counts. intros v Hv. apply H.
    unfold Questions.votes_of in Hv. now apply filter_In in Hv.
Qed.

(** alice upvotes bob's answer: one upvote, no downvote, score 1. *)
Lemma vote_score_is_upvotes_minus_downvotes_witness :
  let s := snd (Votes.toggle_vote "2026-01-01T00:00:00" Site.alice
                  (an_answer Site.a3) 1 Site.s0) in
  (forall v, In v (votes (db s)) -> vote_value v = 1 \/ vote_value v = -1)
  /\ (forall a, Answers.vote_score a (db s)
                = AnswerVotes.upvote_count a (db s) - AnswerVotes.downvote_count a (db s))
  /\ (forall q, Questions.cache_get (vote_score_key q) (cache s) = None ->
                fst (Questions.vote_score q s)
                = QuestionVotes.upvote_count q (db s)
                  - QuestionVotes.downvote_count q (db s)).
Proof.
  cbv zeta.
  assert (H : forall v,
             In v (votes (db (snd (Votes.toggle_vote "2026-01-01T00:00:00" Site.alice
                                     (an_answer Site.a3) 1 Site.s0)))) ->
             vote_value v = 1 \/ vote_value v = -1).
  { intros v Hv. vm_compute in Hv. destruct Hv as [<-|[]]. now left. }
  split; [exact H|].
  exact (vote_score_is_upvotes_minus_downvotes _ H).
Defined.
